(** * Reimagine clinic: billing and appointment book

    A shallow embedding of [Dermatologist_billing.py]: the bill formatter
    ([Patient.get_bill_text]), the two JSON-backed stores (treatment
    catalog, appointment list) and the appointment callbacks of
    [ClinicApp].

    Conventions of the model.
    - A Python [str] is a [string]; its characters are the code points
      0..255 of Stdlib's [ascii].  A JSON text that names a character
      above these by an escape has no value here: the loader of the
      model refuses it, where [json.load] reads it; the statements
      about a file that does not parse are about the files that name
      no such character.
    - A Python [int] is a [Z].  A Python [float] is an IEEE binary64 value
      ([Float64.float]).  The bill refuses an [int] of more than 4300
      digits, as CPython does since 3.11; elsewhere an [int] is
      written out whatever its length.
    - A callback that raises is a computation returning [Raise e]. *)

From Stdlib Require Import ZArith String Ascii List Lia Bool.
From Stdlib Require Import DecimalString DecimalPos DecimalN SpecFloat.
From Stdlib Require Import OrderedTypeEx Sorting.Sorted Sorting.Permutation.
From stdpp Require Import gmap strings list.

Local Open Scope Z_scope.

(* ===================================================================== *)
(** * Part I: definitions                                                 *)
(* ===================================================================== *)

(** ** Exceptions and results *)

Inductive exn :=
  | OverflowError
  | ValueError
  | TypeError
  | AttributeError
  | KeyError (key : string)
  | OSError.

Inductive result (A : Type) :=
  | Ok (a : A)
  | Raise (e : exn).
Arguments Ok {A} a.
Arguments Raise {A} e.

Definition rbind {A B} (r : result A) (k : A -> result B) : result B :=
  match r with
  | Ok a => k a
  | Raise e => Raise e
  end.

Notation "'do' x <- r ; k" := (rbind r (fun x => k))
  (at level 10, x name, r at level 100, k at level 200).

(** ** Python strings *)

Module Str.

(** [s * n] *)
Fixpoint mul (s : string) (n : nat) : string :=
  match n with
  | O => EmptyString
  | S n' => s +:+ mul s n'
  end.

Definition len (s : string) : Z := Z.of_nat (String.length s).

Definition spaces (n : Z) : string := mul " " (Z.to_nat n).

(** [f"{s:<w}"], [f"{s:>w}"] and [f"{s:^w}"]: pad with blanks up to the
    width, never truncate; centring gives the smaller half to the left. *)
Definition ljust (w : Z) (s : string) : string := s +:+ spaces (w - len s).
Definition rjust (w : Z) (s : string) : string := spaces (w - len s) +:+ s.
Definition center (w : Z) (s : string) : string :=
  let pad := Z.max 0 (w - len s) in
  let left := pad / 2 in
  spaces left +:+ s +:+ spaces (pad - left).

(** [sep.join(l)] *)
Fixpoint join (sep : string) (l : list string) : string :=
  match l with
  | [] => EmptyString
  | [x] => x
  | x :: l' => x +:+ sep +:+ join sep l'
  end.

(** [str(n)] for an [int] *)
Definition of_N (n : N) : string := NilEmpty.string_of_uint (N.to_uint n).
Definition of_Z (z : Z) : string :=
  if z <? 0 then "-" +:+ of_N (Z.to_N (- z)) else of_N (Z.to_N z).

(** A non-negative number zero-padded to at least [w] digits ([%02d]). *)
Definition zfill (w : Z) (n : Z) : string :=
  let s := of_N (Z.to_N n) in mul "0" (Z.to_nat (w - len s)) +:+ s.

Definition is_digit (c : ascii) : bool :=
  let n := nat_of_ascii c in (48 <=? n)%nat && (n <=? 57)%nat.

(** [c.isspace()] on the code points 0..255 *)
Definition is_space (c : ascii) : bool :=
  let n := nat_of_ascii c in
  ((9 <=? n)%nat && (n <=? 13)%nat) || ((28 <=? n)%nat && (n <=? 32)%nat)
  || (n =? 133)%nat || (n =? 160)%nat.

Fixpoint lstrip (s : string) : string :=
  match s with
  | EmptyString => EmptyString
  | String c s' => if is_space c then lstrip s' else s
  end.

(** Drops trailing blanks: the result of the tail is kept unless it is
    empty and the head is a blank too. *)
Fixpoint rstrip (s : string) : string :=
  match s with
  | EmptyString => EmptyString
  | String c s' =>
      match rstrip s' with
      | EmptyString => if is_space c then EmptyString else String c EmptyString
      | r => String c r
      end
  end.

(** [s.strip()] *)
Definition strip (s : string) : string := rstrip (lstrip s).

(** [c.lower()] on the code points 0..255: A..Z and the accented
    capitals 192..222 (but the multiplication sign 215) move up by 32. *)
Definition lower_char (c : ascii) : ascii :=
  let n := nat_of_ascii c in
  if ((65 <=? n)%nat && (n <=? 90)%nat)
     || ((192 <=? n)%nat && (n <=? 222)%nat && negb (n =? 215)%nat)
  then ascii_of_nat (n + 32) else c.

Fixpoint lower (s : string) : string :=
  match s with
  | EmptyString => EmptyString
  | String c s' => String (lower_char c) (lower s')
  end.

Fixpoint prefixb (p s : string) : bool :=
  match p, s with
  | EmptyString, _ => true
  | String a p', String b s' => Ascii.eqb a b && prefixb p' s'
  | String _ _, EmptyString => false
  end.

(** [q in s] for two strings: [q] occurs in [s] as a contiguous run. *)
Fixpoint contains (q s : string) : bool :=
  prefixb q s ||
  match s with
  | EmptyString => false
  | String _ s' => contains q s'
  end.

End Str.

(** ** IEEE binary64, the Python [float]

    Every finite binary64 number is an integer multiple of [2^-1074]; a
    finite float is kept as its sign and its magnitude [v] counted in
    that unit, where [v] has at most 53 significant bits and is below
    [2^2098] (the value [2^1024]).  An operation computes the exact
    rational result and rounds it to the nearest such magnitude, ties to
    the even significand. *)

Module Float64.

Inductive float :=
  | Fin (s : bool) (v : Z)
  | Inf (s : bool)
  | NaN.

Definition unit_exp : Z := 1074.
Definition one : Z := 2 ^ unit_exp.
Definition overflow : Z := 2 ^ 2098.
Definition max_finite : Z := (2 ^ 53 - 1) * 2 ^ 2045.

(** Nearest integer to [n/d], ties to even ([0 <= n], [0 < d]). *)
Definition rne_div (n d : Z) : Z :=
  let q := n / d in
  match 2 * (n mod d) ?= d with
  | Lt => q
  | Gt => q + 1
  | Eq => if Z.even q then q else q + 1
  end.

(** Bits dropped when a magnitude of integer part [N] is rounded to 53
    significant bits. *)
Definition shift_of (N : Z) : Z := Z.max 0 (Z.log2 N - 52).

(** The magnitude nearest to [n/d] units. *)
Definition round_units (n d : Z) : Z :=
  let sh := shift_of (n / d) in
  rne_div n (d * 2 ^ sh) * 2 ^ sh.

(** A rounded magnitude as a float: infinity from [2^1024] on. *)
Definition pack (s : bool) (v : Z) : float :=
  if v <? overflow then Fin s v else Inf s.

(** [float(z)] for an [int]: [OverflowError] when out of range. *)
Definition of_int (z : Z) : result float :=
  let v := round_units (Z.abs z * one) 1 in
  if v <? overflow then Ok (Fin (z <? 0) v) else Raise OverflowError.

(** [a / b] for two [int]s with [b > 0]: the correctly rounded
    quotient. *)
Definition int_truediv (a b : Z) : result float :=
  let v := round_units (Z.abs a * one) b in
  if v <? overflow then Ok (Fin (a <? 0) v) else Raise OverflowError.

Definition neg (x : float) : float :=
  match x with
  | Fin s v => Fin (negb s) v
  | Inf s => Inf (negb s)
  | NaN => NaN
  end.

Definition mul (x y : float) : float :=
  match x, y with
  | NaN, _ | _, NaN => NaN
  | Inf sx, Inf sy => Inf (xorb sx sy)
  | Inf sx, Fin sy vy => if vy =? 0 then NaN else Inf (xorb sx sy)
  | Fin sx vx, Inf sy => if vx =? 0 then NaN else Inf (xorb sx sy)
  | Fin sx vx, Fin sy vy => pack (xorb sx sy) (round_units (vx * vy) one)
  end.

Definition signed (s : bool) (v : Z) : Z := if s then - v else v.

(** [x - y]; an exact zero difference is [+0.0] unless it is
    [(-0.0) - (+0.0)]. *)
Definition sub (x y : float) : float :=
  match x, y with
  | NaN, _ | _, NaN => NaN
  | Inf sx, Inf sy => if Bool.eqb sx sy then NaN else Inf sx
  | Inf sx, Fin _ _ => Inf sx
  | Fin _ _, Inf sy => Inf (negb sy)
  | Fin sx vx, Fin sy vy =>
      let r := signed sx vx - signed sy vy in
      if r =? 0 then Fin (sx && negb sy && (vx =? 0)) 0
      else pack (r <? 0) (round_units (Z.abs r) 1)
  end.

(** [x > 0] *)
Definition gt0 (x : float) : bool :=
  match x with
  | Fin s v => negb s && (0 <? v)
  | Inf s => negb s
  | NaN => false
  end.

(** [format(x, ".2f")]: the exact value rounded to hundredths, ties to
    even. *)
Definition format_2f (x : float) : string :=
  match x with
  | Fin s v =>
      let cents := rne_div (v * 100) one in
      (if s then "-" else "")
        +:+ Str.of_N (Z.to_N (cents / 100)) +:+ "." +:+ Str.zfill 2 (cents mod 100)
  | Inf s => if s then "-inf" else "inf"
  | NaN => "nan"
  end.

(** The same number in Stdlib's [spec_float], for comparison with the
    reference operations [SFmul], [SFsub] and [SFdiv]. *)
Definition to_spec (x : float) : spec_float :=
  match x with
  | Fin s v =>
      match v with
      | Z0 => S754_zero s
      | _ =>
          let sh := shift_of v in
          match v / 2 ^ sh with
          | Zpos m => S754_finite s m (sh - unit_exp)
          | _ => S754_nan
          end
      end
  | Inf s => S754_infinity s
  | NaN => S754_nan
  end.

End Float64.

(** A Python number: an [int] or a [float]. *)
Inductive pynum :=
  | PInt (z : Z)
  | PFloat (x : Float64.float).

(** [f"{x:.2f}"]: an [int] is converted to a [float] first. *)
Definition format_2f (x : pynum) : result string :=
  match x with
  | PInt z => do f <- Float64.of_int z; Ok (Float64.format_2f f)
  | PFloat f => Ok (Float64.format_2f f)
  end.

(** [x > 0] *)
Definition pynum_gt0 (x : pynum) : bool :=
  match x with
  | PInt z => 0 <? z
  | PFloat f => Float64.gt0 f
  end.

(** [-x] *)
Definition pynum_neg (x : pynum) : pynum :=
  match x with
  | PInt z => PInt (- z)
  | PFloat f => PFloat (Float64.neg f)
  end.

(** ** Dates and the clock *)

Record date := mkdate { year : Z; month : Z; day : Z }.

Record datetime := mkdatetime {
  dt_date : date;
  hour : Z;
  minute : Z;
  second : Z
}.

(** [d1 < d2] on calendar dates *)
Definition date_ltb (a b : date) : bool :=
  (year a <? year b)
  || ((year a =? year b)
      && ((month a <? month b) || ((month a =? month b) && (day a <? day b)))).

(** [d1 >= d2] *)
Definition date_geb (a b : date) : bool := negb (date_ltb a b).

(** [now.strftime("%d-%m-%Y %I:%M %p")] *)
Definition strftime_bill (now : datetime) : string :=
  let d := dt_date now in
  let h12 := if hour now mod 12 =? 0 then 12 else hour now mod 12 in
  Str.zfill 2 (day d) +:+ "-" +:+ Str.zfill 2 (month d) +:+ "-" +:+ Str.zfill 4 (year d)
    +:+ " " +:+ Str.zfill 2 h12 +:+ ":" +:+ Str.zfill 2 (minute now)
    +:+ " " +:+ (if hour now <? 12 then "AM" else "PM").

(** [datetime.strptime(s, "%Y-%m-%d")].  The format is matched as
    CPython matches it: four digits, a dash, a month written [1[0-2]],
    [0[1-9]] or [[1-9]], a dash, and a day written [3[0-1]], [[1-2]\d],
    [0[1-9]], [[1-9]] or a blank and [[1-9]]; the alternatives are tried
    in this order, nothing may follow the day, and the three numbers must
    form a calendar date of the years 1..9999. *)

Definition digit_val (c : ascii) : option Z :=
  if Str.is_digit c then Some (Z.of_nat (nat_of_ascii c) - 48) else None.

Definition digit_in (lo hi : Z) (c : ascii) : option Z :=
  match digit_val c with
  | Some v => if (lo <=? v) && (v <=? hi) then Some v else None
  | None => None
  end.

Definition match_year (s : string) : option (Z * string) :=
  match s with
  | String a (String b (String c (String d r))) =>
      match digit_val a, digit_val b, digit_val c, digit_val d with
      | Some a, Some b, Some c, Some d => Some (1000 * a + 100 * b + 10 * c + d, r)
      | _, _, _, _ => None
      end
  | _ => None
  end.

Definition match_dash (s : string) : option string :=
  match s with
  | String "-" r => Some r
  | _ => None
  end.

(** Two characters [a b] with [a] in [alo..ahi] and [b] in [blo..bhi]. *)
Definition match_two (alo ahi blo bhi : Z) (s : string) : option (Z * string) :=
  match s with
  | String a (String b r) =>
      match digit_in alo ahi a, digit_in blo bhi b with
      | Some a, Some b => Some (10 * a + b, r)
      | _, _ => None
      end
  | _ => None
  end.

Definition match_one (lo hi : Z) (s : string) : option (Z * string) :=
  match s with
  | String a r => match digit_in lo hi a with Some a => Some (a, r) | None => None end
  | _ => None
  end.

(** The first alternative of [alts] after which [k] succeeds. *)
Fixpoint first_alt {A} (alts : list (string -> option (Z * string)))
    (k : Z -> string -> option A) (s : string) : option A :=
  match alts with
  | [] => None
  | alt :: alts' =>
      match alt s with
      | Some (v, r) =>
          match k v r with
          | Some a => Some a
          | None => first_alt alts' k s
          end
      | None => first_alt alts' k s
      end
  end.

Definition month_alts : list (string -> option (Z * string)) :=
  [match_two 1 1 0 2; match_two 0 0 1 9; match_one 1 9].

Definition day_alts : list (string -> option (Z * string)) :=
  [match_two 3 3 0 1; match_two 1 2 0 9; match_two 0 0 1 9; match_one 1 9;
   fun s => match s with String " " r => match_one 1 9 r | _ => None end].

Definition is_leap (y : Z) : bool :=
  (y mod 4 =? 0) && (negb (y mod 100 =? 0) || (y mod 400 =? 0)).

Definition days_in_month (y m : Z) : Z :=
  if m =? 2 then (if is_leap y then 29 else 28)
  else if (m =? 4) || (m =? 6) || (m =? 9) || (m =? 11) then 30
  else 31.

Definition valid_date (d : date) : bool :=
  (1 <=? year d) && (year d <=? 9999) && (1 <=? month d) && (month d <=? 12)
  && (1 <=? day d) && (day d <=? days_in_month (year d) (month d)).

(** The regular expression: the whole pattern must match a prefix; the
    text left over is returned with the numbers. *)
Definition match_format (s : string) : option (date * string) :=
  match match_year s with
  | Some (y, r) =>
      match match_dash r with
      | Some r =>
          first_alt month_alts (fun m r =>
            match match_dash r with
            | Some r => first_alt day_alts (fun d r => Some (mkdate y m d, r)) r
            | None => None
            end) r
      | None => None
      end
  | None => None
  end.

(** [None] stands for the [ValueError] of [strptime]. *)
Definition strptime (s : string) : option date :=
  match match_format s with
  | Some (d, EmptyString) => if valid_date d then Some d else None
  | _ => None
  end.

(** ** Treatments and patients *)

(** [GenericTreatment(name, cost)] *)
Record Treatment := mkTreatment {
  get_name : string;
  get_cost : Z
}.

(** [Patient(name, phone, patient_type, vip_discount)] with its treatment
    list and prescription. *)
Record Patient := mkPatient {
  p_name : string;
  p_phone : string;
  p_treatments : list Treatment;
  p_prescription : string;
  p_patient_type : string;
  p_vip_discount : Z
}.

Definition add_treatment (p : Patient) (t : Treatment) : Patient :=
  mkPatient (p_name p) (p_phone p) (p_treatments p ++ [t]) (p_prescription p)
            (p_patient_type p) (p_vip_discount p).

Definition set_prescription (p : Patient) (text : string) : Patient :=
  mkPatient (p_name p) (p_phone p) (p_treatments p) text
            (p_patient_type p) (p_vip_discount p).

Definition width : Z := 60.

(** An [int] is written out in decimal when it has at most 4300
    digits; above that [str], [format] and an f-string raise
    [ValueError]. *)
Definition max_str_digits : Z := 4300.

Definition writable_int (z : Z) : bool := Z.abs z <? 10 ^ max_str_digits.

#[global] Arguments writable_int : simpl never.

(** The line of one treatment, [f"{name:<35}{cost:>20}"], for a cost
    that can be written out. *)
Definition treatment_line (t : Treatment) : string :=
  Str.ljust 35 (get_name t) +:+ Str.rjust 20 (Str.of_Z (get_cost t)).

(** The f-string on the cost as it comes. *)
Definition format_treatment (t : Treatment) : result string :=
  if writable_int (get_cost t) then Ok (treatment_line t) else Raise ValueError.

(** A money line: [f"{label:<35}{x:>20.2f}"]. *)
Definition money_line (label : string) (x : pynum) : result string :=
  do s <- format_2f x; Ok (Str.ljust 35 label +:+ Str.rjust 20 s).

(** The loop over the treatments: one line each, summing the costs. *)
Fixpoint bill_loop (ts : list Treatment) (lines : list string) (total : Z)
  : result (list string * Z) :=
  match ts with
  | [] => Ok (lines, total)
  | t :: ts' =>
      do line <- format_treatment t;
      bill_loop ts' (lines ++ [line]) (total + get_cost t)
  end.

(** [discount] and [total_after_discount] of [get_bill_text]. *)
Definition bill_amounts (p : Patient) (total : Z) : result (pynum * pynum) :=
  if String.eqb (p_patient_type p) "VIP" then
    do rate <- Float64.int_truediv (p_vip_discount p) 100;
    do ftotal <- Float64.of_int total;
    let discount := Float64.mul ftotal rate in
    Ok (PFloat discount, PFloat (Float64.sub ftotal discount))
  else Ok (PInt 0, PInt total).

(** [Patient.get_bill_text], as the list [lines] before the final join. *)
Definition get_bill_lines (p : Patient) (now : datetime) : result (list string) :=
  let lines :=
    [ Str.mul "=" (Z.to_nat width);
      Str.center width " Reimagine Hair Transplant & Skin Care Clinic ";
      Str.mul "=" (Z.to_nat width);
      "Patient Name : " +:+ p_name p;
      "Phone Number : " +:+ p_phone p;
      "Patient Type : " +:+ p_patient_type p;
      "Date & Time  : " +:+ strftime_bill now;
      Str.mul "-" (Z.to_nat width);
      Str.ljust 35 "Treatment" +:+ Str.rjust 20 "Cost (Rs.)";
      Str.mul "-" (Z.to_nat width) ] in
  do looped <- bill_loop (p_treatments p) lines 0;
  let '(lines, total) := looped in
  do amounts <- bill_amounts p total;
  let '(discount, total_after_discount) := amounts in
  let lines := lines ++ [Str.mul "-" (Z.to_nat width)] in
  do lines <-
    (if pynum_gt0 discount then
       do sub <- money_line "Subtotal" (PInt total);
       do dis <- money_line ("VIP Discount (" +:+ Str.of_Z (p_vip_discount p) +:+ "%)")
                            (pynum_neg discount);
       Ok (lines ++ [sub; dis])
     else Ok lines);
  do tot <- money_line "Total Bill" total_after_discount;
  Ok (lines ++ [ tot;
                 Str.mul "=" (Z.to_nat width);
                 Str.center width "Thank you for choosing our clinic!";
                 Str.mul "=" (Z.to_nat width) ]).

Definition newline : string := String (ascii_of_nat 10) EmptyString.

Definition get_bill_text (p : Patient) (now : datetime) : result string :=
  do lines <- get_bill_lines p now; Ok (Str.join newline lines).

(** [Patient.get_prescription_text] *)
Definition get_prescription_text (p : Patient) (now : datetime) : string :=
  Str.join newline
    [ Str.mul "=" (Z.to_nat width);
      Str.center width " Prescription ";
      Str.mul "=" (Z.to_nat width);
      "Patient Name : " +:+ p_name p;
      "Phone Number : " +:+ p_phone p;
      "Date & Time  : " +:+ strftime_bill now;
      Str.mul "-" (Z.to_nat width);
      (if String.eqb (p_prescription p) "" then "No prescription provided."
       else p_prescription p);
      Str.mul "=" (Z.to_nat width) ].

(** [bill + "\n\n" + prescription] *)
Definition combined_text (p : Patient) (now : datetime) : result string :=
  do bill <- get_bill_text p now;
  Ok (bill +:+ newline +:+ newline +:+ get_prescription_text p now).

(** ** JSON values, as [json.load] builds them

    An object is a Python [dict]: its members in insertion order, every
    key once.  Values nested in a record are never updated in place by
    the program, so they are kept as plain trees. *)

#[warnings="-register-all"]
Inductive json :=
  | JNull
  | JBool (b : bool)
  | JInt (z : Z)
  | JFloat (x : Float64.float)
  | JStr (s : string)
  | JArr (l : list json)
  | JObj (d : list (string * json)).

(** A Python [dict] with [str] keys: the items in insertion order. *)
Abbreviation dict V := (list (string * V)) (only parsing).

Abbreviation pydict := (dict json) (only parsing).

(** [d.get(k)] *)
Fixpoint dict_get {V} (k : string) (d : dict V) : option V :=
  match d with
  | [] => None
  | (k', v) :: d' => if String.eqb k k' then Some v else dict_get k d'
  end.

(** [d[k] = v]: a present key keeps its place, a new one goes last. *)
Fixpoint dict_set {V} (k : string) (v : V) (d : dict V) : dict V :=
  match d with
  | [] => [(k, v)]
  | (k', v') :: d' =>
      if String.eqb k k' then (k, v) :: d' else (k', v') :: dict_set k v d'
  end.

(** [dict(pairs)] *)
Definition dict_of_pairs {V} (pairs : list (string * V)) : dict V :=
  fold_left (fun d kv => dict_set (fst kv) (snd kv) d) pairs [].

(** The value of a finite float as an exact integer, when it is one. *)
Definition float_as_int (x : Float64.float) : option Z :=
  match x with
  | Float64.Fin s v =>
      if v mod Float64.one =? 0 then Some (Float64.signed s (v / Float64.one)) else None
  | _ => None
  end.

(** [a == b] on two numbers *)
Definition num_eq (a b : pynum) : bool :=
  match a, b with
  | PInt x, PInt y => x =? y
  | PInt x, PFloat f | PFloat f, PInt x =>
      match float_as_int f with Some y => x =? y | None => false end
  | PFloat (Float64.Fin s v), PFloat (Float64.Fin s' v') =>
      Float64.signed s v =? Float64.signed s' v'
  | PFloat (Float64.Inf s), PFloat (Float64.Inf s') => Bool.eqb s s'
  | PFloat _, PFloat _ => false
  end.

(** The number a value is, [bool] being a kind of [int]. *)
Definition as_num (a : json) : option pynum :=
  match a with
  | JBool b => Some (PInt (if b then 1 else 0))
  | JInt z => Some (PInt z)
  | JFloat x => Some (PFloat x)
  | _ => None
  end.

(** [a == b]: numbers by value, strings and lists structurally, dicts
    by their members whatever the order. *)
Fixpoint py_eq (a b : json) {struct a} : bool :=
  match a, b with
  | JNull, JNull => true
  | JStr s, JStr t => String.eqb s t
  | JArr l, JArr m =>
      (fix list_eq (l m : list json) {struct l} : bool :=
         match l, m with
         | [], [] => true
         | x :: l', y :: m' => py_eq x y && list_eq l' m'
         | _, _ => false
         end) l m
  | JObj d, JObj e =>
      (length d =? length e)%nat &&
      (fix members (d : list (string * json)) {struct d} : bool :=
         match d with
         | [] => true
         | (k, v) :: d' =>
             match dict_get k e with
             | Some w => py_eq v w && members d'
             | None => false
             end
         end) d
  | (JBool _ | JInt _ | JFloat _), (JBool _ | JInt _ | JFloat _) =>
      match as_num a, as_num b with
      | Some x, Some y => num_eq x y
      | _, _ => false
      end
  | _, _ => false
  end.

(** [None] of Python is what [get] gives for a missing key. *)
Definition get_or_none (k : string) (d : pydict) : json :=
  match dict_get k d with Some v => v | None => JNull end.

(** [bool(v)] *)
Definition truthy (v : json) : bool :=
  match v with
  | JNull => false
  | JBool b => b
  | JInt z => negb (z =? 0)
  | JFloat (Float64.Fin _ v) => negb (v =? 0)
  | JFloat _ => true
  | JStr s => negb (String.eqb s "")
  | JArr l => match l with [] => false | _ => true end
  | JObj d => match d with [] => false | _ => true end
  end.

(** ** [repr] of a float: the shortest decimal that reads back *)

Module Repr.
Import Float64.

(** [v] units are at least [10^e]. *)
Definition ge_pow10 (v e : Z) : bool :=
  if 0 <=? e then one * 10 ^ e <=? v else one <=? v * 10 ^ (- e).

(** [floor (log10 x)] for the value [x] of [v > 0] units. *)
Definition log10_floor (v : Z) : Z :=
  let est := (Z.log2 v - unit_exp) * 30103 / 100000 in
  if ge_pow10 v (est + 1) then est + 1
  else if ge_pow10 v est then est else est - 1.

(** The decimal [D * 10^k] read as a float magnitude. *)
Definition read_decimal (D k : Z) : Z :=
  if 0 <=? k then round_units (D * 10 ^ k * one) 1
  else round_units (D * one) (10 ^ (- k)).

(** The [n]-digit decimal nearest to [v] units that reads back as [v],
    with its exponent. *)
Definition candidate (v e10 n : Z) : option (Z * Z) :=
  let k := e10 - n + 1 in
  let num := if 0 <=? k then v else v * 10 ^ (- k) in
  let den := if 0 <=? k then one * 10 ^ k else one in
  let lo := num / den in
  let hi := lo + 1 in
  let lo_ok := read_decimal lo k =? v in
  let hi_ok := read_decimal hi k =? v in
  let lo_nearer :=
    match 2 * num ?= (2 * lo + 1) * den with
    | Lt => true
    | Gt => false
    | Eq => Z.even lo
    end in
  if lo_ok && (lo_nearer || negb hi_ok) then Some (lo, k)
  else if hi_ok then Some (hi, k)
  else None.

Fixpoint shortest (fuel : nat) (v e10 n : Z) : Z * Z :=
  match fuel with
  | O => (rne_div (v * 10 ^ 340) one, -340)
  | S fuel' =>
      match candidate v e10 n with
      | Some r => r
      | None => shortest fuel' v e10 (n + 1)
      end
  end.

(** Trailing zeros move into the exponent. *)
Fixpoint strip_zeros (fuel : nat) (D k : Z) : Z * Z :=
  match fuel with
  | O => (D, k)
  | S fuel' =>
      if (D mod 10 =? 0) && negb (D =? 0) then strip_zeros fuel' (D / 10) (k + 1)
      else (D, k)
  end.

Definition substr_from (n : Z) (s : string) : string :=
  String.substring (Z.to_nat n) (String.length s - Z.to_nat n) s.

(** [repr(x)] for a finite [x] of [v > 0] units, without its sign. *)
Definition repr_pos (v : Z) : string :=
  let '(D, k) := shortest 17 v (log10_floor v) 1 in
  let '(D, k) := strip_zeros 400 D k in
  let ds := Str.of_N (Z.to_N D) in
  let nd := Str.len ds in
  let decpt := nd + k in
  if (-4 <? decpt) && (decpt <=? 16) then
    if decpt <=? 0 then "0." +:+ Str.mul "0" (Z.to_nat (- decpt)) +:+ ds
    else if nd <=? decpt then ds +:+ Str.mul "0" (Z.to_nat (decpt - nd)) +:+ ".0"
    else String.substring 0 (Z.to_nat decpt) ds +:+ "." +:+ substr_from decpt ds
  else
    let e := decpt - 1 in
    String.substring 0 1 ds
      +:+ (if 1 <? nd then "." +:+ substr_from 1 ds else "")
      +:+ "e" +:+ (if e <? 0 then "-" else "+") +:+ Str.zfill 2 (Z.abs e).

(** [float.__repr__] *)
Definition repr (x : float) : string :=
  match x with
  | Fin s v =>
      (if s then "-" else "") +:+ (if v =? 0 then "0.0" else repr_pos v)
  | Inf s => if s then "-inf" else "inf"
  | NaN => "nan"
  end.

End Repr.

(** ** [json.dump(obj, f, indent=4)] *)

Module Dump.

Definition hex_digit (n : nat) : ascii :=
  if (n <? 10)%nat then ascii_of_nat (48 + n) else ascii_of_nat (87 + n).

(** One character of a string, escaped as [ensure_ascii] has it: only
    the printable ASCII characters stand for themselves. *)
Definition quote_char : ascii := ascii_of_nat 34.
Definition quote : string := String quote_char EmptyString.

Definition escape_char (c : ascii) : string :=
  let n := nat_of_ascii c in
  if (n =? 34)%nat then "\" +:+ quote
  else if (n =? 92)%nat then "\\"
  else if (n =? 10)%nat then "\n"
  else if (n =? 13)%nat then "\r"
  else if (n =? 9)%nat then "\t"
  else if (n =? 8)%nat then "\b"
  else if (n =? 12)%nat then "\f"
  else if ((32 <=? n) && (n <=? 126))%nat then String c EmptyString
  else "\u00" +:+ String (hex_digit (n / 16)) (String (hex_digit (n mod 16)) EmptyString).

Fixpoint escape (s : string) : string :=
  match s with
  | EmptyString => EmptyString
  | String c s' => escape_char c +:+ escape s'
  end.

Definition dump_str (s : string) : string := quote +:+ escape s +:+ quote.

Definition dump_float (x : Float64.float) : string :=
  match x with
  | Float64.NaN => "NaN"
  | Float64.Inf s => if s then "-Infinity" else "Infinity"
  | _ => Repr.repr x
  end.

(** A line break and the indentation of nesting level [lvl]. *)
Definition newline_indent (lvl : nat) : string :=
  String (ascii_of_nat 10) (Str.mul " " (4 * lvl)).

Fixpoint dump (lvl : nat) (v : json) {struct v} : string :=
  match v with
  | JNull => "null"
  | JBool b => if b then "true" else "false"
  | JInt z => Str.of_Z z
  | JFloat x => dump_float x
  | JStr s => dump_str s
  | JArr [] => "[]"
  | JArr (x :: l) =>
      "[" +:+ newline_indent (S lvl) +:+ dump (S lvl) x
        +:+ (fix items (l : list json) : string :=
               match l with
               | [] => newline_indent lvl +:+ "]"
               | y :: l' => "," +:+ newline_indent (S lvl) +:+ dump (S lvl) y +:+ items l'
               end) l
  | JObj [] => "{}"
  | JObj ((k, x) :: d) =>
      "{" +:+ newline_indent (S lvl) +:+ dump_str k +:+ ": " +:+ dump (S lvl) x
        +:+ (fix members (d : list (string * json)) : string :=
               match d with
               | [] => newline_indent lvl +:+ "}"
               | (k', y) :: d' =>
                   "," +:+ newline_indent (S lvl) +:+ dump_str k' +:+ ": "
                     +:+ dump (S lvl) y +:+ members d'
               end) d
  end.

Definition dumps (v : json) : string := dump 0 v.

End Dump.

(** ** [json.load(f)] *)

Module Load.

Definition is_ws (c : ascii) : bool :=
  let n := nat_of_ascii c in
  (n =? 32)%nat || (n =? 9)%nat || (n =? 10)%nat || (n =? 13)%nat.

Fixpoint skip_ws (s : string) : string :=
  match s with
  | String c r => if is_ws c then skip_ws r else s
  | EmptyString => EmptyString
  end.

Definition hex_val (c : ascii) : option nat :=
  let n := nat_of_ascii c in
  if ((48 <=? n) && (n <=? 57))%nat then Some (n - 48)%nat
  else if ((97 <=? n) && (n <=? 102))%nat then Some (n - 87)%nat
  else if ((65 <=? n) && (n <=? 70))%nat then Some (n - 55)%nat
  else None.

(** The character of [\uXXXX]; a code point above 255 is outside the
    alphabet of the model and the text is refused. *)
Definition unicode_escape (a b c d : ascii) : option ascii :=
  match hex_val a, hex_val b, hex_val c, hex_val d with
  | Some a, Some b, Some c, Some d =>
      if ((a =? 0) && (b =? 0))%nat then Some (ascii_of_nat (16 * c + d)) else None
  | _, _, _, _ => None
  end.

Definition simple_escape (e : ascii) : option ascii :=
  let n := nat_of_ascii e in
  if (n =? 34)%nat then Some e
  else if (n =? 92)%nat then Some e
  else if (n =? 47)%nat then Some e
  else if (n =? 98)%nat then Some (ascii_of_nat 8)
  else if (n =? 102)%nat then Some (ascii_of_nat 12)
  else if (n =? 110)%nat then Some (ascii_of_nat 10)
  else if (n =? 114)%nat then Some (ascii_of_nat 13)
  else if (n =? 116)%nat then Some (ascii_of_nat 9)
  else None.

(** The rest of a string literal after its opening quote. *)
Fixpoint scan_string (s : string) : option (string * string) :=
  match s with
  | EmptyString => None
  | String c r =>
      let n := nat_of_ascii c in
      if (n =? 34)%nat then Some (EmptyString, r)
      else if (n =? 92)%nat then
        match r with
        | String e r' =>
            if (nat_of_ascii e =? 117)%nat then
              match r' with
              | String h1 (String h2 (String h3 (String h4 r''))) =>
                  match unicode_escape h1 h2 h3 h4, scan_string r'' with
                  | Some c', Some (t, rest) => Some (String c' t, rest)
                  | _, _ => None
                  end
              | _ => None
              end
            else
              match simple_escape e, scan_string r' with
              | Some c', Some (t, rest) => Some (String c' t, rest)
              | _, _ => None
              end
        | EmptyString => None
        end
      else if (n <? 32)%nat then None
      else
        match scan_string r with
        | Some (t, rest) => Some (String c t, rest)
        | None => None
        end
  end.

Definition digit_of (c : ascii) : option (Decimal.uint -> Decimal.uint) :=
  match nat_of_ascii c with
  | 48%nat => Some Decimal.D0 | 49%nat => Some Decimal.D1 | 50%nat => Some Decimal.D2
  | 51%nat => Some Decimal.D3 | 52%nat => Some Decimal.D4 | 53%nat => Some Decimal.D5
  | 54%nat => Some Decimal.D6 | 55%nat => Some Decimal.D7 | 56%nat => Some Decimal.D8
  | 57%nat => Some Decimal.D9
  | _ => None
  end.

(** The longest run of digits at the head of [s]. *)
Fixpoint take_digits (s : string) : Decimal.uint * string :=
  match s with
  | String c r =>
      match digit_of c with
      | Some d => let '(u, rest) := take_digits r in (d u, rest)
      | None => (Decimal.Nil, s)
      end
  | EmptyString => (Decimal.Nil, s)
  end.

(** The integer part [0|[1-9]\d*] of a number. *)
Definition scan_int_part (s : string) : option (Decimal.uint * string) :=
  match s with
  | String "0" r => Some (Decimal.D0 Decimal.Nil, r)
  | _ =>
      match take_digits s with
      | (Decimal.Nil, _) => None
      | (u, rest) => Some (u, rest)
      end
  end.

(** The fraction [(\.\d+)?] *)
Definition scan_frac (s : string) : option Decimal.uint * string :=
  match s with
  | String "." r =>
      match take_digits r with
      | (Decimal.Nil, _) => (None, s)
      | (u, rest) => (Some u, rest)
      end
  | _ => (None, s)
  end.

(** The exponent [([eE][-+]?\d+)?] *)
Definition scan_exp (s : string) : option Z * string :=
  match s with
  | String c r =>
      if (Ascii.eqb c "e" || Ascii.eqb c "E")%bool then
        let '(neg, r') :=
          match r with
          | String "-" r' => (true, r')
          | String "+" r' => (false, r')
          | _ => (false, r)
          end in
        match take_digits r' with
        | (Decimal.Nil, _) => (None, s)
        | (u, rest) =>
            let e := Z.of_N (N.of_uint u) in
            (Some (if neg then - e else e), rest)
        end
      else (None, s)
  | EmptyString => (None, s)
  end.

(** [float(text)] for the digits [ip.fp] and the exponent [e] *)
Definition make_float (neg : bool) (ip fp : Decimal.uint) (e : Z) : Float64.float :=
  let M := Z.of_N (N.of_uint (Decimal.app ip fp)) in
  let k := e - Z.of_nat (Decimal.nb_digits fp) in
  if M =? 0 then Float64.Fin neg 0
  else Float64.pack neg (Repr.read_decimal M k).

(** The number after its sign *)
Definition scan_unsigned (neg : bool) (s : string) : option (json * string) :=
  match scan_int_part s with
  | None => None
  | Some (ip, r) =>
      let '(fp, r) := scan_frac r in
      let '(ex, r) := scan_exp r in
      match fp, ex with
      | None, None =>
          let n := Z.of_N (N.of_uint ip) in
          Some (JInt (if neg then - n else n), r)
      | _, _ =>
          Some (JFloat (make_float neg ip (default Decimal.Nil fp) (default 0 ex)), r)
      end
  end.

Definition scan_number (s : string) : option (json * string) :=
  match s with
  | String "-" r => scan_unsigned true r
  | _ => scan_unsigned false s
  end.

(** [s] without the prefix [p] *)
Fixpoint drop_prefix (p s : string) : option string :=
  match p, s with
  | EmptyString, _ => Some s
  | String a p', String b s' => if Ascii.eqb a b then drop_prefix p' s' else None
  | String _ _, EmptyString => None
  end.

Definition scan_constant (s : string) : option (json * string) :=
  match drop_prefix "null" s with Some r => Some (JNull, r) | None =>
  match drop_prefix "true" s with Some r => Some (JBool true, r) | None =>
  match drop_prefix "false" s with Some r => Some (JBool false, r) | None =>
  match drop_prefix "NaN" s with Some r => Some (JFloat Float64.NaN, r) | None =>
  match drop_prefix "Infinity" s with Some r => Some (JFloat (Float64.Inf false), r) | None =>
  match drop_prefix "-Infinity" s with Some r => Some (JFloat (Float64.Inf true), r) | None =>
  scan_number s
  end end end end end end.

(** [s] after the character [c], when [s] starts with it. *)
Definition next_is (c : ascii) (s : string) : option string :=
  match s with
  | String a r => if Ascii.eqb a c then Some r else None
  | EmptyString => None
  end.

(** One value at the head of [s]; [fuel] bounds the number of values
    and separators read. *)
Fixpoint scan_value (fuel : nat) (s : string) {struct fuel} : option (json * string) :=
  match fuel with
  | O => None
  | S fuel' =>
      match s with
      | String c r =>
          let n := nat_of_ascii c in
          if (n =? 34)%nat then
            match scan_string r with
            | Some (t, rest) => Some (JStr t, rest)
            | None => None
            end
          else if (n =? 91)%nat then
            match next_is "]" (skip_ws r) with
            | Some rest => Some (JArr [], rest)
            | None =>
                match scan_items fuel' (skip_ws r) with
                | Some (l, rest) => Some (JArr l, rest)
                | None => None
                end
            end
          else if (n =? 123)%nat then
            match next_is "}" (skip_ws r) with
            | Some rest => Some (JObj [], rest)
            | None =>
                match scan_members fuel' (skip_ws r) with
                | Some (pairs, rest) => Some (JObj (dict_of_pairs pairs), rest)
                | None => None
                end
            end
          else scan_constant s
      | EmptyString => None
      end
  end
with scan_items (fuel : nat) (s : string) {struct fuel} : option (list json * string) :=
  match fuel with
  | O => None
  | S fuel' =>
      match scan_value fuel' s with
      | Some (v, r) =>
          match next_is "]" (skip_ws r) with
          | Some rest => Some ([v], rest)
          | None =>
              match next_is "," (skip_ws r) with
              | Some r' =>
                  match scan_items fuel' (skip_ws r') with
                  | Some (l, rest) => Some (v :: l, rest)
                  | None => None
                  end
              | None => None
              end
          end
      | None => None
      end
  end
with scan_members (fuel : nat) (s : string) {struct fuel}
  : option (list (string * json) * string) :=
  match fuel with
  | O => None
  | S fuel' =>
      match next_is Dump.quote_char s with
      | Some r =>
          match scan_string r with
          | Some (k, r) =>
              match next_is ":" (skip_ws r) with
              | Some r =>
                  match scan_value fuel' (skip_ws r) with
                  | Some (v, r) =>
                      match next_is "}" (skip_ws r) with
                      | Some rest => Some ([(k, v)], rest)
                      | None =>
                          match next_is "," (skip_ws r) with
                          | Some r' =>
                              match scan_members fuel' (skip_ws r') with
                              | Some (l, rest) => Some ((k, v) :: l, rest)
                              | None => None
                              end
                          | None => None
                          end
                      end
                  | None => None
                  end
              | None => None
              end
          | None => None
          end
      | None => None
      end
  end.

(** [json.loads(text)]; [None] stands for [JSONDecodeError]. *)
Definition loads (text : string) : option json :=
  match scan_value (2 * String.length text + 2) (skip_ws text) with
  | Some (v, rest) =>
      match skip_ws rest with
      | EmptyString => Some v
      | _ => None
      end
  | None => None
  end.

End Load.

(** ** [int(v)] *)

(** Digits that may be separated by single underscores, read as a
    number; [acc] is the value so far and [sep] tells that an underscore
    was just read. *)
Fixpoint int_digits (s : string) (acc : Z) (sep : bool) : option Z :=
  match s with
  | EmptyString => if sep then None else Some acc
  | String c r =>
      match digit_val c with
      | Some v => int_digits r (10 * acc + v) false
      | None =>
          if Ascii.eqb c "_" && negb sep then int_digits r acc true else None
      end
  end.

(** [int(s)] for a [str]: blanks around, an optional sign, digits. *)
Definition int_of_str (s : string) : option Z :=
  let '(neg, r) :=
    match Str.strip s with
    | String "-" r => (true, r)
    | String "+" r => (false, r)
    | r => (false, r)
    end in
  match r with
  | String c r' =>
      match digit_val c with
      | Some v =>
          match int_digits r' v false with
          | Some n => Some (if neg then - n else n)
          | None => None
          end
      | None => None
      end
  | EmptyString => None
  end.

Definition py_int (v : json) : result Z :=
  match v with
  | JInt z => Ok z
  | JBool b => Ok (if b then 1 else 0)
  | JFloat (Float64.Fin s m) => Ok (Float64.signed s (m / Float64.one))
  | JFloat (Float64.Inf _) => Raise OverflowError
  | JFloat Float64.NaN => Raise ValueError
  | JStr s => match int_of_str s with Some z => Ok z | None => Raise ValueError end
  | JNull | JArr _ | JObj _ => Raise TypeError
  end.

(** ** The world: files, clock, objects and what the user is shown *)

(** A piece of an f-string: literal text, or a value shown by [str]. *)
Inductive frag :=
  | Lit (s : string)
  | Val (v : json).

Inductive event :=
  | ShowError (title : string) (msg : list frag)
  | ShowWarning (title : string) (msg : list frag)
  | ShowInfo (title : string) (msg : list frag)
  | AskString (title : string) (prompt : list frag)
  | AskYesNo (title : string) (msg : list frag)
  | FileWrite (path : string)
  | MakeDirs (path : string)
  | TempFile (text : string)
  | SendToPrinter
  | ScheduleRemoveTemp
  | PopupDestroy.

Record world := mkWorld {
  files : gmap string string;   (** the texts of the files that exist *)
  locked : gset string;         (** the paths [open] and [os.makedirs] fail on *)
  clock : datetime;             (** [datetime.now()] *)
  heap : list pydict;           (** the [dict] objects, by address *)
  events : list event           (** dialogs and OS requests, oldest first *)
}.

(** A computation on the world that may raise; what was done before
    the exception stays done. *)
Definition M (A : Type) : Type := world -> result A * world.

Definition ret {A} (a : A) : M A := fun w => (Ok a, w).
Definition raise {A} (e : exn) : M A := fun w => (Raise e, w).
Definition bind {A B} (m : M A) (k : A -> M B) : M B :=
  fun w =>
    match m w with
    | (Ok a, w') => k a w'
    | (Raise e, w') => (Raise e, w')
    end.
Definition lift {A} (r : result A) : M A := fun w => (r, w).
Definition gets {A} (f : world -> A) : M A := fun w => (Ok (f w), w).
Definition reads {A} (f : world -> result A) : M A := fun w => (f w, w).

Notation "'run' x <- m ; k" := (bind m (fun x => k))
  (at level 10, x name, m at level 100, k at level 200).
Notation "'exec' m ; k" := (bind m (fun _ => k))
  (at level 10, m at level 100, k at level 200).

Definition emit (e : event) : M unit :=
  fun w => (Ok tt, mkWorld (files w) (locked w) (clock w) (heap w) (events w ++ [e])).

Definition today : M date := gets (fun w => dt_date (clock w)).

(** [open(path, "w")] and the write: fails on a locked path. *)
Definition write_file (path text : string) : M unit :=
  fun w =>
    if decide (path ∈ locked w) then (Raise OSError, w)
    else (Ok tt, mkWorld (<[path := text]> (files w)) (locked w) (clock w) (heap w)
                         (events w ++ [FileWrite path])).

(** The folders [os.makedirs(path)] goes through: [path] up to each of
    its slashes, and [path] itself. *)
Fixpoint folders_from (pre s : string) : list string :=
  match s with
  | EmptyString => [pre]
  | String c r =>
      if Ascii.eqb c "/" then pre :: folders_from (pre +:+ "/") r
      else folders_from (pre +:+ String c EmptyString) r
  end.

Definition folders (path : string) : list string := folders_from "" path.

(** A folder cannot be made at [p]: the disk refuses the path, or a
    file stands there. *)
Definition dir_refused (w : world) (p : string) : bool :=
  bool_decide (p ∈ locked w) || bool_decide (is_Some (files w !! p)).

Definition cannot_make (w : world) (path : string) : bool :=
  existsb (dir_refused w) (folders path).

(** [os.makedirs(path, exist_ok=True)] *)
Definition makedirs (path : string) : M unit :=
  fun w =>
    if cannot_make w path then (Raise OSError, w)
    else (Ok tt, mkWorld (files w) (locked w) (clock w) (heap w)
                         (events w ++ [MakeDirs path])).

(** A new [dict] object. *)
Definition alloc (d : pydict) : M nat :=
  fun w => (Ok (length (heap w)),
            mkWorld (files w) (locked w) (clock w) (heap w ++ [d]) (events w)).

(** The members of the object at [l]. *)
Definition deref (l : nat) : M pydict :=
  fun w => (Ok (default [] (heap w !! l)), w).

(** [obj[k] = v] on the object at [l] *)
Definition setitem (l : nat) (k : string) (v : json) : M unit :=
  fun w =>
    (Ok tt, mkWorld (files w) (locked w) (clock w)
                    (<[l := dict_set k v (default [] (heap w !! l))]> (heap w)) (events w)).

(** ** The two stores *)

Definition TREATMENTS_FILE : string := "treatments.json".
Definition APPOINTMENTS_FILE : string := "appointments.json".

(** [try: body except Exception as e: handler]; every exception of
    the model is an [Exception]. *)
Definition try_except {A} (body : result A) (handler : exn -> result A) : result A :=
  match body with
  | Ok a => Ok a
  | Raise e => handler e
  end.

(** [open(path, "r")] and [json.load]: any failure is an exception. *)
Definition read_json (path : string) (w : world) : result json :=
  if decide (path ∈ locked w) then Raise OSError
  else
    match files w !! path with
    | Some text =>
        match Load.loads text with
        | Some v => Ok v
        | None => Raise ValueError
        end
    | None => Raise OSError
    end.

(** [{str(k): int(v) for k, v in data.items()}] *)
Fixpoint int_items (items : list (string * json)) (acc : dict Z) : result (dict Z) :=
  match items with
  | [] => Ok acc
  | (k, v) :: items' =>
      do z <- py_int v; int_items items' (dict_set k z acc)
  end.

Definition catalog_of_json (data : json) : result (dict Z) :=
  match data with
  | JObj d => int_items d []
  | _ => Raise AttributeError
  end.

Definition load_treatments (w : world) : result (dict Z) :=
  if decide (is_Some (files w !! TREATMENTS_FILE)) then
    try_except (do data <- read_json TREATMENTS_FILE w; catalog_of_json data)
               (fun _ => Ok [])
  else Ok [].

Definition json_of_catalog (d : dict Z) : json :=
  JObj (map (fun kv => (fst kv, JInt (snd kv))) d).

Definition save_treatments (d : dict Z) : M unit :=
  fun w =>
    match write_file TREATMENTS_FILE (Dump.dumps (json_of_catalog d)) w with
    | (Ok _, w') => (Ok tt, w')
    | (Raise e, w') =>
        emit (ShowError "Error" [Lit "Failed to save treatments:"; Lit "OSError"]) w'
    end.

Definition load_appointments (w : world) : result json :=
  if decide (is_Some (files w !! APPOINTMENTS_FILE)) then
    try_except (read_json APPOINTMENTS_FILE w) (fun _ => Ok (JArr []))
  else Ok (JArr []).

Definition save_appointments (appointments : json) : M unit :=
  fun w =>
    match write_file APPOINTMENTS_FILE (Dump.dumps appointments) w with
    | (Ok _, w') => (Ok tt, w')
    | (Raise e, w') =>
        emit (ShowError "Error" [Lit "Failed to save appointments:"; Lit "OSError"]) w'
    end.

(** ** Python operations on loaded values *)

(** What [for a in v] visits. *)
Definition iter_json (v : json) : result (list json) :=
  match v with
  | JArr l => Ok l
  | JObj d => Ok (map (fun kv => JStr (fst kv)) d)
  | JStr s => Ok (map (fun c => JStr (String c EmptyString)) (list_ascii_of_string s))
  | _ => Raise TypeError
  end.

(** [a.get(k)]: only a dict has [get]. *)
Definition elem_get (k : string) (a : json) : result json :=
  match a with
  | JObj d => Ok (get_or_none k d)
  | _ => Raise AttributeError
  end.

(** [d[k]] *)
Definition getitem (k : string) (d : pydict) : result json :=
  match dict_get k d with
  | Some v => Ok v
  | None => Raise (KeyError k)
  end.

(** [d.get(k, "")] *)
Definition get_or_empty (k : string) (d : pydict) : json :=
  default (JStr "") (dict_get k d).

(** [v.append(x)]: only a list has [append]. *)
Definition list_append (v x : json) : result json :=
  match v with
  | JArr l => Ok (JArr (l ++ [x]))
  | _ => Raise AttributeError
  end.

(** [{"name": name, "phone": phone, "date": date}] *)
Definition new_record (name phone date_str : json) : json :=
  JObj [("name", name); ("phone", phone); ("date", date_str)].

(** ** Booking: the [Book] button of [book_appointment] *)

Definition save_appointment (entry_name entry_phone entry_date : string) : M unit :=
  let name := Str.strip entry_name in
  let phone := Str.strip entry_phone in
  let date_str := Str.strip entry_date in
  if String.eqb name "" || String.eqb phone "" || String.eqb date_str "" then
    emit (ShowError "Input Error" [Lit "Please fill all fields."])
  else
    run t <- today;
    match strptime date_str with
    | None => emit (ShowError "Input Error" [Lit "Invalid date format. Use YYYY-MM-DD."])
    | Some appt_date =>
        if date_ltb appt_date t then
          emit (ShowError "Input Error" [Lit "Appointment date cannot be in the past."])
        else
          run appointments <- reads load_appointments;
          run appointments <-
            lift (list_append appointments
                    (new_record (JStr name) (JStr phone) (JStr date_str)));
          exec save_appointments appointments;
          exec emit (ShowInfo "Success"
                       [Lit "Appointment booked for "; Lit name; Lit " on "; Lit date_str]);
          emit PopupDestroy
    end.

(** ** The window of upcoming appointments *)

(** An element of the loaded list: a dict is an object with an address,
    anything else a plain value. *)
Inductive pyobj :=
  | ORef (l : nat)
  | OVal (v : json).

(** The objects of the elements [json.load] built. *)
Fixpoint alloc_elems (l : list json) : M (list pyobj) :=
  match l with
  | [] => ret []
  | JObj d :: l' =>
      run a <- alloc d;
      run r <- alloc_elems l';
      ret (ORef a :: r)
  | v :: l' =>
      run r <- alloc_elems l';
      ret (OVal v :: r)
  end.

(** One turn of the loop that fills [upcoming]: the address of a copy
    of the record when its date reads as a day from [t] on.  Whatever
    is raised on the way ([get] on a value that is no dict, [strptime]
    on a value that is no string or no date) skips the element. *)
Definition keep_upcoming (t : date) (o : pyobj) : M (option nat) :=
  match o with
  | ORef l =>
      run d <- deref l;
      match get_or_empty "date" d with
      | JStr s =>
          match strptime s with
          | Some appt_date =>
              if date_geb appt_date t then
                run c <- alloc d;
                ret (Some c)
              else ret None
          | None => ret None
          end
      | _ => ret None
      end
  | OVal _ => ret None
  end.

Fixpoint collect_upcoming (t : date) (objs : list pyobj) : M (list nat) :=
  match objs with
  | [] => ret []
  | o :: objs' =>
      run c <- keep_upcoming t o;
      run r <- collect_upcoming t objs';
      ret (match c with Some c => c :: r | None => r end)
  end.

(** [x.get("date")] of the object at [l]; the records of [upcoming]
    all have a string there. *)
Definition date_key (h : list pydict) (l : nat) : string :=
  match dict_get "date" (default [] (h !! l)) with
  | Some (JStr s) => s
  | _ => ""
  end.

(** A stable sort by a string key, as [list.sort(key=...)] is. *)
Fixpoint insert_by {A} (key : A -> string) (x : A) (l : list A) : list A :=
  match l with
  | [] => [x]
  | y :: l' =>
      if String.ltb (key y) (key x) then y :: insert_by key x l' else x :: y :: l'
  end.

Fixpoint sort_by {A} (key : A -> string) (l : list A) : list A :=
  match l with
  | [] => []
  | x :: l' => insert_by key x (sort_by key l')
  end.

(** What the callbacks of the window share: the list [upcoming] (of
    addresses), the text of the search box, and the rows of the listbox
    (the records shown, in order). *)
Record popup := mkPopup {
  upcoming : list nat;
  search_var : string;
  listbox : list nat
}.

(** The first part of [view_appointments]: the loaded elements and the
    sorted list [upcoming]. *)
Definition build_upcoming (appointments : json) : M (list pyobj * list nat) :=
  run t <- today;
  run elems <- lift (iter_json appointments);
  run objs <- alloc_elems elems;
  run up <- collect_upcoming t objs;
  run h <- gets heap;
  ret (objs, sort_by (date_key h) up).

Definition view_appointments : M (option popup) :=
  run appointments <- reads load_appointments;
  if negb (truthy appointments) then
    exec emit (ShowInfo "Appointments" [Lit "No appointments found."]);
    ret None
  else
    run r <- build_upcoming appointments;
    match snd r with
    | [] =>
        exec emit (ShowInfo "Appointments" [Lit "No upcoming appointments."]);
        ret None
    | up => ret (Some (mkPopup up "" up))
    end.

(** [q in appt.get("name", "").lower() or q in appt.get("phone", "")] *)
Definition matches (q : string) (d : pydict) : result bool :=
  match get_or_empty "name" d with
  | JStr name =>
      if Str.contains q (Str.lower name) then Ok true
      else
        match get_or_empty "phone" d with
        | JStr phone => Ok (Str.contains q phone)
        | JArr l => Ok (existsb (fun v => py_eq v (JStr q)) l)
        | JObj e => Ok (existsb (fun kv => String.eqb q (fst kv)) e)
        | _ => Raise TypeError
        end
  | _ => Raise AttributeError
  end.

(** [[appt for appt in upcoming if ...]] *)
Fixpoint filter_appts (q : string) (ls : list nat) : M (list nat) :=
  match ls with
  | [] => ret []
  | l :: ls' =>
      run d <- deref l;
      run b <- lift (matches q d);
      run r <- filter_appts q ls';
      ret (if b then l :: r else r)
  end.

Definition populate_list (p : popup) (rows : list nat) : popup :=
  mkPopup (upcoming p) (search_var p) rows.

Definition search_appointments (p : popup) : M popup :=
  let q := Str.lower (Str.strip (search_var p)) in
  if String.eqb q "" then ret (populate_list p (upcoming p))
  else
    run filtered <- filter_appts q (upcoming p);
    ret (populate_list p filtered).

(** The user changes the text of the search box. *)
Definition type_search (text : string) (p : popup) : M popup :=
  search_appointments (mkPopup (upcoming p) text (listbox p)).

(** The rows the callbacks recompute before they use the selection. *)
Definition current_list (p : popup) : M (list nat) :=
  filter_appts (Str.lower (Str.strip (search_var p))) (upcoming p).

(** *** Delete *)

(** The three fields of [a] equal those of [target]. *)
Definition same_triple (a target : pydict) : bool :=
  py_eq (get_or_none "name" a) (get_or_none "name" target)
  && py_eq (get_or_none "phone" a) (get_or_none "phone" target)
  && py_eq (get_or_none "date" a) (get_or_none "date" target).

(** The loop over [saved]: the first element with the three fields of
    the target is dropped; an element without [get] met before it
    raises. *)
Fixpoint delete_first (target : pydict) (l : list json) : result (list json) :=
  match l with
  | [] => Ok []
  | a :: l' =>
      match a with
      | JObj d =>
          if same_triple d target then Ok l'
          else do r <- delete_first target l'; Ok (a :: r)
      | _ => Raise AttributeError
      end
  end.

Definition delete_from (target : pydict) (saved : json) : result json :=
  match saved with
  | JArr l => do l' <- delete_first target l; Ok (JArr l')
  | _ =>
      do elems <- iter_json saved;
      match elems with
      | [] => Ok saved
      | _ => Raise AttributeError
      end
  end.

(** [upcoming.remove(x)]: the first element that is [x] or equals it. *)
Fixpoint list_remove (h : list pydict) (x : nat) (l : list nat) : result (list nat) :=
  match l with
  | [] => Raise ValueError
  | y :: l' =>
      if (y =? x)%nat || py_eq (JObj (default [] (h !! y))) (JObj (default [] (h !! x)))
      then Ok l'
      else do r <- list_remove h x l'; Ok (y :: r)
  end.

Definition delete_selected (sel : list nat) (p : popup) : M popup :=
  match sel with
  | [] =>
      exec emit (ShowWarning "No Selection" [Lit "Please select an appointment to delete."]);
      ret p
  | index :: _ =>
      run rows <- current_list p;
      match rows !! index with
      | None => ret p
      | Some appt_to_delete =>
          run target <- deref appt_to_delete;
          run saved <- reads load_appointments;
          run saved <- lift (delete_from target saved);
          exec save_appointments saved;
          run h <- gets heap;
          run up <- lift (list_remove h appt_to_delete (upcoming p));
          run p' <- search_appointments (mkPopup up (search_var p) (listbox p));
          run name <- lift (getitem "name" target);
          run date_v <- lift (getitem "date" target);
          exec emit (ShowInfo "Deleted"
                       [Lit "Appointment for "; Val name; Lit " on "; Val date_v;
                        Lit " deleted."]);
          ret p'
      end
  end.

(** *** Edit *)

(** The first loop over [saved], whose body does nothing: it still
    calls [get] on every element. *)
Fixpoint check_elems (l : list json) : result unit :=
  match l with
  | [] => Ok tt
  | JObj _ :: l' => check_elems l'
  | _ :: _ => Raise AttributeError
  end.

(** The index of the first element of [saved] whose name equals
    [name]. *)
Fixpoint find_name (name : json) (l : list json) : result (option nat) :=
  match l with
  | [] => Ok None
  | a :: l' =>
      do n <- elem_get "name" a;
      if py_eq n name then Ok (Some O)
      else do r <- find_name name l'; Ok (S <$> r)
  end.

(** [{"name": appt["name"], "phone": appt["phone"], "date": appt["date"]}] *)
Definition merged_record (appt : pydict) : result json :=
  do name <- getitem "name" appt;
  do phone <- getitem "phone" appt;
  do date_v <- getitem "date" appt;
  Ok (new_record name phone date_v).

(** What [edit_selected] hands to [save_appointments]: [saved] with
    the first record of that name replaced by the merged record, or
    with the merged record appended when no record has the name. *)
Definition edit_saved (appt : pydict) (saved : json) : result json :=
  do elems <- iter_json saved;
  do _ <- check_elems elems;
  do found <- find_name (get_or_none "name" appt) elems;
  match found with
  | Some i =>
      do merged <- merged_record appt;
      Ok (JArr (<[i := merged]> elems))
  | None =>
      match saved with
      | JArr l => do merged <- merged_record appt; Ok (JArr (l ++ [merged]))
      | _ => Raise AttributeError
      end
  end.

(** The date prompt: [true] when the callback goes on. *)
Definition edit_date (appt : nat) (new_date_str : option string) : M bool :=
  match new_date_str with
  | None => ret true
  | Some s =>
      if String.eqb s "" then ret true
      else
        run t <- today;
        match strptime s with
        | Some new_date =>
            if date_ltb new_date t then
              exec emit (ShowError "Invalid Date"
                           [Lit "Appointment date cannot be in the past."]);
              ret false
            else
              exec setitem appt "date" (JStr s);
              ret true
        | None =>
            exec emit (ShowError "Invalid Date"
                         [Lit "Please enter a valid date in YYYY-MM-DD format."]);
            ret false
        end
  end.

(** The phone prompt *)
Definition edit_phone (appt : nat) (new_phone : option string) : M unit :=
  match new_phone with
  | None => ret tt
  | Some s => if String.eqb s "" then ret tt else setitem appt "phone" (JStr s)
  end.

Definition edit_selected (sel : list nat) (new_date_str new_phone : option string)
    (p : popup) : M popup :=
  match sel with
  | [] =>
      exec emit (ShowWarning "No Selection" [Lit "Please select an appointment to edit."]);
      ret p
  | index :: _ =>
      run rows <- current_list p;
      match rows !! index with
      | None => ret p
      | Some appt_to_edit =>
          run d <- deref appt_to_edit;
          run cur <- lift (getitem "date" d);
          exec emit (AskString "Edit Date"
                       [Lit "Enter new date (YYYY-MM-DD) [Current: "; Val cur; Lit "]:"]);
          run go_on <- edit_date appt_to_edit new_date_str;
          if negb go_on then ret p
          else
            run d <- deref appt_to_edit;
            run cur <- lift (getitem "phone" d);
            exec emit (AskString "Edit Phone"
                         [Lit "Enter new phone [Current: "; Val cur; Lit "]:"]);
            exec edit_phone appt_to_edit new_phone;
            run d <- deref appt_to_edit;
            run saved <- reads load_appointments;
            run saved <- lift (edit_saved d saved);
            exec save_appointments saved;
            run saved2 <- reads load_appointments;
            run r <- build_upcoming saved2;
            run p' <- search_appointments (mkPopup (snd r) (search_var p) (listbox p));
            run name <- lift (getitem "name" d);
            exec emit (ShowInfo "Updated"
                         [Lit "Appointment updated for "; Val name; Lit "."]);
            ret p'
      end
  end.

(** ** The session: [ClinicApp] *)

Record ClinicApp := mkApp {
  treatments_dict : dict Z;
  patient : option Patient;
  selected_treatments : list string;
  treatment_price_vars : dict Z;
  entry_name : string;
  entry_phone : string;
  patient_type_var : string;
  vip_discount_var : Z;
  text_prescription : string;
  text_output : string
}.

Definition set_patient (app : ClinicApp) (p : option Patient) : ClinicApp :=
  mkApp (treatments_dict app) p (selected_treatments app) (treatment_price_vars app)
        (entry_name app) (entry_phone app) (patient_type_var app) (vip_discount_var app)
        (text_prescription app) (text_output app).

Definition set_output (app : ClinicApp) (text : string) : ClinicApp :=
  mkApp (treatments_dict app) (patient app) (selected_treatments app)
        (treatment_price_vars app) (entry_name app) (entry_phone app)
        (patient_type_var app) (vip_discount_var app) (text_prescription app) text.

(** [ClinicApp.__init__], without the widgets and the reminder. *)
Definition init_app : M ClinicApp :=
  run loaded <- reads load_treatments;
  exec (match loaded with
        | [] => save_treatments []
        | _ => ret tt
        end);
  ret (mkApp loaded None [] [] "" "" "Normal" 10 "" "").

Definition reset_all (app : ClinicApp) : ClinicApp :=
  mkApp (treatments_dict app) None [] [] "" "" "Normal" 10 "" "".

(** [re.match(r"^[+\d][\d\s\-+()]{5,}$", phone)] on a stripped text *)
Definition phone_char (c : ascii) : bool :=
  Str.is_digit c || Str.is_space c
  || Ascii.eqb c "-" || Ascii.eqb c "+" || Ascii.eqb c "(" || Ascii.eqb c ")".

Definition phone_looks_usual (phone : string) : bool :=
  match phone with
  | String c r =>
      (Ascii.eqb c "+" || Str.is_digit c)
      && forallb phone_char (list_ascii_of_string r)
      && (5 <=? String.length r)%nat
  | EmptyString => false
  end.

(** [c.isalnum()] on the code points 0..255 *)
Definition is_alnum (c : ascii) : bool :=
  let n := nat_of_ascii c in
  Str.is_digit c
  || ((65 <=? n) && (n <=? 90))%nat || ((97 <=? n) && (n <=? 122))%nat
  || (n =? 170)%nat || (n =? 178)%nat || (n =? 179)%nat || (n =? 181)%nat
  || (n =? 185)%nat || (n =? 186)%nat || ((188 <=? n) && (n <=? 190))%nat
  || ((192 <=? n) && (n <=? 214))%nat || ((216 <=? n) && (n <=? 246))%nat
  || ((248 <=? n) && (n <=? 255))%nat.

Fixpoint keep_chars (f : ascii -> bool) (s : string) : string :=
  match s with
  | EmptyString => EmptyString
  | String c r => if f c then String c (keep_chars f r) else keep_chars f r
  end.

Definition safe_name (name : string) : string :=
  Str.rstrip (keep_chars (fun c => is_alnum c || Ascii.eqb c " " || Ascii.eqb c "_") name).

(** [now.strftime("%Y-%m-%d")], ["%H%M%S"] and ["%Y%m%d_%H%M%S"] *)
Definition strftime_day (now : datetime) : string :=
  let d := dt_date now in
  Str.zfill 4 (year d) +:+ "-" +:+ Str.zfill 2 (month d) +:+ "-" +:+ Str.zfill 2 (day d).

Definition strftime_hms (now : datetime) : string :=
  Str.zfill 2 (hour now) +:+ Str.zfill 2 (minute now) +:+ Str.zfill 2 (second now).

Definition strftime_stamp (now : datetime) : string :=
  let d := dt_date now in
  Str.zfill 4 (year d) +:+ Str.zfill 2 (month d) +:+ Str.zfill 2 (day d)
    +:+ "_" +:+ strftime_hms now.

(** The loop that fills the patient with the selected treatments at
    the prices of the entry fields. *)
Fixpoint add_selected (names : list string) (prices : dict Z) (p : Patient)
  : result Patient :=
  match names with
  | [] => Ok p
  | t_name :: names' =>
      match dict_get t_name prices with
      | Some cost => add_selected names' prices (add_treatment p (mkTreatment t_name cost))
      | None => Raise (KeyError t_name)
      end
  end.

(** A write whose failure is passed over. *)
Definition try_write (path text : string) : M unit :=
  fun w =>
    match write_file path text w with
    | (Ok _, w') => (Ok tt, w')
    | (Raise _, w') => (Ok tt, w')
    end.

(** [generate_bill_prescription]; [go_on] is the answer to the question
    asked about an unusual phone number.  The session is returned with
    the outcome: [self.patient] is assigned before the bill is rendered
    and stays assigned when rendering raises; the text is shown before
    the folder of the day is made, outside the [try], and stays shown
    when that raises. *)
Definition leave (app : ClinicApp) (m : M unit) (w : world)
  : result unit * ClinicApp * world :=
  let '(r, w') := m w in (r, app, w').

Definition generate_bill_prescription (go_on : bool) (app : ClinicApp) (w : world)
  : result unit * ClinicApp * world :=
  let name := Str.strip (entry_name app) in
  let phone := Str.strip (entry_phone app) in
  let patient_type := patient_type_var app in
  let vip_discount := vip_discount_var app in
  if String.eqb name "" || String.eqb phone "" then
    leave app (emit (ShowError "Input Error"
                       [Lit "Please enter patient name and phone number."])) w
  else
    let '(asked, w) :=
      if phone_looks_usual phone then (true, w)
      else (go_on, snd (emit (AskYesNo "Phone format"
                                [Lit "Phone number looks unusual. Continue anyway?"]) w)) in
    if negb asked then (Ok tt, app, w)
    else
      match selected_treatments app with
      | [] =>
          leave app (emit (ShowError "Input Error"
                             [Lit "Please select at least one treatment."])) w
      | _ =>
          if String.eqb patient_type "VIP"
             && negb ((0 <=? vip_discount) && (vip_discount <=? 100)) then
            leave app (emit (ShowError "Input Error"
                               [Lit "VIP discount must be between 0 and 100."])) w
          else
            let vip_discount := if String.eqb patient_type "VIP" then vip_discount else 0 in
            let p0 := mkPatient name phone [] "" patient_type vip_discount in
            match add_selected (selected_treatments app) (treatment_price_vars app) p0 with
            | Raise e => (Raise e, set_patient app (Some p0), w)
            | Ok p1 =>
                let p := set_prescription p1 (Str.strip (text_prescription app)) in
                let app := set_patient app (Some p) in
                match combined_text p (clock w) with
                | Raise e => (Raise e, app, w)
                | Ok text =>
                    let now := clock w in
                    let folder_path := "records/" +:+ strftime_day now in
                    let filepath :=
                      folder_path +:+ "/" +:+ safe_name name +:+ "_"
                        +:+ strftime_hms now +:+ ".txt" in
                    leave (set_output app text)
                          (exec makedirs folder_path; try_write filepath text) w
                end
            end
      end.

(** [print_text]; [printer_ok] tells whether the print command of the
    platform went through. *)
Definition print_text (printer_ok : bool) (text_content : string) : M unit :=
  exec emit (TempFile text_content);
  exec (if printer_ok then
          exec emit SendToPrinter;
          emit (ShowInfo "Success" [Lit "Document sent to printer"])
        else emit (ShowError "Print Error" [Lit "Could not print: "; Lit "OSError"]));
  emit ScheduleRemoveTemp.

Definition print_bill_and_prescription (printer_ok : bool) (app : ClinicApp) : M unit :=
  match patient app with
  | None =>
      emit (ShowError "Error" [Lit "Generate bill and prescription first before printing."])
  | Some p =>
      run now <- gets clock;
      run text <- lift (combined_text p now);
      print_text printer_ok text
  end.

Definition save_to_txt (app : ClinicApp) : M unit :=
  match patient app with
  | None =>
      emit (ShowError "Error" [Lit "Generate bill and prescription first before saving."])
  | Some p =>
      run now <- gets clock;
      run text <- lift (combined_text p now);
      let folder := "txt" in
      exec makedirs folder;
      let filename := folder +:+ "/bill_prescription_" +:+ strftime_stamp now +:+ ".txt" in
      fun w =>
        match write_file filename text w with
        | (Ok _, w') =>
            emit (ShowInfo "Success"
                    [Lit "Bill and prescription saved to:"; Lit filename]) w'
        | (Raise _, w') =>
            emit (ShowError "Save Error" [Lit "Could not save file:"; Lit "OSError"]) w'
        end
  end.

(** ** The treatment list of the main window and the selection *)

(** The main window: the session and the rows of [treatment_listbox]. *)
Record MainWindow := mkMain {
  session : ClinicApp;
  treatment_listbox : list string
}.

Definition set_treatments (app : ClinicApp) (d : dict Z) : ClinicApp :=
  mkApp d (patient app) (selected_treatments app) (treatment_price_vars app)
        (entry_name app) (entry_phone app) (patient_type_var app) (vip_discount_var app)
        (text_prescription app) (text_output app).

Definition set_selected (app : ClinicApp) (sel : list string) : ClinicApp :=
  mkApp (treatments_dict app) (patient app) sel (treatment_price_vars app)
        (entry_name app) (entry_phone app) (patient_type_var app) (vip_discount_var app)
        (text_prescription app) (text_output app).

Definition set_price_vars (app : ClinicApp) (vars : dict Z) : ClinicApp :=
  mkApp (treatments_dict app) (patient app) (selected_treatments app) vars
        (entry_name app) (entry_phone app) (patient_type_var app) (vip_discount_var app)
        (text_prescription app) (text_output app).

(** [f"{treatment_name} (Rs. {cost})"] *)
Definition treatment_row (treatment_name : string) (cost : Z) : string :=
  treatment_name +:+ " (Rs. " +:+ Str.of_Z cost +:+ ")".

Definition update_treatment_listbox (m : MainWindow) : MainWindow :=
  mkMain (session m)
         (map (fun kv => treatment_row (fst kv) (snd kv)) (treatments_dict (session m))).

(** [s.split(sep)[0]]: [s] up to the first [sep]. *)
Fixpoint split_head (sep s : string) : string :=
  match s with
  | EmptyString => EmptyString
  | String c r => if Str.prefixb sep s then EmptyString else String c (split_head sep r)
  end.

(** [listbox.get(idx)]: the empty string out of range. *)
Definition listbox_get (rows : list string) (idx : nat) : string :=
  default "" (rows !! idx).

(** [x in l] for a list of strings *)
Definition in_list (x : string) (l : list string) : bool := existsb (String.eqb x) l.

(** [k in d] *)
Definition has_key {V} (k : string) (d : dict V) : bool :=
  match dict_get k d with Some _ => true | None => false end.

(** [del d[k]] *)
Fixpoint dict_del {V} (k : string) (d : dict V) : dict V :=
  match d with
  | [] => []
  | (k', v) :: d' => if String.eqb k k' then d' else (k', v) :: dict_del k d'
  end.

(** [l.remove(x)] for an [x] that is in [l]: the first one goes. *)
Fixpoint remove_first (x : string) (l : list string) : list string :=
  match l with
  | [] => []
  | y :: l' => if String.eqb x y then l' else y :: remove_first x l'
  end.

(** The price fields are made anew, one for each selected name, each
    with the price of the catalog, or 0 for a name the catalog lacks. *)
Definition update_selected_treatments_display (app : ClinicApp) : ClinicApp :=
  set_price_vars app
    (fold_left (fun vars t_name =>
                  dict_set t_name (default 0 (dict_get t_name (treatments_dict app))) vars)
               (selected_treatments app) []).

(** [add_selected_treatments]; [selected_indices] is the selection of
    the listbox. *)
Definition add_selected_treatments (selected_indices : list nat) (m : MainWindow)
  : M MainWindow :=
  match selected_indices with
  | [] =>
      exec emit (ShowWarning "No Selection" [Lit "Please select at least one treatment."]);
      ret m
  | _ =>
      let sel :=
        fold_left (fun sel idx =>
                     let treatment_str := listbox_get (treatment_listbox m) idx in
                     let treatment_name := split_head " (" treatment_str in
                     if in_list treatment_name sel then sel else sel ++ [treatment_name])
                  selected_indices (selected_treatments (session m)) in
      ret (mkMain (update_selected_treatments_display (set_selected (session m) sel))
                  (treatment_listbox m))
  end.

(** [add_new_treatment]; the two arguments are the answers to the name
    prompt and to the price prompt ([None] when the prompt is
    cancelled; the price prompt gives back no number below 1). *)
Definition add_new_treatment (answer_name : option string) (answer_price : option Z)
    (m : MainWindow) : M MainWindow :=
  exec emit (AskString "New Treatment" [Lit "Enter new treatment name:"]);
  match answer_name with
  | None => ret m
  | Some typed =>
      if String.eqb typed "" then ret m
      else
        let new_name := Str.strip typed in
        if String.eqb new_name "" then ret m
        else if has_key new_name (treatments_dict (session m)) then
          exec emit (ShowError "Error" [Lit "Treatment already exists."]);
          ret m
        else
          exec emit (AskString "New Treatment Price"
                       [Lit "Enter price for "; Lit new_name; Lit " (Rs.):"]);
          match answer_price with
          | None => ret m
          | Some new_price =>
              let d := dict_set new_name new_price (treatments_dict (session m)) in
              let m' := mkMain (set_treatments (session m) d) (treatment_listbox m) in
              exec save_treatments d;
              let m' := update_treatment_listbox m' in
              exec emit (ShowInfo "Success"
                           [Lit "Added new treatment: "; Lit new_name; Lit " (Rs. ";
                            Val (JInt new_price); Lit ")"]);
              ret m'
          end
  end.

(** [remove_treatment]: the rows of the window it opens, when it opens
    one. *)
Definition remove_treatment (m : MainWindow) : M (option (list string)) :=
  match treatments_dict (session m) with
  | [] =>
      exec emit (ShowInfo "Info" [Lit "No treatments available to remove."]);
      ret None
  | d => ret (Some (map fst d))
  end.

(** One turn of the loop of [on_remove] *)
Definition remove_one (rows : list string) (st : dict Z * list string) (idx : nat)
  : dict Z * list string :=
  let treatment_name := listbox_get rows idx in
  let d := fst st in
  let sel := snd st in
  (if has_key treatment_name d then dict_del treatment_name d else d,
   if in_list treatment_name sel then remove_first treatment_name sel else sel).

(** The [Remove] button of that window; [rows] are its rows and
    [selected_indices] its selection. *)
Definition on_remove (selected_indices : list nat) (rows : list string) (m : MainWindow)
  : M MainWindow :=
  match selected_indices with
  | [] =>
      exec emit (ShowWarning "No Selection"
                   [Lit "Please select at least one treatment to remove."]);
      ret m
  | _ =>
      let st := fold_left (remove_one rows) (rev selected_indices)
                          (treatments_dict (session m), selected_treatments (session m)) in
      let app := set_selected (set_treatments (session m) (fst st)) (snd st) in
      exec save_treatments (fst st);
      let m' := update_treatment_listbox (mkMain app (treatment_listbox m)) in
      let m' := mkMain (update_selected_treatments_display (session m'))
                       (treatment_listbox m') in
      exec emit PopupDestroy;
      ret m'
  end.

(** ** The reminder at launch *)

(** [d + timedelta(days=1)]; past the last day of the year 9999 it is
    an [OverflowError]. *)
Definition next_day (d : date) : result date :=
  if day d <? days_in_month (year d) (month d) then
    Ok (mkdate (year d) (month d) (day d + 1))
  else if month d <? 12 then Ok (mkdate (year d) (month d + 1) 1)
  else if year d <? 9999 then Ok (mkdate (year d + 1) 1 1)
  else Raise OverflowError.

(** [d.strftime("%Y-%m-%d")] *)
Definition strftime_date (d : date) : string := strftime_day (mkdatetime d 0 0 0).

(** [[appt for appt in appointments if appt.get("date") == s]] *)
Fixpoint due_on (s : string) (l : list json) : result (list json) :=
  match l with
  | [] => Ok []
  | appt :: l' =>
      do v <- elem_get "date" appt;
      do r <- due_on s l';
      Ok (if py_eq v (JStr s) then appt :: r else r)
  end.

(** The lines of the reminder after its first, each after a line
    break: [f"- {appt.get('name')} (Phone: {appt.get('phone')}) on
    {appt.get('date')}"]. *)
Fixpoint reminder_lines (due : list json) : result (list frag) :=
  match due with
  | [] => Ok []
  | appt :: due' =>
      do name <- elem_get "name" appt;
      do phone <- elem_get "phone" appt;
      do date_v <- elem_get "date" appt;
      do r <- reminder_lines due';
      Ok ([Lit (newline +:+ "- "); Val name; Lit " (Phone: "; Val phone; Lit ") on ";
           Val date_v] ++ r)
  end.

Definition check_appointments_reminder : M unit :=
  run appointments <- reads load_appointments;
  run t <- today;
  run tomorrow <- lift (next_day t);
  run elems <- lift (iter_json appointments);
  run due <- lift (due_on (strftime_date tomorrow) elems);
  match due with
  | [] => ret tt
  | _ =>
      run lines <- lift (reminder_lines due);
      emit (ShowInfo "Appointment Reminder" (Lit "Appointments due tomorrow:" :: lines))
  end.

(** [ClinicApp.__init__] to its end: the catalog, the rows of the
    listbox, the reminder. *)
Definition start_app : M MainWindow :=
  run app <- init_app;
  let m := update_treatment_listbox (mkMain app []) in
  exec check_appointments_reminder;
  ret m.

(* ===================================================================== *)
(** * Part II: the vocabulary of the statements                           *)
(* ===================================================================== *)

(** ** The bill of the two sample treatments *)

Definition sample_treatments : list Treatment :=
  [mkTreatment "A" 100; mkTreatment "B" 250].

(** The lines every bill of the sample treatments starts with. *)
Definition sample_head (name phone ptype : string) (now : datetime) : list string :=
  [ "============================================================";
    "        Reimagine Hair Transplant & Skin Care Clinic        ";
    "============================================================";
    "Patient Name : " +:+ name;
    "Phone Number : " +:+ phone;
    "Patient Type : " +:+ ptype;
    "Date & Time  : " +:+ strftime_bill now;
    "------------------------------------------------------------";
    "Treatment                                    Cost (Rs.)";
    "------------------------------------------------------------";
    "A                                                   100";
    "B                                                   250";
    "------------------------------------------------------------" ].

Definition sample_foot : list string :=
  [ "============================================================";
    "             Thank you for choosing our clinic!             ";
    "============================================================" ].

(** A line of the bill that starts as a subtotal or discount line. *)
Definition is_discount_line (l : string) : bool :=
  Str.prefixb "Subtotal" l || Str.prefixb "VIP Discount" l.

(** A magnitude a binary64 number can have: at most 53 significant
    bits. *)
Definition representable (v : Z) : Prop :=
  exists m t, 0 <= m < 2 ^ 53 /\ 0 <= t /\ v = m * 2 ^ t.

(** *** The shape of a rendered amount *)

(** [.dd] and nothing more *)
Definition frac2 (s : string) : bool :=
  match s with
  | String c (String a (String b EmptyString)) =>
      Ascii.eqb c "." && Str.is_digit a && Str.is_digit b
  | _ => false
  end.

(** One digit or more, then [.dd] *)
Fixpoint money_body (s : string) : bool :=
  match s with
  | String c r => Str.is_digit c && (frac2 r || money_body r)
  | EmptyString => false
  end.

Definition strip_minus (s : string) : string :=
  match s with
  | String c r => if Ascii.eqb c "-" then r else s
  | EmptyString => s
  end.

(** An amount with exactly two decimal places: [-]d+.dd *)
Definition two_decimals (s : string) : bool := money_body (strip_minus s).

Fixpoint all_digits (s : string) : bool :=
  match s with
  | String c r => Str.is_digit c && all_digits r
  | EmptyString => true
  end.

(** A whole number with no decimal places: [-]d+ *)
Definition plain_integer (s : string) : bool :=
  match strip_minus s with
  | EmptyString => false
  | r => all_digits r
  end.

(** What stands in the cost column of a line: the 20 characters after
    the 35 of the label, without the blanks before the amount. *)
Definition cost_field (line : string) : string :=
  Str.lstrip (String.substring 35 20 line).

(** The ten lines above the treatments and the three below the total. *)
Definition bill_head (p : Patient) (now : datetime) : list string :=
  [ Str.mul "=" 60;
    Str.center 60 " Reimagine Hair Transplant & Skin Care Clinic ";
    Str.mul "=" 60;
    "Patient Name : " +:+ p_name p;
    "Phone Number : " +:+ p_phone p;
    "Patient Type : " +:+ p_patient_type p;
    "Date & Time  : " +:+ strftime_bill now;
    Str.mul "-" 60;
    Str.ljust 35 "Treatment" +:+ Str.rjust 20 "Cost (Rs.)";
    Str.mul "-" 60 ].

Definition bill_foot : list string :=
  [ Str.mul "=" 60;
    Str.center 60 "Thank you for choosing our clinic!";
    Str.mul "=" 60 ].

(** A line [label] with the amount [s] in the cost column. *)
Definition amount_line (label s : string) : string :=
  Str.ljust 35 label +:+ Str.rjust 20 s.

(** The discount is one the session accepts: a VIP patient has a
    discount from 0 to 100. *)
Definition discount_in_range (p : Patient) : Prop :=
  p_patient_type p = "VIP" -> 0 <= p_vip_discount p <= 100.

(** The sum of the costs of the treatments. *)
Definition total_cost (ts : list Treatment) : Z :=
  fold_right (fun t acc => get_cost t + acc) 0 ts.

(** Every cost can be written out. *)
Definition writable_costs (ts : list Treatment) : bool :=
  forallb (fun t => writable_int (get_cost t)) ts.

(** A one-treatment bill, to look at its cost column. *)
Definition one_treatment_patient : Patient :=
  mkPatient "Ann" "0300123456" [mkTreatment "A" 100] "" "Normal" 0.

Definition noon : datetime := mkdatetime (mkdate 2026 3 5) 12 0 0.

(** *** What a callback leaves behind *)

(** The world with one more thing shown to the user. *)
Definition add_event (w : world) (e : event) : world :=
  mkWorld (files w) (locked w) (clock w) (heap w) (events w ++ [e]).

(** An event that touches a file or the printer. *)
Definition is_side_effect (e : event) : bool :=
  match e with
  | FileWrite _ | MakeDirs _ | TempFile _ | SendToPrinter | ScheduleRemoveTemp => true
  | _ => false
  end.

(** From [w] to [w'] no file changed and nothing was asked of the disk
    or the printer. *)
Definition no_side_effect (w w' : world) : Prop :=
  files w' = files w
  /\ List.filter is_side_effect (events w') = List.filter is_side_effect (events w).

(** The session as [__init__] and [reset_all] leave it and as it stays
    until a bill is generated: no patient. *)
Definition not_generated (app : ClinicApp) : Prop := patient app = None.

(** A session on an empty disk, at noon of the sample day. *)
Definition empty_world : world := mkWorld ∅ ∅ noon [] [].

(** *** Catalog files *)

(** A value [int()] refuses. *)
Definition unconvertible (v : json) : Prop := exists e, py_int v = Raise e.

(** The catalog file is missing, cannot be opened, does not parse, holds
    something else than an object, or holds an entry [int()] refuses. *)
Definition bad_catalog_file (w : world) : Prop :=
  files w !! TREATMENTS_FILE = None
  \/ TREATMENTS_FILE ∈ locked w
  \/ exists text, files w !! TREATMENTS_FILE = Some text
       /\ (Load.loads text = None
           \/ exists data, Load.loads text = Some data
                /\ ((forall d, data <> JObj d)
                    \/ exists d k v, data = JObj d /\ In (k, v) d /\ unconvertible v)).

(** The world whose only file is the catalog with the text [text]. *)
Definition catalog_world (text : string) : world :=
  mkWorld {[ TREATMENTS_FILE := text ]} ∅ noon [] [].

(** The text [{"A": "12", "B": 3.7, "C": true}]: prices written as a
    string, a fraction and a truth value. *)
Definition mistyped_catalog_text : string :=
  "{" +:+ Dump.quote +:+ "A" +:+ Dump.quote +:+ ": " +:+ Dump.quote +:+ "12" +:+ Dump.quote
    +:+ ", " +:+ Dump.quote +:+ "B" +:+ Dump.quote +:+ ": 3.7, "
    +:+ Dump.quote +:+ "C" +:+ Dump.quote +:+ ": true}".

(** The text [{"A": null}] *)
Definition null_price_text : string :=
  "{" +:+ Dump.quote +:+ "A" +:+ Dump.quote +:+ ": null}".

(** *** Appointment dates *)

(** The date text is refused: it does not read as a date, or it reads
    as a day before today. *)
Definition date_rejected (w : world) (s : string) : Prop :=
  strptime s = None
  \/ exists d, strptime s = Some d /\ date_ltb d (dt_date (clock w)) = true.

(** A booking with a blank field or a refused date. *)
Definition booking_invalid (w : world) (name phone date_str : string) : Prop :=
  Str.strip name = "" \/ Str.strip phone = "" \/ Str.strip date_str = ""
  \/ date_rejected w (Str.strip date_str).

(** The strict form [YYYY-MM-DD]: four digits, two digits, two digits. *)
Definition iso_form (s : string) : bool :=
  match list_ascii_of_string s with
  | [y1; y2; y3; y4; d1; m1; m2; d2; a1; a2] =>
      forallb Str.is_digit [y1; y2; y3; y4; m1; m2; a1; a2]
      && Ascii.eqb d1 "-" && Ascii.eqb d2 "-"
  | _ => false
  end.

(** The world whose only file is the appointment list [v], as
    [json.dump] writes it, with [h] as its objects. *)
Definition appointments_world (v : json) (h : list pydict) : world :=
  mkWorld {[ APPOINTMENTS_FILE := Dump.dumps v ]} ∅ noon h [].

(** One stored appointment, the window that shows it, and the world
    they live in: the record is object 0. *)
Definition ann_record : pydict :=
  [("name", JStr "Ann"); ("phone", JStr "0300123456"); ("date", JStr "2999-01-05")].

Definition ann_world : world := appointments_world (JArr [JObj ann_record]) [ann_record].

Definition ann_popup : popup := mkPopup [0%nat] "" [0%nat].

(** The question of the date prompt. *)
Definition ask_date (cur : json) : event :=
  AskString "Edit Date" [Lit "Enter new date (YYYY-MM-DD) [Current: "; Val cur; Lit "]:"].

(** *** Searching *)

(** The members of the object at [l]. *)
Definition obj (w : world) (l : nat) : pydict := default [] (heap w !! l).

(** The name and the phone of a record are strings (a missing one
    counts as the empty string). *)
Definition str_fields (d : pydict) : Prop :=
  (exists s, get_or_empty "name" d = JStr s) /\ (exists s, get_or_empty "phone" d = JStr s).

Definition name_of (d : pydict) : string :=
  match get_or_empty "name" d with JStr s => s | _ => "" end.

Definition phone_of (d : pydict) : string :=
  match get_or_empty "phone" d with JStr s => s | _ => "" end.

(** [q] occurs in the lower-cased name or in the phone as stored. *)
Definition hit (q : string) (d : pydict) : bool :=
  Str.contains q (Str.lower (name_of d)) || Str.contains q (phone_of d).

(** The query as the search uses it: trimmed and lower-cased. *)
Definition normal_query (text : string) : string := Str.lower (Str.strip text).

(** A window on one record, object 0 of the world. *)
Definition one_record_world (d : pydict) : world := mkWorld ∅ ∅ noon [d] [].

Definition bob_record : pydict :=
  [("name", JStr "Bob"); ("phone", JStr "A1-77"); ("date", JStr "2999-01-05")].

(** *** Editing *)

(** The world with the members of object [a] replaced by [d]. *)
Definition update_obj (w : world) (a : nat) (d : pydict) : world :=
  mkWorld (files w) (locked w) (clock w) (<[a := d]> (heap w)) (events w).

(** The answer to the date prompt lets the edit go on: nothing was
    typed, or what was typed reads as a day from today on. *)
Definition date_accepted (w : world) (new_date_str : option string) : Prop :=
  match new_date_str with
  | None => True
  | Some s =>
      s = "" \/ exists d, strptime s = Some d /\ date_ltb d (dt_date (clock w)) = false
  end.

(** The record after the answers to the two prompts. *)
Definition with_answer (k : string) (answer : option string) (d : pydict) : pydict :=
  match answer with
  | None => d
  | Some s => if String.eqb s "" then d else dict_set k (JStr s) d
  end.

Definition edited (new_date_str new_phone : option string) (d : pydict) : pydict :=
  with_answer "phone" new_phone (with_answer "date" new_date_str d).

(** The name of a stored record equals [name]. *)
Definition same_name (name : json) (r : pydict) : bool :=
  py_eq (get_or_none "name" r) name.

(** The question of the phone prompt. *)
Definition ask_phone (cur : json) : event :=
  AskString "Edit Phone" [Lit "Enter new phone [Current: "; Val cur; Lit "]:"].

(** A computation that leaves the files alone. *)
Definition preserves_files {A} (m : M A) : Prop :=
  forall w, files (snd (m w)) = files w /\ locked (snd (m w)) = locked w.

(** The value of a field after the prompt: what was typed, or the old
    value when nothing was typed. *)
Definition answer_or (answer : option string) (old : json) : json :=
  match answer with
  | None => old
  | Some s => if String.eqb s "" then old else JStr s
  end.

(** The edit of row [index] goes as far as the write: the row shows the
    object [a], a record with the fields [name], [phone] and [date_v];
    the answer to the date prompt is accepted; the file can be
    written. *)
Definition edit_applies (w : world) (p : popup) (index : nat) (new_date_str : option string)
    (a : nat) (name phone date_v : json) : Prop :=
  exists rows d0,
    current_list p w = (Ok rows, w) /\ rows !! index = Some a /\ heap w !! a = Some d0
    /\ getitem "name" d0 = Ok name /\ getitem "phone" d0 = Ok phone
    /\ getitem "date" d0 = Ok date_v
    /\ date_accepted w new_date_str
    /\ APPOINTMENTS_FILE ∉ locked w.

(** The appointment file after a write of the list [l]. *)
Definition written (w : world) (l : list json) : gmap string string :=
  <[APPOINTMENTS_FILE := Dump.dumps (JArr l)]> (files w).

(** Two appointments of the same patient, shown in a window as the
    objects 0 and 1. *)
Definition ann_later : pydict :=
  [("name", JStr "Ann"); ("phone", JStr "0300123456"); ("date", JStr "2999-02-10")].

Definition two_ann_world : world :=
  appointments_world (JArr [JObj ann_record; JObj ann_later]) [ann_record; ann_later].

Definition two_ann_popup : popup := mkPopup [0%nat; 1%nat] "" [0%nat; 1%nat].

(** *** The upcoming appointments *)

(** [x] does not come after [y] by the key: [key x <= key y] as
    strings. *)
Definition key_le {A} (key : A -> string) (x y : A) : Prop :=
  String.leb (key x) (key y) = true.

(** From [w] to [w'] only objects were added. *)
Definition grows (w w' : world) : Prop :=
  files w' = files w /\ locked w' = locked w /\ clock w' = clock w
  /\ events w' = events w /\ exists new, heap w' = heap w ++ new.

(** The element [o] was built from the list [l] between [w] and [w']:
    a dict of [l] is a new object. *)
Definition loaded_from (l : list json) (w w' : world) (o : pyobj) : Prop :=
  match o with
  | ORef a =>
      (length (heap w) <= a < length (heap w'))%nat
      /\ exists d, heap w' !! a = Some d /\ In (JObj d) l
  | OVal _ => True
  end.

(** The object [c] was made between [w] and [w'] as a copy of a loaded
    element whose date reads as a day from [t] on. *)
Definition upcoming_copy (t : date) (objs : list pyobj) (w w' : world) (c : nat) : Prop :=
  (length (heap w) <= c < length (heap w'))%nat
  /\ exists a d s dt,
       In (ORef a) objs /\ heap w' !! a = Some d /\ heap w' !! c = Some d
       /\ dict_get "date" d = Some (JStr s) /\ strptime s = Some dt
       /\ date_ltb dt t = false.

(** *** Values that go through the file unchanged *)

(** No fraction anywhere, and no key twice in an object: the shape of
    the catalog (names to integers) and of the appointment records
    (strings). *)
Fixpoint plain (v : json) : bool :=
  match v with
  | JFloat _ => false
  | JArr l => forallb plain l
  | JObj d =>
      bool_decide (NoDup (map fst d)) && forallb (fun kv => plain (snd kv)) d
  | _ => true
  end.

(** What follows a value in the text [json.dump] writes: nothing, a
    comma or a line break. *)
Definition stop_char (c : ascii) : bool :=
  Ascii.eqb c "," || (nat_of_ascii c =? 10)%nat.

Definition delimited (rest : string) : bool :=
  match rest with
  | EmptyString => true
  | String c _ => stop_char c
  end.

(** A number in decimal has no zero in front, unless it is zero. *)
Definition head_nonzero (u : Decimal.uint) : Prop :=
  match u with
  | Decimal.Nil | Decimal.D0 _ => False
  | _ => True
  end.

(** The text of an array after its first element, and of an object
    after its first member: the inner loops of [Dump.dump]. *)
Fixpoint dump_items (lvl : nat) (l : list json) : string :=
  match l with
  | [] => Dump.newline_indent lvl +:+ "]"
  | y :: l' =>
      "," +:+ Dump.newline_indent (S lvl) +:+ Dump.dump (S lvl) y +:+ dump_items lvl l'
  end.

Fixpoint dump_members (lvl : nat) (d : list (string * json)) : string :=
  match d with
  | [] => Dump.newline_indent lvl +:+ "}"
  | (k, y) :: d' =>
      "," +:+ Dump.newline_indent (S lvl) +:+ Dump.dump_str k +:+ ": "
        +:+ Dump.dump (S lvl) y +:+ dump_members lvl d'
  end.

(** The number of values and separators in [v]: the fuel that
    [Load.scan_value] uses on the text of [v]. *)
Fixpoint scan_cost (v : json) : nat :=
  match v with
  | JArr l => S (fold_right (fun x n => S (scan_cost x + n))%nat O l)
  | JObj d => S (fold_right (fun kv n => S (scan_cost (snd kv) + n))%nat O d)
  | _ => 1%nat
  end.

Definition items_cost (l : list json) : nat :=
  fold_right (fun x n => S (scan_cost x + n))%nat O l.

Definition members_cost (d : list (string * json)) : nat :=
  fold_right (fun kv n => S (scan_cost (snd kv) + n))%nat O d.

(** The first character of a value is neither blank nor a closing
    bracket. *)
Definition value_start (c : ascii) : bool :=
  negb (Load.is_ws c) && negb (Ascii.eqb c "]").


(** A small catalog and its world. *)
Definition small_catalog : dict Z := [("Facial", 1200); ("Peel", 3500)].

(** ** The vocabulary of the further properties *)

(** The bill carries no discount: the patient is not VIP, or is VIP at
    0%. *)
Definition no_discount (p : Patient) : Prop :=
  p_patient_type p <> "VIP" \/ p_vip_discount p = 0.

(** The lines of a VIP bill between the rule and the total. *)
Definition discount_lines (p : Patient) (sub dis : string) : list string :=
  [ amount_line "Subtotal" sub;
    amount_line ("VIP Discount (" +:+ Str.of_Z (p_vip_discount p) +:+ "%)") dis ].

(** A discount is shown: a VIP patient, a percentage above 0 and a sum
    above 0. *)
Definition discount_shown (p : Patient) : bool :=
  String.eqb (p_patient_type p) "VIP" && (0 <? p_vip_discount p)
  && (0 <? total_cost (p_treatments p)).

(** *** Generating a bill *)

(** The question about an unusual phone number. *)
Definition ask_phone_format : event :=
  AskYesNo "Phone format" [Lit "Phone number looks unusual. Continue anyway?"].

(** The world after the phone check: the question was asked when the
    phone looks unusual. *)
Definition phone_checked (app : ClinicApp) (w : world) : world :=
  if phone_looks_usual (Str.strip (entry_phone app)) then w else add_event w ask_phone_format.

(** The phone passes: it looks usual, or the user said to go on. *)
Definition phone_passes (go_on : bool) (app : ClinicApp) : bool :=
  phone_looks_usual (Str.strip (entry_phone app)) || go_on.

Definition input_error (text : string) : event := ShowError "Input Error" [Lit text].

(** The treatment of a selected name at the price of its field. *)
Definition priced (vars : dict Z) (t_name : string) : Treatment :=
  mkTreatment t_name (default 0 (dict_get t_name vars)).

(** The patient a session describes. *)
Definition session_patient (app : ClinicApp) : Patient :=
  mkPatient (Str.strip (entry_name app)) (Str.strip (entry_phone app))
            (map (priced (treatment_price_vars app)) (selected_treatments app))
            (Str.strip (text_prescription app)) (patient_type_var app)
            (if String.eqb (patient_type_var app) "VIP" then vip_discount_var app else 0).

(** Every check of [generate_bill_prescription] passes. *)
Definition generate_ready (go_on : bool) (app : ClinicApp) : Prop :=
  Str.strip (entry_name app) <> "" /\ Str.strip (entry_phone app) <> ""
  /\ phone_passes go_on app = true
  /\ selected_treatments app <> []
  /\ (patient_type_var app = "VIP" -> 0 <= vip_discount_var app <= 100)
  /\ Forall (fun n => has_key n (treatment_price_vars app) = true) (selected_treatments app).

(** The file of the day's records a bill goes to. *)
Definition record_path (app : ClinicApp) (now : datetime) : string :=
  "records/" +:+ strftime_day now +:+ "/" +:+ safe_name (Str.strip (entry_name app))
    +:+ "_" +:+ strftime_hms now +:+ ".txt".

(** A session with one treatment selected, ready for its bill. *)
Definition ready_app : ClinicApp :=
  mkApp [("Facial", 1200)] None ["Facial"] [("Facial", 1000)]
        " Ann " "0300123456" "Normal" 10 "  " "".

(** The text holds nothing but white space. *)
Definition blank (s : string) : bool := forallb Str.is_space (list_ascii_of_string s).

(** The seven lines above the body of a prescription. *)
Definition prescription_head (p : Patient) (now : datetime) : list string :=
  [ Str.mul "=" 60;
    Str.center 60 " Prescription ";
    Str.mul "=" 60;
    "Patient Name : " +:+ p_name p;
    "Phone Number : " +:+ p_phone p;
    "Date & Time  : " +:+ strftime_bill now;
    Str.mul "-" 60 ].

(** A character [safe_name] keeps. *)
Definition safe_char (c : ascii) : bool :=
  is_alnum c || Ascii.eqb c " " || Ascii.eqb c "_".

(** The name of the record file inside the folder of the day. *)
Definition record_file (name : string) (now : datetime) : string :=
  safe_name name +:+ "_" +:+ strftime_hms now +:+ ".txt".

(** The file [save_to_txt] writes. *)
Definition txt_path (now : datetime) : string :=
  "txt/bill_prescription_" +:+ strftime_stamp now +:+ ".txt".

(** The exception the rendering of the bill of [p] ends in, if it
    does: a price that cannot be written out, or a sum that is no
    float. *)
Definition bill_refusal (p : Patient) : option exn :=
  if negb (writable_costs (p_treatments p)) then Some ValueError
  else if 2 ^ 1024 <=? Z.abs (total_cost (p_treatments p)) then Some OverflowError
  else None.

(** A session whose only treatment is priced at [2^1024]. *)
Definition huge_app : ClinicApp :=
  mkApp [] None ["A"] [("A", 2 ^ 1024)] "Ann" "0300123456" "Normal" 10 "" "".

(** *** The catalog and the selection *)

(** The rows the listbox shows for a catalog. *)
Definition catalog_rows (d : dict Z) : list string :=
  map (fun kv => treatment_row (fst kv) (snd kv)) d.

(** The price the catalog has for a name, 0 for a name it lacks. *)
Definition catalog_price (d : dict Z) (t_name : string) : Z :=
  default 0 (dict_get t_name d).

(** The main window is in order: the catalog has no name twice, the
    listbox shows the catalog, no treatment is selected twice, and
    there is one price field for each selected treatment, in order. *)
Definition window_ok (m : MainWindow) : Prop :=
  NoDup (map fst (treatments_dict (session m)))
  /\ treatment_listbox m = catalog_rows (treatments_dict (session m))
  /\ NoDup (selected_treatments (session m))
  /\ map fst (treatment_price_vars (session m)) = selected_treatments (session m).

(** The user types a price into the field of a selected treatment. *)
Definition type_price (t_name : string) (price : Z) (m : MainWindow) : MainWindow :=
  mkMain (set_price_vars (session m)
            (if has_key t_name (treatment_price_vars (session m))
             then dict_set t_name price (treatment_price_vars (session m))
             else treatment_price_vars (session m)))
         (treatment_listbox m).

(** The question of the name prompt and of the price prompt. *)
Definition ask_name : event := AskString "New Treatment" [Lit "Enter new treatment name:"].

Definition ask_price (new_name : string) : event :=
  AskString "New Treatment Price" [Lit "Enter price for "; Lit new_name; Lit " (Rs.):"].

(** The main window of a session, with the listbox showing its
    catalog. *)
Definition window_of (app : ClinicApp) : MainWindow :=
  mkMain app (catalog_rows (treatments_dict app)).

(** A window on the small catalog with one treatment selected. *)
Definition small_window : MainWindow :=
  window_of (mkApp small_catalog None ["Facial"] [("Facial", 1200)]
                   "Ann" "0300123456" "Normal" 10 "" "").

(** *** Booking and deleting *)

(** The record a booking stores: the three fields as typed, without
    the white space around them. *)
Definition booked_record (name phone date_str : string) : json :=
  new_record (JStr (Str.strip name)) (JStr (Str.strip phone)) (JStr (Str.strip date_str)).

(** What the user is told after a booking. *)
Definition booked_events (name date_str : string) : list event :=
  [ FileWrite APPOINTMENTS_FILE;
    ShowInfo "Success" [Lit "Appointment booked for "; Lit (Str.strip name); Lit " on ";
                        Lit (Str.strip date_str)];
    PopupDestroy ].

(** The deletion of row [index] goes as far as the write: the row
    shows the object [a] with the members [target], and the file can be
    written. *)
Definition delete_applies (w : world) (p : popup) (index a : nat) (target : pydict) : Prop :=
  exists rows,
    current_list p w = (Ok rows, w) /\ rows !! index = Some a /\ heap w !! a = Some target
    /\ APPOINTMENTS_FILE ∉ locked w.

(** *** The reminder *)

(** The date of the record is the text [s]. *)
Definition due_tomorrow (s : string) (r : pydict) : bool :=
  py_eq (get_or_none "date" r) (JStr s).

(** The line of one record in the reminder. *)
Definition reminder_line (r : pydict) : list frag :=
  [ Lit (newline +:+ "- "); Val (get_or_none "name" r); Lit " (Phone: ";
    Val (get_or_none "phone" r); Lit ") on "; Val (get_or_none "date" r) ].

Definition reminder (due : list pydict) : event :=
  ShowInfo "Appointment Reminder"
           (Lit "Appointments due tomorrow:" :: flat_map reminder_line due).

(** What the appointment file holds parses, but is no list of
    records: a list with an element that is no object, an object or a
    text that is not empty, a number, a truth value or [null]. *)
Definition not_records (v : json) : Prop :=
  match v with
  | JArr l => Exists (fun x => forall d, x <> JObj d) l
  | JObj d => d <> []
  | JStr s => s <> ""
  | _ => True
  end.

(** The world whose appointment file holds the text of [v], on the
    sample day. *)
Definition stored_world (v : json) : world := appointments_world v [].

(** An appointment on the day after the sample day, and one written
    with a one-digit month. *)
Definition due_record : pydict :=
  [("name", JStr "Ann"); ("phone", JStr "0300123456"); ("date", JStr "2026-03-06")].

Definition loose_record : pydict :=
  [("name", JStr "Bob"); ("phone", JStr "0311"); ("date", JStr "2026-3-06")].

(** *** The window of upcoming appointments, record by record *)

(** The date of the record reads as the day [t] or a later one. *)
Definition is_upcoming (t : date) (r : pydict) : bool :=
  match get_or_empty "date" r with
  | JStr s =>
      match strptime s with
      | Some appt_date => date_geb appt_date t
      | None => false
      end
  | _ => false
  end.

(** The text a record is sorted by: its date when that is a text. *)
Definition date_text (r : pydict) : string :=
  match dict_get "date" r with
  | Some (JStr s) => s
  | _ => ""
  end.

(** The world with other objects. *)
Definition with_heap (w : world) (h : list pydict) : world :=
  mkWorld (files w) (locked w) (clock w) h (events w).

(** *** Dates in the strict form *)

(** The decimal digit [k] as a character. *)
Definition digit_char (k : nat) : ascii := ascii_of_nat (48 + k).

(** The text [YYYY-MM-DD] of eight digits. *)
Definition iso_text (y1 y2 y3 y4 m1 m2 a1 a2 : nat) : string :=
  String (digit_char y1) (String (digit_char y2) (String (digit_char y3)
    (String (digit_char y4) (String "-" (String (digit_char m1) (String (digit_char m2)
      (String "-" (String (digit_char a1) (String (digit_char a2) EmptyString))))))))).

(** The date those digits write. *)
Definition iso_date (y1 y2 y3 y4 m1 m2 a1 a2 : nat) : date :=
  mkdate (Z.of_nat (1000 * y1 + 100 * y2 + 10 * y3 + y4)) (Z.of_nat (10 * m1 + m2))
         (Z.of_nat (10 * a1 + a2)).

(** What [match_format] does after the year and its dash, without the
    year: the month, the day and the text left over. *)
Definition month_day (s : string) : option (Z * Z * string) :=
  first_alt month_alts (fun m r =>
    match match_dash r with
    | Some r => first_alt day_alts (fun d r => Some (m, d, r)) r
    | None => None
    end) s.

(** The ten digits *)
Definition digits : list nat := seq 0 10.

(** The members of the record a booking stores. *)
Definition booked_fields (name phone date_str : string) : pydict :=
  [("name", JStr (Str.strip name)); ("phone", JStr (Str.strip phone));
   ("date", JStr (Str.strip date_str))].

(** The records the window of upcoming appointments shows, in order. *)
Definition shown (w : world) (p : popup) : list pydict := map (obj w) (upcoming p).

(** The appointment list with the later appointment stored first. *)
Definition later_first_world : world :=
  appointments_world (JArr [JObj ann_later; JObj ann_record]) [].

(** The world in which the files are those of [w], on the sample day. *)
Definition on_sample_day (w : world) : world := mkWorld (files w) (locked w) noon [] [].

(** *** Sessions in which no bill was asked for *)

(** The checks of [generate_bill_prescription] all pass. *)
Definition passes_checks (go_on : bool) (app : ClinicApp) : bool :=
  negb (String.eqb (Str.strip (entry_name app)) ""
        || String.eqb (Str.strip (entry_phone app)) "")
  && phone_passes go_on app
  && negb (match selected_treatments app with [] => true | _ :: _ => false end)
  && negb (String.eqb (patient_type_var app) "VIP"
           && negb ((0 <=? vip_discount_var app) && (vip_discount_var app <=? 100))).

(** One operation on the treatment list of the main window. *)
Inductive window_step (m m' : MainWindow) : Prop :=
  | step_select (idxs : list nat) (w w' : world) :
      add_selected_treatments idxs m w = (Ok m', w') -> window_step m m'
  | step_add (a : option string) (b : option Z) (w w' : world) :
      add_new_treatment a b m w = (Ok m', w') -> window_step m m'
  | step_remove (idxs : list nat) (rows : list string) (w w' : world) :
      on_remove idxs rows m w = (Ok m', w') -> window_step m m'
  | step_price (n : string) (z : Z) :
      m' = type_price n z m -> window_step m m'.

(** The sessions in which, since the launch or the last reset, no
    [generate_bill_prescription] has got past its checks: whatever was
    typed into the form or done to the treatment list, every bill asked
    for was refused at a check. *)
Inductive no_bill_asked : ClinicApp -> Prop :=
  | nba_launch (w : world) (app : ClinicApp) (w' : world) :
      init_app w = (Ok app, w') -> no_bill_asked app
  | nba_reset (app : ClinicApp) : no_bill_asked (reset_all app)
  | nba_form (app : ClinicApp) (name phone ptype : string) (discount : Z)
             (prescription : string) :
      no_bill_asked app ->
      no_bill_asked (mkApp (treatments_dict app) (patient app) (selected_treatments app)
                           (treatment_price_vars app) name phone ptype discount prescription
                           (text_output app))
  | nba_window (m m' : MainWindow) :
      no_bill_asked (session m) -> window_step m m' -> no_bill_asked (session m')
  | nba_refused (go_on : bool) (app : ClinicApp) (w : world) :
      no_bill_asked app -> passes_checks go_on app = false ->
      no_bill_asked (snd (fst (generate_bill_prescription go_on app w))).

(** The error box of a session that is not ready. *)
Definition not_ready (what : string) : event :=
  ShowError "Error" [Lit ("Generate bill and prescription first before " +:+ what +:+ ".")].

(** A session with its form empty, after a reset. *)
Definition blank_session : ClinicApp :=
  reset_all (mkApp [] (Some one_treatment_patient) ["A"] [("A", 100)]
                   "Ann" "0300123456" "Normal" 10 "" "").

(* ===================================================================== *)
(** * Part III: theorems                                                  *)
(* ===================================================================== *)

#[local] Arguments String.append !_ _ / : simpl nomatch.

(** C1.  For the lines [(A,100),(B,250)]: the bill of a Normal patient
    ends with the single money line [Total Bill 350.00] and has no
    subtotal or discount line; the bill of a VIP patient with discount 10
    has the lines [Subtotal 350.00], [VIP Discount (10%) -35.00] and
    [Total Bill 315.00]. *)
Theorem C1_sample_bill (name phone presc : string) (vip_discount : Z) (now : datetime) :
  (get_bill_lines (mkPatient name phone sample_treatments presc "Normal" vip_discount) now
   = Ok (sample_head name phone "Normal" now
         ++ ["Total Bill                                       350.00"]
         ++ sample_foot)
   /\ existsb is_discount_line
        (sample_head name phone "Normal" now
         ++ ["Total Bill                                       350.00"]
         ++ sample_foot) = false)
  /\ get_bill_lines (mkPatient name phone sample_treatments presc "VIP" 10) now
     = Ok (sample_head name phone "VIP" now
           ++ ["Subtotal                                         350.00";
               "VIP Discount (10%)                               -35.00";
               "Total Bill                                       315.00"]
           ++ sample_foot).
Proof.
  split; [split|].
  - vm_compute. reflexivity.
  - reflexivity.
  - vm_compute. reflexivity.
Qed.

(** ** Rounding to binary64 *)

Section Rounding.
Import Float64.

(** The operations of the bill on the sample amounts give what the
    reference operations of the Standard Library give on the same
    numbers: [350 * (10 / 100)], [350 - 35.0], and [1 / 3]. *)
Example reference_operations :
  of_int 350 = Ok (Fin false (350 * one))
  /\ int_truediv 10 100 = Ok (Fin false (round_units (10 * one) 100))
  /\ to_spec (Fin false (round_units (10 * one) 100))
     = SFdiv 53 1024 (to_spec (Fin false (10 * one))) (to_spec (Fin false (100 * one)))
  /\ to_spec (mul (Fin false (350 * one)) (Fin false (round_units (10 * one) 100)))
     = SFmul 53 1024 (to_spec (Fin false (350 * one)))
         (to_spec (Fin false (round_units (10 * one) 100)))
  /\ to_spec (sub (Fin false (350 * one)) (Fin false (35 * one)))
     = SFsub 53 1024 (to_spec (Fin false (350 * one))) (to_spec (Fin false (35 * one)))
  /\ to_spec (Fin false (round_units one 3))
     = SFdiv 53 1024 (to_spec (Fin false one)) (to_spec (Fin false (3 * one))).
Proof.
  split; [vm_compute; reflexivity|].
  split; [vm_compute; reflexivity|].
  split; [vm_compute; reflexivity|].
  split; [vm_compute; reflexivity|].
  split; vm_compute; reflexivity.
Qed.

Lemma pow2_pos (k : Z) : 0 <= k -> 0 < 2 ^ k.
Proof. intros. apply Z.pow_pos_nonneg; lia. Qed.

Lemma one_pos : 0 < one.
Proof. apply pow2_pos. unfold unit_exp. lia. Qed.

Lemma one_lt_overflow : one < overflow.
Proof. unfold one, overflow, unit_exp. apply Z.pow_lt_mono_r; lia. Qed.

Lemma rne_div_le (n d K : Z) : 0 < d -> n <= K * d -> rne_div n d <= K.
Proof.
  intros Hd Hn. unfold rne_div.
  pose proof (Z.div_mod n d ltac:(lia)) as E.
  pose proof (Z.mod_pos_bound n d Hd) as B.
  set (q := n / d) in *. set (r := n mod d) in *.
  assert (q <= K) by nia.
  destruct (Z.compare_spec (2 * r) d); [destruct (Z.even q)|..]; try lia;
    (assert (q < K) by nia; lia).
Qed.

Lemma rne_div_ge (n d K : Z) : 0 < d -> K * d <= n -> K <= rne_div n d.
Proof.
  intros Hd Hn. unfold rne_div.
  pose proof (Z.div_mod n d ltac:(lia)) as E.
  pose proof (Z.mod_pos_bound n d Hd) as B.
  set (q := n / d) in *. set (r := n mod d) in *.
  assert (K <= q) by nia.
  destruct (Z.compare_spec (2 * r) d); [destruct (Z.even q)|..]; lia.
Qed.

Lemma shift_of_nonneg (N : Z) : 0 <= shift_of N.
Proof. unfold shift_of. lia. Qed.

(** When bits are dropped, the integer part has more than 53 of them. *)
Lemma shift_of_pos_bound (N : Z) :
  0 < shift_of N -> 2 ^ (shift_of N + 52) <= N.
Proof.
  unfold shift_of. intros H.
  assert (0 < N).
  { destruct (Z.lt_ge_cases 0 N); [done|].
    rewrite Z.log2_nonpos in H by lia. lia. }
  replace (Z.max 0 (Z.log2 N - 52) + 52) with (Z.log2 N) by lia.
  apply Z.log2_spec. lia.
Qed.

Lemma below_shift (N : Z) : 0 <= N -> N < 2 ^ (shift_of N + 53).
Proof.
  intros H. destruct (Z.eq_dec N 0) as [->|].
  - apply pow2_pos. pose proof (shift_of_nonneg 0). lia.
  - pose proof (Z.log2_spec N ltac:(lia)) as [_ Hu].
    eapply Z.lt_le_trans; [exact Hu|].
    apply Z.pow_le_mono_r; [lia|]. unfold shift_of. lia.
Qed.

Lemma round_units_nonneg (n d : Z) : 0 <= n -> 0 < d -> 0 <= round_units n d.
Proof.
  intros Hn Hd. unfold round_units.
  pose proof (pow2_pos _ (shift_of_nonneg (n / d))).
  apply Z.mul_nonneg_nonneg; [|lia].
  apply rne_div_ge; nia.
Qed.

(** Rounding never steps over a representable magnitude. *)
Lemma round_units_le (n d B : Z) :
  0 <= n -> 0 < d -> representable B -> n <= B * d -> round_units n d <= B.
Proof.
  intros Hn Hd (m & t & Hm & Ht & ->) Hle. unfold round_units.
  set (sh := shift_of (n / d)).
  pose proof (shift_of_nonneg (n / d)) as Hsh. fold sh in Hsh.
  pose proof (pow2_pos sh Hsh) as Hp.
  destruct (Z.le_gt_cases sh t) as [Hc|Hc].
  - replace t with ((t - sh) + sh) in * by lia.
    rewrite Z.pow_add_r in * by lia.
    pose proof (pow2_pos (t - sh) ltac:(lia)).
    assert (rne_div n (d * 2 ^ sh) <= m * 2 ^ (t - sh)).
    { apply rne_div_le; nia. }
    nia.
  - exfalso.
    pose proof (shift_of_pos_bound (n / d) ltac:(fold sh; lia)) as Hb. fold sh in Hb.
    assert (n / d <= m * 2 ^ t).
    { apply Z.div_le_upper_bound; [lia|]. lia. }
    pose proof (pow2_pos t Ht).
    assert (2 ^ (t + 53) <= 2 ^ (sh + 52)) by (apply Z.pow_le_mono_r; lia).
    rewrite Z.pow_add_r in H1 by lia.
    nia.
Qed.

Lemma round_units_representable (n d : Z) :
  0 <= n -> 0 < d -> representable (round_units n d).
Proof.
  intros Hn Hd. unfold round_units.
  set (sh := shift_of (n / d)).
  pose proof (shift_of_nonneg (n / d)) as Hsh. fold sh in Hsh.
  pose proof (pow2_pos sh Hsh) as Hp.
  assert (0 <= rne_div n (d * 2 ^ sh)) by (apply rne_div_ge; nia).
  assert (rne_div n (d * 2 ^ sh) <= 2 ^ 53).
  { apply rne_div_le; [nia|].
    pose proof (below_shift (n / d) ltac:(apply Z.div_pos; lia)) as Hb. fold sh in Hb.
    rewrite Z.pow_add_r in Hb by lia.
    pose proof (Z.div_mod n d ltac:(lia)). pose proof (Z.mod_pos_bound n d Hd).
    nia. }
  destruct (Z.eq_dec (rne_div n (d * 2 ^ sh)) (2 ^ 53)) as [E|].
  - exists (2 ^ 52), (sh + 1). rewrite E. split; [|split]; [lia|lia|].
    rewrite Z.pow_add_r by lia. lia.
  - exists (rne_div n (d * 2 ^ sh)), sh. lia.
Qed.

End Rounding.

(** ** The amounts of a bill *)

Section BillAmounts.
Import Float64.

Lemma uint_all_digits (u : Decimal.uint) :
  all_digits (NilEmpty.string_of_uint u) = true.
Proof. induction u; simpl; auto. Qed.

Lemma of_N_shape (n : N) :
  exists c r, Str.of_N n = String c r /\ all_digits (String c r) = true.
Proof.
  unfold Str.of_N. pose proof (uint_all_digits (N.to_uint n)) as H.
  destruct (NilEmpty.string_of_uint (N.to_uint n)) as [|c r] eqn:E; [|eauto].
  exfalso. destruct n as [|q]; simpl in E; [discriminate|].
  pose proof (DecimalPos.Unsigned.to_uint_nonnil q) as Hn.
  destruct (Pos.to_uint q); simpl in E; try discriminate. congruence.
Qed.

Lemma digit_not_minus (c : ascii) : Str.is_digit c = true -> Ascii.eqb c "-" = false.
Proof.
  intros H. destruct (Ascii.eqb_spec c "-") as [->|]; [discriminate H|reflexivity].
Qed.

Lemma money_body_app (ds t : string) :
  ds <> EmptyString -> all_digits ds = true -> frac2 t = true ->
  money_body (ds +:+ t) = true.
Proof.
  induction ds as [|c r IH]; [congruence|].
  intros _ Hd Ht. simpl in Hd. apply andb_prop in Hd as [Hc Hr].
  cbn [String.append money_body]. rewrite Hc. cbn [andb].
  destruct r as [|c' r'].
  - cbn [String.append]. rewrite Ht. reflexivity.
  - rewrite IH by (auto; discriminate). apply orb_true_r.
Qed.

Lemma frac2_zfill (k : Z) : 0 <= k < 100 -> frac2 ("." +:+ Str.zfill 2 k) = true.
Proof.
  intros Hk.
  assert (forallb (fun i => frac2 ("." +:+ Str.zfill 2 (Z.of_nat i))) (seq 0 100) = true)
    as H by (vm_compute; reflexivity).
  rewrite forallb_forall in H.
  specialize (H (Z.to_nat k)). rewrite Z2Nat.id in H by lia.
  apply H. apply in_seq. lia.
Qed.

Lemma format_2f_two_decimals (s : bool) (v : Z) :
  0 <= v -> two_decimals (Float64.format_2f (Fin s v)) = true.
Proof.
  intros Hv. unfold Float64.format_2f.
  set (cents := rne_div (v * 100) one).
  assert (0 <= cents) by (apply rne_div_ge; [apply one_pos|lia]).
  destruct (of_N_shape (Z.to_N (cents / 100))) as (c & r & E & Hd).
  pose proof (frac2_zfill (cents mod 100) ltac:(apply Z.mod_pos_bound; lia)) as Hf.
  assert (money_body (Str.of_N (Z.to_N (cents / 100)) +:+ "." +:+ Str.zfill 2 (cents mod 100))
          = true) as Hm.
  { apply money_body_app; [rewrite E; discriminate|rewrite E; exact Hd|exact Hf]. }
  unfold two_decimals. destruct s.
  - cbn [String.append strip_minus]. rewrite Ascii.eqb_refl. exact Hm.
  - cbn [String.append]. rewrite E in Hm |- *. cbn [String.append strip_minus] in *.
    simpl in Hd. apply andb_prop in Hd as [Hc _].
    rewrite (digit_not_minus c Hc). exact Hm.
Qed.

Lemma of_Z_plain (z : Z) : plain_integer (Str.of_Z z) = true.
Proof.
  unfold Str.of_Z, plain_integer.
  destruct (z <? 0).
  - destruct (of_N_shape (Z.to_N (- z))) as (c & r & E & Hd).
    rewrite E. cbn [String.append strip_minus]. rewrite Ascii.eqb_refl. exact Hd.
  - destruct (of_N_shape (Z.to_N z)) as (c & r & E & Hd).
    rewrite E. cbn [strip_minus].
    pose proof Hd as Hd'. simpl in Hd'. apply andb_prop in Hd' as [Hc _].
    rewrite (digit_not_minus c Hc). exact Hd.
Qed.

(** The magnitude [float(z)] has. *)
Lemma of_int_finite (z : Z) (x : float) :
  of_int z = Ok x ->
  exists v, x = Fin (z <? 0) v /\ representable v /\ 0 <= v < overflow.
Proof.
  unfold of_int. pose proof one_pos.
  destruct (Z.ltb_spec (round_units (Z.abs z * one) 1) overflow); [|discriminate].
  intros [= <-]. eexists; split; [reflexivity|]. split.
  - apply round_units_representable; nia.
  - split; [apply round_units_nonneg; nia|assumption].
Qed.

(** A discount from 0 to 100 is a rate from 0 to 1. *)
Lemma rate_finite (a : Z) :
  0 <= a <= 100 ->
  exists v, int_truediv a 100 = Ok (Fin false v) /\ 0 <= v <= one.
Proof.
  intros Ha. unfold int_truediv. pose proof one_pos. pose proof one_lt_overflow.
  assert (round_units (Z.abs a * one) 100 <= one).
  { apply round_units_le; [nia|lia| |nia].
    exists 1, unit_exp. unfold one, unit_exp. lia. }
  assert (0 <= round_units (Z.abs a * one) 100) by (apply round_units_nonneg; nia).
  destruct (Z.ltb_spec (round_units (Z.abs a * one) 100) overflow); [|lia].
  replace (a <? 0) with false by (symmetry; apply Z.ltb_ge; lia).
  eauto.
Qed.

(** The discount of a rate up to 1 is no more than the total. *)
Lemma mul_rate_finite (s : bool) (v r : Z) :
  representable v -> 0 <= v < overflow -> 0 <= r <= one ->
  exists d, mul (Fin s v) (Fin false r) = Fin s d /\ 0 <= d <= v.
Proof.
  intros Hrep Hv Hr. pose proof one_pos. unfold mul, pack.
  assert (round_units (v * r) one <= v) by (apply round_units_le; [nia|lia|done|nia]).
  assert (0 <= round_units (v * r) one) by (apply round_units_nonneg; nia).
  destruct (Z.ltb_spec (round_units (v * r) one) overflow); [|lia].
  rewrite xorb_false_r. eauto.
Qed.

(** The total less a discount of its sign and no more than it. *)
Lemma sub_discount_finite (s : bool) (v d : Z) :
  representable v -> 0 <= v < overflow -> 0 <= d <= v ->
  exists s' t, sub (Fin s v) (Fin s d) = Fin s' t /\ 0 <= t.
Proof.
  intros Hrep Hv Hd. unfold sub.
  destruct (Z.eqb_spec (signed s v - signed s d) 0); [eauto with lia|].
  unfold pack.
  assert (Z.abs (signed s v - signed s d) = v - d) as ->
    by (unfold signed; destruct s; lia).
  assert (round_units (v - d) 1 <= v) by (apply round_units_le; [lia|lia|done|lia]).
  assert (0 <= round_units (v - d) 1) by (apply round_units_nonneg; lia).
  destruct (Z.ltb_spec (round_units (v - d) 1) overflow); [|lia].
  eauto.
Qed.

End BillAmounts.

Lemma bill_loop_spec (ts : list Treatment) (lines : list string) (total : Z) :
  bill_loop ts lines total
  = if writable_costs ts
    then Ok (lines ++ map treatment_line ts, total + total_cost ts)
    else Raise ValueError.
Proof.
  unfold writable_costs. revert lines total.
  induction ts as [|t ts IH]; intros lines total; cbn [bill_loop forallb map].
  - rewrite app_nil_r. change (total_cost []) with 0. rewrite Z.add_0_r. reflexivity.
  - change (total_cost (t :: ts)) with (get_cost t + total_cost ts).
    unfold format_treatment. destruct (writable_int (get_cost t)); cbn [rbind andb];
      [|reflexivity].
    rewrite IH. destruct (forallb _ ts); [|reflexivity].
    rewrite <- app_assoc. cbn [app]. do 2 f_equal. lia.
Qed.

(** The two amounts of a bill with a discount in range: finite floats
    for a VIP patient, the integers [0] and the total otherwise. *)
Lemma bill_amounts_finite (p : Patient) (total : Z) (discount after : pynum) :
  discount_in_range p ->
  bill_amounts p total = Ok (discount, after) ->
  (exists s v d s' t,
      Float64.of_int total = Ok (Float64.Fin s v)
      /\ discount = PFloat (Float64.Fin s d) /\ after = PFloat (Float64.Fin s' t)
      /\ 0 <= v /\ 0 <= d /\ 0 <= t)
  \/ (discount = PInt 0 /\ after = PInt total).
Proof.
  intros Hrange. unfold bill_amounts.
  destruct (String.eqb_spec (p_patient_type p) "VIP") as [Hvip|_].
  - destruct (rate_finite (p_vip_discount p) (Hrange Hvip)) as (r & -> & Hr).
    cbn [rbind].
    destruct (Float64.of_int total) as [x|] eqn:Ex; cbn [rbind]; [|discriminate].
    destruct (of_int_finite _ _ Ex) as (v & -> & Hrep & Hv).
    destruct (mul_rate_finite (total <? 0) v r Hrep Hv Hr) as (d & Hm & Hd).
    destruct (sub_discount_finite (total <? 0) v d Hrep Hv Hd) as (s' & t & Hs & Ht).
    rewrite Hm, Hs. intros [= <- <-]. left.
    exists (total <? 0), v, d, s', t. repeat split; auto; lia.
  - intros [= <- <-]. right. auto.
Qed.

(** C6 (amended).  In a bill whose discount is in range, the subtotal,
    the discount and the total stand in the cost column with exactly
    two decimal places, and each treatment line carries its price as a
    plain integer, without decimal places. *)
Theorem C6_amounts_two_decimals (p : Patient) (now : datetime) (lines : list string) :
  discount_in_range p ->
  get_bill_lines p now = Ok lines ->
  exists pre tot,
    lines = bill_head p now ++ map treatment_line (p_treatments p)
              ++ [Str.mul "-" 60] ++ pre ++ [amount_line "Total Bill" tot] ++ bill_foot
    /\ two_decimals tot = true
    /\ (pre = []
        \/ exists sub dis,
             pre = [ amount_line "Subtotal" sub;
                     amount_line ("VIP Discount (" +:+ Str.of_Z (p_vip_discount p) +:+ "%)")
                                 dis ]
             /\ two_decimals sub = true /\ two_decimals dis = true)
    /\ Forall (fun t =>
                 treatment_line t = amount_line (get_name t) (Str.of_Z (get_cost t))
                 /\ plain_integer (Str.of_Z (get_cost t)) = true)
              (p_treatments p).
Proof.
  intros Hrange. unfold get_bill_lines. rewrite bill_loop_spec.
  destruct (writable_costs (p_treatments p)); cbn [rbind]; [|discriminate].
  destruct (bill_amounts p (0 + total_cost (p_treatments p))) as [[discount after]|] eqn:Ea;
    cbn [rbind]; [|discriminate].
  assert (Forall (fun t =>
                    treatment_line t = amount_line (get_name t) (Str.of_Z (get_cost t))
                    /\ plain_integer (Str.of_Z (get_cost t)) = true) (p_treatments p)) as Hts.
  { apply Forall_forall. intros t _. split; [reflexivity|apply of_Z_plain]. }
  destruct (bill_amounts_finite _ _ _ _ Hrange Ea)
    as [(s & v & d & s' & t & Ei & -> & -> & Hv & Hd & Ht)|[-> ->]].
  - unfold money_line, format_2f. rewrite Ei. cbn [rbind pynum_neg Float64.neg].
    destruct (pynum_gt0 (PFloat (Float64.Fin s d))); cbn [rbind]; intros [= <-].
    + eexists _, _. split; [|split; [|split]]; [| |right; eexists _, _; split; [reflexivity|]|exact Hts].
      * rewrite <- !app_assoc. reflexivity.
      * apply format_2f_two_decimals; lia.
      * split; apply format_2f_two_decimals; lia.
    + exists [], (Float64.format_2f (Float64.Fin s' t)).
      split; [|split; [|split]]; [| |left; reflexivity|exact Hts].
      * rewrite <- !app_assoc. reflexivity.
      * apply format_2f_two_decimals; lia.
  - cbn [pynum_gt0]. change (0 <? 0) with false. cbn [rbind].
    unfold money_line, format_2f.
    destruct (Float64.of_int (0 + total_cost (p_treatments p))) as [x|] eqn:Ei;
      cbn [rbind]; [|discriminate].
    destruct (of_int_finite _ _ Ei) as (v & -> & _ & Hv). intros [= <-].
    eexists [], _. split; [|split; [|split]]; [| |left; reflexivity|exact Hts].
    + rewrite <- !app_assoc. reflexivity.
    + apply format_2f_two_decimals; lia.
Qed.

(** The theorem at work on the VIP bill of the sample treatments. *)
Lemma C6_amounts_two_decimals_witness :
  discount_in_range (mkPatient "Ann" "0300123456" sample_treatments "" "VIP" 10)
  /\ exists lines pre tot,
       get_bill_lines (mkPatient "Ann" "0300123456" sample_treatments "" "VIP" 10) noon
         = Ok lines
       /\ In (amount_line "Total Bill" tot) lines /\ two_decimals tot = true
       /\ (pre = [] \/ exists sub dis, pre = [amount_line "Subtotal" sub;
             amount_line ("VIP Discount (" +:+ Str.of_Z 10 +:+ "%)") dis]).
Proof.
  assert (discount_in_range (mkPatient "Ann" "0300123456" sample_treatments "" "VIP" 10))
    as Hr by (intros _; simpl; lia).
  split; [exact Hr|].
  destruct (get_bill_lines (mkPatient "Ann" "0300123456" sample_treatments "" "VIP" 10) noon)
    as [lines|] eqn:E; [|vm_compute in E; discriminate E].
  destruct (C6_amounts_two_decimals _ _ _ Hr E) as (pre & tot & -> & Ht & Hpre & _).
  eexists _, pre, tot. split; [reflexivity|]. split; [|split; [exact Ht|]].
  - rewrite !in_app_iff. right. right. right. right. left. simpl. auto.
  - destruct Hpre as [->|(sub & dis & -> & _)]; [left; reflexivity|right; eauto].
Defined.

(** C6, as stated, fails: in the bill of one treatment costing 100 the
    cost column of the treatment line reads [100], which has no decimal
    places. *)
Lemma C6_treatment_price_not_two_decimals :
  get_bill_lines one_treatment_patient noon
  = Ok (bill_head one_treatment_patient noon
        ++ ["A                                                   100"]
        ++ [Str.mul "-" 60; "Total Bill                                       100.00"]
        ++ bill_foot)
  /\ treatment_line (mkTreatment "A" 100)
     = "A                                                   100"
  /\ cost_field "A                                                   100" = "100"
  /\ two_decimals "100" = false
  /\ cost_field "Total Bill                                       100.00" = "100.00"
  /\ two_decimals "100.00" = true.
Proof. repeat split; vm_compute; reflexivity. Qed.

(** ** The session *)

Lemma init_not_generated (w : world) (app : ClinicApp) (w' : world) :
  init_app w = (Ok app, w') -> not_generated app.
Proof.
  unfold init_app, bind, reads, ret, save_treatments.
  destruct (load_treatments w) as [[|kv d]|]; [| |discriminate].
  - destruct (write_file _ _ _) as [[|] ?]; simpl; intros [= <- _]; reflexivity.
  - intros [= <- _]. reflexivity.
Qed.

Lemma reset_not_generated (app : ClinicApp) : not_generated (reset_all app).
Proof. reflexivity. Qed.

(** ** Loading the catalog *)

Lemma int_items_raises (d : list (string * json)) (k : string) (v : json) (acc : dict Z) :
  In (k, v) d -> unconvertible v -> exists e, int_items d acc = Raise e.
Proof.
  revert acc. induction d as [|[k' v'] d IH]; intros acc Hin Hv; [destruct Hin|].
  cbn [int_items]. destruct Hin as [[= -> ->]|Hin].
  - destruct Hv as [e ->]. cbn [rbind]. eauto.
  - destruct (py_int v') as [z|e]; cbn [rbind]; eauto.
Qed.

Lemma load_treatments_total (w : world) : exists d, load_treatments w = Ok d.
Proof.
  unfold load_treatments. destruct (decide _); [|eauto].
  destruct (do data <- read_json TREATMENTS_FILE w; catalog_of_json data);
    cbn [try_except]; eauto.
Qed.

(** C7 (amended).  Loading the catalog never raises, and it gives the
    empty mapping when the file is missing or unreadable, when its text
    does not parse, when the text is not an object, and when an entry
    has a value [int()] refuses. *)
Theorem C7_load_treatments_lenient (w : world) :
  bad_catalog_file w ->
  load_treatments w = Ok [] /\ forall w', exists d, load_treatments w' = Ok d.
Proof.
  intros Hbad. split; [|apply load_treatments_total].
  unfold load_treatments, read_json.
  destruct (decide (is_Some (files w !! TREATMENTS_FILE))) as [Hs|Hn]; [|reflexivity].
  destruct (decide (TREATMENTS_FILE ∈ locked w)) as [Hl|Hl]; [reflexivity|].
  destruct Hbad as [Hm|[Hk|(text & Ht & Hbad)]].
  - rewrite Hm in Hs. destruct Hs as [? [=]].
  - contradiction.
  - rewrite Ht. destruct Hbad as [->|(data & -> & Hbad)]; [reflexivity|].
    cbn [rbind]. destruct Hbad as [Hno|(d & k & v & -> & Hin & Hv)].
    + destruct data; try reflexivity. destruct (Hno d eq_refl).
    + cbn [catalog_of_json]. destruct (int_items_raises d k v [] Hin Hv) as [e ->].
      reflexivity.
Qed.

Lemma C7_load_treatments_lenient_witness :
  bad_catalog_file (catalog_world null_price_text)
  /\ load_treatments (catalog_world null_price_text) = Ok [].
Proof.
  assert (bad_catalog_file (catalog_world null_price_text)) as Hbad.
  { right. right. exists null_price_text. split; [reflexivity|]. right.
    exists (JObj [("A", JNull)]). split; [vm_compute; reflexivity|]. right.
    exists [("A", JNull)], "A", JNull. split; [reflexivity|]. split; [left; reflexivity|].
    exists TypeError. reflexivity. }
  split; [exact Hbad|]. exact (proj1 (C7_load_treatments_lenient _ Hbad)).
Defined.

(** C7, as stated, fails: prices written as a string, a fraction or a
    truth value are not refused but converted. *)
Lemma C7_mistyped_entries_are_converted :
  Load.loads mistyped_catalog_text
  = Some (JObj [("A", JStr "12");
                ("B", JFloat (Float64.Fin false (Float64.round_units (37 * Float64.one) 10)));
                ("C", JBool true)])
  /\ load_treatments (catalog_world mistyped_catalog_text)
     = Ok [("A", 12); ("B", 3); ("C", 1)].
Proof. split; vm_compute; reflexivity. Qed.

(** ** Reading the world *)

Lemma filter_appts_reads (q : string) (ls : list nat) (w : world) :
  snd (filter_appts q ls w) = w.
Proof.
  induction ls as [|l ls IH]; [reflexivity|].
  cbn [filter_appts]. unfold bind, deref, lift, ret in *.
  destruct (matches q _); [|reflexivity].
  destruct (filter_appts q ls w) as [[r|e] w'] eqn:E; simpl in IH; subst w'; reflexivity.
Qed.

Lemma current_list_reads (p : popup) (w : world) : snd (current_list p w) = w.
Proof. apply filter_appts_reads. Qed.

Lemma add_event_no_side_effect (w : world) (e : event) :
  is_side_effect e = false -> no_side_effect w (add_event w e).
Proof.
  intros He. split; [reflexivity|].
  cbn [add_event events]. rewrite List.filter_app. cbn [List.filter]. rewrite He.
  apply app_nil_r.
Qed.

(** ** Refused dates *)

Lemma save_appointment_rejects (w : world) (name phone date_str : string) :
  booking_invalid w name phone date_str ->
  exists msg, save_appointment name phone date_str w
              = (Ok tt, add_event w (ShowError "Input Error" msg)).
Proof.
  unfold booking_invalid, save_appointment. intros H.
  destruct (String.eqb_spec (Str.strip name) "") as [|Hn]; [cbn [orb]; eauto|].
  destruct (String.eqb_spec (Str.strip phone) "") as [|Hp]; [cbn [orb]; eauto|].
  destruct (String.eqb_spec (Str.strip date_str) "") as [|Hd]; [cbn [orb]; eauto|].
  cbn [orb]. destruct H as [?|[?|[?|H]]]; try contradiction.
  unfold bind, today, gets.
  destruct H as [->|(d & -> & ->)]; eauto.
Qed.

Lemma edit_date_rejects (w : world) (a : nat) (s : string) :
  s <> "" -> date_rejected w s ->
  exists msg, edit_date a (Some s) w = (Ok false, add_event w (ShowError "Invalid Date" msg)).
Proof.
  intros Hs H. unfold edit_date.
  destruct (String.eqb_spec s "") as [|_]; [contradiction|].
  unfold bind, today, gets, ret.
  destruct H as [->|(d & -> & ->)]; cbn; eauto.
Qed.

Lemma edit_selected_rejected_files (w : world) (sel : list nat) (s : string)
    (new_phone : option string) (p : popup) :
  s <> "" -> date_rejected w s ->
  no_side_effect w (snd (edit_selected sel (Some s) new_phone p w)).
Proof.
  intros Hs H. unfold edit_selected.
  destruct sel as [|index rest].
  { apply add_event_no_side_effect. reflexivity. }
  unfold bind at 1.
  pose proof (current_list_reads p w) as Hc.
  destruct (current_list p w) as [[rows|e] w1]; simpl in Hc; subst w1;
    [|split; reflexivity].
  destruct (rows !! index) as [a|]; [|split; reflexivity].
  unfold bind at 1. unfold deref at 1. unfold bind at 1. unfold lift at 1.
  destruct (getitem "date" _) as [cur|e]; [|split; reflexivity].
  unfold bind at 1. unfold emit at 1. cbn [fst snd].
  unfold bind at 1.
  match goal with |- context [edit_date a (Some s) ?w0] =>
    destruct (edit_date_rejects w0 a s Hs H) as [msg ->] end.
  cbn [negb]. unfold ret. cbn [snd].
  split; [reflexivity|].
  cbn [events add_event]. rewrite !List.filter_app. cbn [List.filter is_side_effect].
  rewrite !app_nil_r. reflexivity.
Qed.

Lemma edit_selected_rejects (w : world) (index : nat) (rest : list nat) (s : string)
    (new_phone : option string) (p : popup) (rows : list nat) (a : nat) (cur : json) :
  s <> "" -> date_rejected w s ->
  current_list p w = (Ok rows, w) -> rows !! index = Some a ->
  getitem "date" (default [] (heap w !! a)) = Ok cur ->
  exists msg, edit_selected (index :: rest) (Some s) new_phone p w
              = (Ok p, add_event (add_event w (ask_date cur)) (ShowError "Invalid Date" msg)).
Proof.
  intros Hs H Hc Hr Hg. unfold edit_selected.
  unfold bind at 1. rewrite Hc, Hr.
  unfold bind at 1. unfold deref at 1. unfold bind at 1. unfold lift at 1. rewrite Hg.
  unfold bind at 1. unfold emit at 1. unfold bind at 1.
  match goal with |- context [edit_date a (Some s) ?w0] =>
    destruct (edit_date_rejects w0 a s Hs H) as [msg ->] end.
  cbn [negb]. unfold ret. eauto.
Qed.

(** C3 (amended).  A booking with a blank field, and a booking or an
    edit whose date text is refused by the parse of [%Y-%m-%d] or reads
    as a day before today, ends in the error box; the files are as they
    were. *)
Theorem C3_invalid_attempt_rejected (w : world) :
  (forall name phone date_str,
      booking_invalid w name phone date_str ->
      exists msg,
        save_appointment name phone date_str w
          = (Ok tt, add_event w (ShowError "Input Error" msg))
        /\ no_side_effect w (add_event w (ShowError "Input Error" msg)))
  /\ (forall sel s new_phone p,
        s <> "" -> date_rejected w s ->
        no_side_effect w (snd (edit_selected sel (Some s) new_phone p w))
        /\ forall index rest rows a cur,
             sel = index :: rest ->
             current_list p w = (Ok rows, w) -> rows !! index = Some a ->
             getitem "date" (default [] (heap w !! a)) = Ok cur ->
             exists msg,
               edit_selected sel (Some s) new_phone p w
                 = (Ok p, add_event (add_event w (ask_date cur))
                                    (ShowError "Invalid Date" msg))).
Proof.
  split.
  - intros name phone date_str H.
    destruct (save_appointment_rejects w name phone date_str H) as [msg E].
    exists msg. split; [exact E|]. apply add_event_no_side_effect. reflexivity.
  - intros sel s new_phone p Hs H. split.
    + apply edit_selected_rejected_files; assumption.
    + intros index rest rows a cur -> Hc Hr Hg.
      eapply edit_selected_rejects; eassumption.
Qed.

Lemma C3_invalid_attempt_rejected_witness :
  (booking_invalid ann_world "Bob" "0300123457" "2020-01-01"
   /\ exists msg,
        save_appointment "Bob" "0300123457" "2020-01-01" ann_world
          = (Ok tt, add_event ann_world (ShowError "Input Error" msg)))
  /\ (date_rejected ann_world "2020-13-01"
      /\ exists msg,
           edit_selected [0%nat] (Some "2020-13-01") None ann_popup ann_world
             = (Ok ann_popup, add_event (add_event ann_world (ask_date (JStr "2999-01-05")))
                                        (ShowError "Invalid Date" msg))).
Proof.
  assert (booking_invalid ann_world "Bob" "0300123457" "2020-01-01") as Hb.
  { right. right. right. right. exists (mkdate 2020 1 1). split; reflexivity. }
  assert (date_rejected ann_world "2020-13-01") as Hd by (left; reflexivity).
  split; (split; [assumption|]).
  - destruct (proj1 (C3_invalid_attempt_rejected ann_world) _ _ _ Hb) as (msg & E & _).
    exists msg. exact E.
  - assert ("2020-13-01" <> "") as Hs by discriminate.
    destruct (proj2 (C3_invalid_attempt_rejected ann_world) [0%nat] _ None ann_popup Hs Hd)
      as [_ H].
    apply (H 0%nat [] [0%nat] 0%nat (JStr "2999-01-05")); reflexivity.
Defined.

(** C3, as stated, fails: a date with a one-digit month and day is not
    in the form YYYY-MM-DD, yet the booking goes through and the record
    is written with the date as typed; and an edit whose date prompt is
    left empty goes on and rewrites the store. *)
Lemma C3_lenient_date_is_booked :
  iso_form "2999-1-5" = false
  /\ strptime "2999-1-5" = Some (mkdate 2999 1 5)
  /\ (let w' := snd (save_appointment "Ann" "0300123456" "2999-1-5" empty_world) in
      load_appointments empty_world = Ok (JArr [])
      /\ load_appointments w'
         = Ok (JArr [new_record (JStr "Ann") (JStr "0300123456") (JStr "2999-1-5")])
      /\ events w'
         = [ FileWrite APPOINTMENTS_FILE;
             ShowInfo "Success" [Lit "Appointment booked for "; Lit "Ann"; Lit " on ";
                                 Lit "2999-1-5"];
             PopupDestroy ])
  /\ load_appointments (snd (edit_selected [0%nat] (Some "") (Some "0311") ann_popup ann_world))
     = Ok (JArr [new_record (JStr "Ann") (JStr "0311") (JStr "2999-01-05")]).
Proof. repeat split; vm_compute; reflexivity. Qed.

(** ** Searching the window *)

Lemma matches_hit (q : string) (d : pydict) :
  str_fields d -> matches q d = Ok (hit q d).
Proof.
  intros [[n Hn] [ph Hp]]. unfold matches, hit, name_of, phone_of. rewrite Hn, Hp.
  destruct (Str.contains q (Str.lower n)); reflexivity.
Qed.

Lemma filter_appts_spec (q : string) (ls : list nat) (w : world) :
  Forall (fun l => str_fields (obj w l)) ls ->
  filter_appts q ls w = (Ok (List.filter (fun l => hit q (obj w l)) ls), w).
Proof.
  induction 1 as [|l ls Hl _ IH]; [reflexivity|].
  cbn [filter_appts List.filter]. unfold bind, deref, lift, ret.
  fold (obj w l). rewrite (matches_hit q _ Hl). unfold bind in IH. rewrite IH.
  destruct (hit q (obj w l)); reflexivity.
Qed.

(** C5 (amended).  The search trims and lower-cases the query.  When
    nothing is left of it, the rows are the whole list, unchanged;
    otherwise the rows are exactly the records, in order, where what is
    left occurs in the lower-cased name or in the phone as stored. *)
Theorem C5_search_filter (p : popup) (w : world) :
  Forall (fun l => str_fields (obj w l)) (upcoming p) ->
  (normal_query (search_var p) = "" ->
     search_appointments p w = (Ok (populate_list p (upcoming p)), w))
  /\ (normal_query (search_var p) <> "" ->
        search_appointments p w
          = (Ok (populate_list p
                   (List.filter (fun l => hit (normal_query (search_var p)) (obj w l))
                                (upcoming p))), w))
  /\ (search_var p = "" -> search_appointments p w = (Ok (populate_list p (upcoming p)), w)).
Proof.
  intros Hf. unfold search_appointments. fold (normal_query (search_var p)).
  split; [|split].
  - intros ->. reflexivity.
  - intros Hq. destruct (String.eqb_spec (normal_query (search_var p)) ""); [contradiction|].
    unfold bind. rewrite (filter_appts_spec _ _ _ Hf). reflexivity.
  - intros ->. reflexivity.
Qed.

Lemma C5_search_filter_witness :
  Forall (fun l => str_fields (obj (one_record_world bob_record) l)) [0%nat]
  /\ search_appointments (mkPopup [0%nat] " bO " [])  (one_record_world bob_record)
     = (Ok (mkPopup [0%nat] " bO " [0%nat]), one_record_world bob_record).
Proof.
  assert (Forall (fun l => str_fields (obj (one_record_world bob_record) l)) [0%nat]) as Hf.
  { constructor; [|constructor]. split; eexists; reflexivity. }
  split; [exact Hf|].
  rewrite (proj1 (proj2 (C5_search_filter (mkPopup [0%nat] " bO " []) _ Hf)));
    [reflexivity|discriminate].
Defined.

(** C5, as stated, fails.  The query of one blank is not empty and
    occurs neither in the name nor in the phone, yet every record is
    kept; the query [A1] occurs in the phone [A1-77], yet the record is
    dropped, since the phone is searched for the lower-cased [a1]. *)
Lemma C5_query_is_normalised :
  (" " <> "" /\ Str.contains " " (Str.lower "Bob") = false
   /\ Str.contains " " "A1-77" = false
   /\ search_appointments (mkPopup [0%nat] " " []) (one_record_world bob_record)
      = (Ok (mkPopup [0%nat] " " [0%nat]), one_record_world bob_record))
  /\ (Str.contains "A1" "A1-77" = true
      /\ search_appointments (mkPopup [0%nat] "A1" [0%nat]) (one_record_world bob_record)
         = (Ok (mkPopup [0%nat] "A1" []), one_record_world bob_record)).
Proof. repeat split; try discriminate; vm_compute; reflexivity. Qed.

(** ** Running a callback step by step *)

Lemma bind_ok {A B} (m : M A) (k : A -> M B) (w w' : world) (a : A) :
  m w = (Ok a, w') -> bind m k w = k a w'.
Proof. unfold bind. intros ->. reflexivity. Qed.

Lemma bind_raise {A B} (m : M A) (k : A -> M B) (w w' : world) (e : exn) :
  m w = (Raise e, w') -> bind m k w = (Raise e, w').
Proof. unfold bind. intros ->. reflexivity. Qed.

Lemma pf_bind {A B} (m : M A) (k : A -> M B) :
  preserves_files m -> (forall a, preserves_files (k a)) -> preserves_files (bind m k).
Proof.
  intros Hm Hk w. unfold bind. specialize (Hm w).
  destruct (m w) as [[a|e] w1]; simpl in Hm.
  - destruct (Hk a w1) as [H1 H2]. destruct Hm as [E1 E2]. rewrite H1, H2. auto.
  - exact Hm.
Qed.

Lemma pf_ret {A} (a : A) : preserves_files (ret a).
Proof. intros w. auto. Qed.

Lemma pf_lift {A} (r : result A) : preserves_files (lift r).
Proof. intros w. auto. Qed.

Lemma pf_gets {A} (f : world -> A) : preserves_files (gets f).
Proof. intros w. auto. Qed.

Lemma pf_reads {A} (f : world -> result A) : preserves_files (reads f).
Proof. intros w. auto. Qed.

Lemma pf_emit (e : event) : preserves_files (emit e).
Proof. intros w. auto. Qed.

Lemma pf_alloc (d : pydict) : preserves_files (alloc d).
Proof. intros w. auto. Qed.

Lemma pf_deref (l : nat) : preserves_files (deref l).
Proof. intros w. auto. Qed.

Lemma pf_setitem (l : nat) (k : string) (v : json) : preserves_files (setitem l k v).
Proof. intros w. auto. Qed.

Lemma pf_today : preserves_files today.
Proof. intros w. auto. Qed.

Create HintDb pf.
#[local] Hint Resolve pf_ret pf_lift pf_gets pf_reads pf_emit pf_alloc pf_deref pf_setitem
  pf_today : pf.

Ltac pf_steps :=
  repeat first [ solve [auto with pf] | apply pf_bind; [|intros ?] ].

Lemma pf_alloc_elems (l : list json) : preserves_files (alloc_elems l).
Proof.
  induction l as [|v l IH]; [apply pf_ret|].
  destruct v; cbn [alloc_elems]; pf_steps.
Qed.

Lemma pf_keep_upcoming (t : date) (o : pyobj) : preserves_files (keep_upcoming t o).
Proof.
  destruct o as [l|v]; cbn [keep_upcoming]; [|apply pf_ret].
  pf_steps. destruct (get_or_empty "date" _); try apply pf_ret.
  destruct (strptime s); [|apply pf_ret].
  destruct (date_geb d t); pf_steps.
Qed.

Lemma pf_collect_upcoming (t : date) (objs : list pyobj) :
  preserves_files (collect_upcoming t objs).
Proof.
  induction objs as [|o objs IH]; [apply pf_ret|].
  cbn [collect_upcoming]. pose proof (pf_keep_upcoming t o). pf_steps.
Qed.

Lemma pf_build_upcoming (appointments : json) : preserves_files (build_upcoming appointments).
Proof.
  unfold build_upcoming.
  pose proof pf_alloc_elems. pose proof pf_collect_upcoming. pf_steps.
Qed.

Lemma pf_filter_appts (q : string) (ls : list nat) : preserves_files (filter_appts q ls).
Proof. intros w. rewrite filter_appts_reads. auto. Qed.

Lemma pf_search_appointments (p : popup) : preserves_files (search_appointments p).
Proof.
  unfold search_appointments. destruct (String.eqb _ ""); [apply pf_ret|].
  pose proof pf_filter_appts. pf_steps.
Qed.

#[local] Hint Resolve pf_alloc_elems pf_collect_upcoming pf_build_upcoming pf_filter_appts
  pf_search_appointments : pf.

(** ** The edit, up to the write *)

Lemma update_obj_same (w : world) (a : nat) (d : pydict) :
  heap w !! a = Some d -> update_obj w a d = w.
Proof.
  intros H. destruct w as [f l c h ev]. unfold update_obj. cbn in *.
  f_equal. apply list_insert_id. exact H.
Qed.

Lemma update_obj_lookup (w : world) (a : nat) (d0 d : pydict) :
  heap w !! a = Some d0 -> heap (update_obj w a d) !! a = Some d.
Proof.
  intros H. cbn. apply list_lookup_insert_eq. eapply lookup_lt_Some. exact H.
Qed.

Lemma answer_step (w : world) (a : nat) (k : string) (answer : option string) (d : pydict) :
  heap w !! a = Some d ->
  match answer with
  | None => ret tt
  | Some s => if String.eqb s "" then ret tt else setitem a k (JStr s)
  end w = (Ok tt, update_obj w a (with_answer k answer d)).
Proof.
  intros H. unfold with_answer. destruct answer as [s|].
  - destruct (String.eqb s ""); [rewrite update_obj_same by exact H; reflexivity|].
    unfold setitem, update_obj. cbv beta iota. rewrite H. reflexivity.
  - rewrite update_obj_same by exact H. reflexivity.
Qed.

Lemma edit_date_accepts (w : world) (a : nat) (new_date_str : option string) (d : pydict) :
  date_accepted w new_date_str -> heap w !! a = Some d ->
  edit_date a new_date_str w
  = (Ok true, update_obj w a (with_answer "date" new_date_str d)).
Proof.
  intros Hacc H. unfold edit_date, with_answer. destruct new_date_str as [s|].
  - destruct (String.eqb_spec s "") as [->|Hs].
    + rewrite update_obj_same by exact H. reflexivity.
    + destruct Hacc as [?|(dt & Hp & Hlt)]; [contradiction|].
      unfold bind, today, gets, setitem, ret, update_obj. rewrite Hp, Hlt, H. reflexivity.
  - rewrite update_obj_same by exact H. reflexivity.
Qed.

Lemma edit_phone_spec (w : world) (a : nat) (new_phone : option string) (d : pydict) :
  heap w !! a = Some d ->
  edit_phone a new_phone w = (Ok tt, update_obj w a (with_answer "phone" new_phone d)).
Proof. intros H. unfold edit_phone. apply (answer_step w a "phone" new_phone d H). Qed.

Lemma save_appointments_writes (saved : json) (w : world) :
  APPOINTMENTS_FILE ∉ locked w ->
  exists w', save_appointments saved w = (Ok tt, w')
             /\ files w' = <[APPOINTMENTS_FILE := Dump.dumps saved]> (files w)
             /\ locked w' = locked w /\ heap w' = heap w /\ clock w' = clock w.
Proof.
  intros H. unfold save_appointments, write_file.
  destruct (decide (APPOINTMENTS_FILE ∈ locked w)); [contradiction|].
  eexists. split; [reflexivity|]. auto.
Qed.

Lemma edit_selected_store (w : world) (index : nat) (rest : list nat)
    (new_date_str new_phone : option string) (p : popup) (rows : list nat) (a : nat)
    (d0 : pydict) (cur curp saved saved' : json) :
  current_list p w = (Ok rows, w) ->
  rows !! index = Some a ->
  heap w !! a = Some d0 ->
  getitem "date" d0 = Ok cur ->
  date_accepted w new_date_str ->
  getitem "phone" (with_answer "date" new_date_str d0) = Ok curp ->
  load_appointments w = Ok saved ->
  edit_saved (edited new_date_str new_phone d0) saved = Ok saved' ->
  APPOINTMENTS_FILE ∉ locked w ->
  files (snd (edit_selected (index :: rest) new_date_str new_phone p w))
  = <[APPOINTMENTS_FILE := Dump.dumps saved']> (files w).
Proof.
  intros Hc Hr Hobj Hg Hacc Hph Hload Hed Hlock.
  unfold edit_selected.
  rewrite (bind_ok _ _ _ _ _ Hc). rewrite Hr.
  rewrite (bind_ok (deref a) _ w w d0) by (unfold deref; rewrite Hobj; reflexivity).
  rewrite (bind_ok (lift (getitem "date" d0)) _ w w cur) by (unfold lift; rewrite Hg; reflexivity).
  rewrite (bind_ok (emit (ask_date cur)) _ w (add_event w (ask_date cur)) tt) by reflexivity.
  set (w1 := add_event w (ask_date cur)).
  rewrite (bind_ok _ _ _ _ _ (edit_date_accepts w1 a new_date_str d0 Hacc Hobj)).
  cbn [negb]. set (d1 := with_answer "date" new_date_str d0) in *.
  set (w2 := update_obj w1 a d1).
  assert (heap w2 !! a = Some d1) as H2 by (apply (update_obj_lookup w1 a d0 d1 Hobj)).
  rewrite (bind_ok (deref a) _ w2 w2 d1) by (unfold deref; rewrite H2; reflexivity).
  rewrite (bind_ok (lift (getitem "phone" d1)) _ w2 w2 curp)
    by (unfold lift; rewrite Hph; reflexivity).
  rewrite (bind_ok (emit (ask_phone curp)) _ w2 (add_event w2 (ask_phone curp)) tt)
    by reflexivity.
  set (w3 := add_event w2 (ask_phone curp)).
  rewrite (bind_ok _ _ _ _ _ (edit_phone_spec w3 a new_phone d1 H2)).
  set (d2 := with_answer "phone" new_phone d1) in *.
  set (w4 := update_obj w3 a d2).
  assert (heap w4 !! a = Some d2) as H4 by (apply (update_obj_lookup w3 a d1 d2 H2)).
  rewrite (bind_ok (deref a) _ w4 w4 d2) by (unfold deref; rewrite H4; reflexivity).
  rewrite (bind_ok (reads load_appointments) _ w4 w4 saved)
    by (unfold reads; change (load_appointments w4) with (load_appointments w);
        rewrite Hload; reflexivity).
  rewrite (bind_ok (lift (edit_saved d2 saved)) _ w4 w4 saved')
    by (unfold lift; unfold d2, d1; fold (edited new_date_str new_phone d0);
        rewrite Hed; reflexivity).
  destruct (save_appointments_writes saved' w4 Hlock) as (w5 & Es & Hf & _).
  rewrite (bind_ok _ _ _ _ _ Es).
  match goal with |- files (snd (?m w5)) = _ =>
    assert (preserves_files m) as Hpf end.
  { pf_steps. }
  rewrite (proj1 (Hpf w5)). exact Hf.
Qed.

(** ** What the edit writes *)

Lemma dict_get_set_eq {V} (k : string) (v : V) (d : dict V) :
  dict_get k (dict_set k v d) = Some v.
Proof.
  induction d as [|[k' v'] d IH]; cbn [dict_set dict_get].
  - rewrite String.eqb_refl. reflexivity.
  - destruct (String.eqb_spec k k') as [->|Hne]; cbn [dict_get].
    + rewrite String.eqb_refl. reflexivity.
    + destruct (String.eqb_spec k k'); [contradiction|exact IH].
Qed.

Lemma dict_get_set_ne {V} (k k' : string) (v : V) (d : dict V) :
  k <> k' -> dict_get k (dict_set k' v d) = dict_get k d.
Proof.
  intros Hne. induction d as [|[k0 v0] d IH]; cbn [dict_set dict_get].
  - destruct (String.eqb_spec k k'); [contradiction|reflexivity].
  - destruct (String.eqb_spec k' k0) as [->|H0]; cbn [dict_get].
    + destruct (String.eqb_spec k k0); [contradiction|reflexivity].
    + destruct (String.eqb_spec k k0); [reflexivity|exact IH].
Qed.

Lemma getitem_with_answer_ne (k k' : string) (answer : option string)
    (d : list (string * json)) :
  k <> k' -> getitem k (with_answer k' answer d) = getitem k d.
Proof.
  intros Hne. unfold with_answer, getitem. destruct answer as [s|]; [|reflexivity].
  destruct (String.eqb s ""); [reflexivity|]. rewrite dict_get_set_ne by exact Hne.
  reflexivity.
Qed.

Lemma getitem_with_answer_eq (k : string) (answer : option string)
    (d : list (string * json)) (old : json) :
  getitem k d = Ok old -> getitem k (with_answer k answer d) = Ok (answer_or answer old).
Proof.
  intros H. unfold with_answer, answer_or. destruct answer as [s|]; [|exact H].
  destruct (String.eqb s ""); [exact H|]. unfold getitem. rewrite dict_get_set_eq.
  reflexivity.
Qed.

Lemma getitem_get_or_none (k : string) (d : list (string * json)) (v : json) :
  getitem k d = Ok v -> get_or_none k d = v.
Proof.
  unfold getitem, get_or_none. destruct (dict_get k d); [intros [= ->]; reflexivity|discriminate].
Qed.

(** The record the edit writes: the name, and the answers to the two
    prompts over the old phone and date. *)
Lemma merged_record_edited (new_date_str new_phone : option string)
    (d : list (string * json)) (name phone date_v : json) :
  getitem "name" d = Ok name -> getitem "phone" d = Ok phone -> getitem "date" d = Ok date_v ->
  merged_record (edited new_date_str new_phone d)
  = Ok (new_record name (answer_or new_phone phone) (answer_or new_date_str date_v))
  /\ get_or_none "name" (edited new_date_str new_phone d) = name.
Proof.
  intros Hn Hp Hd. unfold edited.
  assert (getitem "name" (with_answer "phone" new_phone (with_answer "date" new_date_str d))
          = Ok name) as En.
  { rewrite !getitem_with_answer_ne by discriminate. exact Hn. }
  split; [|apply getitem_get_or_none; exact En].
  unfold merged_record. rewrite En. cbn [rbind].
  rewrite (getitem_with_answer_eq "phone" new_phone _ phone)
    by (rewrite getitem_with_answer_ne by discriminate; exact Hp).
  cbn [rbind].
  rewrite getitem_with_answer_ne by discriminate.
  rewrite (getitem_with_answer_eq "date" new_date_str _ date_v Hd).
  reflexivity.
Qed.

Lemma check_elems_records (recs : list (list (string * json))) :
  check_elems (map JObj recs) = Ok tt.
Proof. induction recs; [reflexivity|exact IHrecs]. Qed.

Lemma find_name_none (name : json) (recs : list (list (string * json))) :
  Forall (fun r => same_name name r = false) recs ->
  find_name name (map JObj recs) = Ok None.
Proof.
  induction 1 as [|r recs Hr _ IH]; [reflexivity|].
  cbn [map find_name elem_get rbind]. unfold same_name in Hr. rewrite Hr, IH. reflexivity.
Qed.

Lemma find_name_first (name : json) (pre : list (list (string * json)))
    (r : list (string * json)) (post : list (list (string * json))) :
  Forall (fun x => same_name name x = false) pre -> same_name name r = true ->
  find_name name (map JObj (pre ++ r :: post)) = Ok (Some (length pre)).
Proof.
  intros Hpre Hr. induction Hpre as [|x pre Hx _ IH].
  - cbn [app map find_name elem_get rbind]. unfold same_name in Hr. rewrite Hr. reflexivity.
  - cbn [app map find_name elem_get rbind]. unfold same_name in Hx. rewrite Hx.
    cbn [map] in IH. rewrite IH. reflexivity.
Qed.

Lemma first_match_or_none {A} (f : A -> bool) (l : list A) :
  Forall (fun x => f x = false) l
  \/ exists pre r post, l = pre ++ r :: post /\ Forall (fun x => f x = false) pre /\ f r = true.
Proof.
  induction l as [|x l IH]; [left; constructor|].
  destruct (f x) eqn:E.
  - right. exists [], x, l. split; [reflexivity|]. split; [constructor|exact E].
  - destruct IH as [IH|(pre & r & post & -> & Hpre & Hr)].
    + left. constructor; assumption.
    + right. exists (x :: pre), r, post. split; [reflexivity|].
      split; [constructor; assumption|exact Hr].
Qed.

Lemma edit_saved_replaces (d : list (string * json)) (merged : json)
    (pre : list (list (string * json))) (r : list (string * json))
    (post : list (list (string * json))) :
  merged_record d = Ok merged ->
  Forall (fun x => same_name (get_or_none "name" d) x = false) pre ->
  same_name (get_or_none "name" d) r = true ->
  edit_saved d (JArr (map JObj (pre ++ r :: post)))
  = Ok (JArr (map JObj pre ++ merged :: map JObj post)).
Proof.
  intros Hm Hpre Hr. unfold edit_saved. cbn [iter_json rbind].
  rewrite check_elems_records. cbn [rbind].
  rewrite (find_name_first _ pre r post Hpre Hr). cbn [rbind]. rewrite Hm. cbn [rbind].
  rewrite map_app. cbn [map].
  rewrite insert_app_r_alt by (rewrite length_map; lia).
  rewrite length_map, Nat.sub_diag. reflexivity.
Qed.

Lemma edit_saved_appends (d : list (string * json)) (merged : json)
    (recs : list (list (string * json))) :
  merged_record d = Ok merged ->
  Forall (fun x => same_name (get_or_none "name" d) x = false) recs ->
  edit_saved d (JArr (map JObj recs)) = Ok (JArr (map JObj recs ++ [merged])).
Proof.
  intros Hm Hrecs. unfold edit_saved. cbn [iter_json rbind].
  rewrite check_elems_records. cbn [rbind].
  rewrite (find_name_none _ recs Hrecs). cbn [rbind]. rewrite Hm. reflexivity.
Qed.

(** The file after an edit that goes as far as the write. *)
Lemma edit_applies_store (w : world) (p : popup) (index : nat) (rest : list nat)
    (new_date_str new_phone : option string) (a : nat) (name phone date_v : json)
    (saved : json) (l : list json) :
  edit_applies w p index new_date_str a name phone date_v ->
  load_appointments w = Ok saved ->
  (forall d, merged_record d
             = Ok (new_record name (answer_or new_phone phone) (answer_or new_date_str date_v)) ->
             get_or_none "name" d = name -> edit_saved d saved = Ok (JArr l)) ->
  files (snd (edit_selected (index :: rest) new_date_str new_phone p w)) = written w l.
Proof.
  intros (rows & d0 & Hc & Hr & Hobj & Hn & Hp & Hd & Hacc & Hlock) Hload Hed.
  destruct (merged_record_edited new_date_str new_phone d0 _ _ _ Hn Hp Hd) as [Hm Hname].
  eapply edit_selected_store; try eassumption.
  - rewrite getitem_with_answer_ne by discriminate. exact Hp.
  - apply Hed; assumption.
Qed.

(** C2.  An edit that goes as far as the write rewrites the file with
    the first stored record whose name equals the name of the edited
    record replaced by the merged record (the name, the new phone and
    the new date), whatever the phone and the date of that stored
    record are. *)
Theorem C2_edit_replaces_first_of_name (w : world) (p : popup) (index : nat)
    (rest : list nat) (new_date_str new_phone : option string) (a : nat)
    (name phone date_v : json) (pre : list (list (string * json)))
    (r : list (string * json)) (post : list (list (string * json))) :
  edit_applies w p index new_date_str a name phone date_v ->
  load_appointments w = Ok (JArr (map JObj (pre ++ r :: post))) ->
  Forall (fun x => same_name name x = false) pre ->
  same_name name r = true ->
  files (snd (edit_selected (index :: rest) new_date_str new_phone p w))
  = written w (map JObj pre
               ++ new_record name (answer_or new_phone phone) (answer_or new_date_str date_v)
               :: map JObj post).
Proof.
  intros Happ Hload Hpre Hr.
  eapply edit_applies_store; [exact Happ|exact Hload|].
  intros d Hm Hname. apply edit_saved_replaces; rewrite ?Hname; assumption.
Qed.

Lemma two_ann_edit_applies :
  edit_applies two_ann_world two_ann_popup 1 (Some "2999-03-01") 1
               (JStr "Ann") (JStr "0300123456") (JStr "2999-02-10").
Proof.
  exists [0%nat; 1%nat], ann_later. repeat split; try reflexivity.
  - right. exists (mkdate 2999 3 1). split; reflexivity.
  - cbn. apply not_elem_of_empty.
Qed.

(** The second appointment of Ann is selected and moved to 1 March:
    the first appointment is the one the file loses. *)
Lemma C2_edit_replaces_first_of_name_witness :
  edit_applies two_ann_world two_ann_popup 1 (Some "2999-03-01") 1
               (JStr "Ann") (JStr "0300123456") (JStr "2999-02-10")
  /\ files (snd (edit_selected [1%nat] (Some "2999-03-01") None two_ann_popup two_ann_world))
     = written two_ann_world
         [ new_record (JStr "Ann") (JStr "0300123456") (JStr "2999-03-01");
           JObj ann_later ].
Proof.
  split; [exact two_ann_edit_applies|].
  apply (C2_edit_replaces_first_of_name two_ann_world two_ann_popup 1 [] (Some "2999-03-01")
           None 1 (JStr "Ann") (JStr "0300123456") (JStr "2999-02-10")
           [] ann_record [ann_later] two_ann_edit_applies).
  - vm_compute. reflexivity.
  - constructor.
  - reflexivity.
Defined.

(** C10.  When no stored record has the name of the edited record, an
    edit that goes as far as the write appends the merged record; in
    every case the list it writes holds the merged record and is no
    shorter than the stored list. *)
Theorem C10_edit_appends_when_absent (w : world) (p : popup) (index : nat)
    (rest : list nat) (new_date_str new_phone : option string) (a : nat)
    (name phone date_v : json) (recs : list (list (string * json))) :
  edit_applies w p index new_date_str a name phone date_v ->
  load_appointments w = Ok (JArr (map JObj recs)) ->
  let merged := new_record name (answer_or new_phone phone) (answer_or new_date_str date_v) in
  let after := files (snd (edit_selected (index :: rest) new_date_str new_phone p w)) in
  (Forall (fun x => same_name name x = false) recs ->
     after = written w (map JObj recs ++ [merged]))
  /\ exists l, after = written w l /\ In merged l /\ (length recs <= length l)%nat.
Proof.
  intros Happ Hload merged after.
  assert (forall l,
             (forall d, merged_record d = Ok merged -> get_or_none "name" d = name ->
                        edit_saved d (JArr (map JObj recs)) = Ok (JArr l)) ->
             after = written w l) as Hstore.
  { intros l Hl. eapply edit_applies_store; [exact Happ|exact Hload|exact Hl]. }
  assert (Forall (fun x => same_name name x = false) recs ->
          after = written w (map JObj recs ++ [merged])) as Happend.
  { intros Hnone. apply Hstore. intros d Hm Hname.
    apply edit_saved_appends; rewrite ?Hname; assumption. }
  split; [exact Happend|].
  destruct (first_match_or_none (same_name name) recs)
    as [Hnone|(pre & r & post & -> & Hpre & Hr)].
  - exists (map JObj recs ++ [merged]). split; [auto|]. split.
    + apply in_or_app. right. left. reflexivity.
    + rewrite length_app, length_map. simpl. lia.
  - exists (map JObj pre ++ merged :: map JObj post). split; [|split].
    + apply Hstore. intros d Hm Hname.
      apply edit_saved_replaces; rewrite ?Hname; assumption.
    + apply in_or_app. right. left. reflexivity.
    + rewrite !length_app, !length_map. simpl. rewrite length_map. lia.
Qed.

Lemma lone_ann_edit_applies :
  edit_applies (appointments_world (JArr [JObj bob_record]) [ann_record]) ann_popup 0
               None 0 (JStr "Ann") (JStr "0300123456") (JStr "2999-01-05").
Proof.
  exists [0%nat], ann_record. repeat split; try reflexivity.
  cbn. apply not_elem_of_empty.
Qed.

(** The window still shows Ann, the file only holds Bob: the edit of
    Ann's phone appends her record. *)
Lemma C10_edit_appends_when_absent_witness :
  edit_applies (appointments_world (JArr [JObj bob_record]) [ann_record]) ann_popup 0
               None 0 (JStr "Ann") (JStr "0300123456") (JStr "2999-01-05")
  /\ files (snd (edit_selected [0%nat] None (Some "0311") ann_popup
                   (appointments_world (JArr [JObj bob_record]) [ann_record])))
     = written (appointments_world (JArr [JObj bob_record]) [ann_record])
         [ JObj bob_record; new_record (JStr "Ann") (JStr "0311") (JStr "2999-01-05") ].
Proof.
  split; [exact lone_ann_edit_applies|].
  refine (proj1 (C10_edit_appends_when_absent _ ann_popup 0 [] None (Some "0311") 0
                   (JStr "Ann") (JStr "0300123456") (JStr "2999-01-05") [bob_record]
                   lone_ann_edit_applies _) _).
  - vm_compute. reflexivity.
  - constructor; [reflexivity|constructor].
Defined.

(** ** Sorting by a string key *)

Section SortBy.
Context {A : Type} (key : A -> string).

Lemma ltb_false_leb (a b : string) : String.ltb b a = false -> String.leb a b = true.
Proof.
  unfold String.ltb, String.leb. rewrite (String.compare_antisym b a).
  destruct (String.compare a b); simpl; congruence.
Qed.

Lemma ltb_true_leb (a b : string) : String.ltb a b = true -> String.leb a b = true.
Proof. unfold String.ltb, String.leb. destruct (String.compare a b); congruence. Qed.

Lemma leb_trans (a b c : string) :
  String.leb a b = true -> String.leb b c = true -> String.leb a c = true.
Proof.
  unfold String.leb. intros Hab Hbc.
  destruct (String.compare a b) eqn:Eab; [| |discriminate].
  - apply String.compare_eq_iff in Eab. subst b. exact Hbc.
  - destruct (String.compare b c) eqn:Ebc; [| |discriminate].
    + apply String.compare_eq_iff in Ebc. subst c. rewrite Eab. reflexivity.
    + assert (String.compare a c = Lt) as ->; [|reflexivity].
      apply String_as_OT.cmp_lt. eapply String_as_OT.lt_trans;
        apply String_as_OT.cmp_lt; eassumption.
Qed.

Lemma insert_by_perm (x : A) (l : list A) : Permutation (insert_by key x l) (x :: l).
Proof.
  induction l as [|y l IH]; cbn [insert_by]; [reflexivity|].
  destruct (String.ltb (key y) (key x)); [|reflexivity].
  rewrite IH. apply perm_swap.
Qed.

Lemma sort_by_perm (l : list A) : Permutation (sort_by key l) l.
Proof.
  induction l as [|x l IH]; cbn [sort_by]; [reflexivity|].
  rewrite insert_by_perm. constructor. exact IH.
Qed.

Lemma insert_by_sorted (x : A) (l : list A) :
  StronglySorted (key_le key) l -> StronglySorted (key_le key) (insert_by key x l).
Proof.
  induction 1 as [|y l Hl IH Hy]; cbn [insert_by].
  - repeat constructor.
  - destruct (String.ltb (key y) (key x)) eqn:E.
    + constructor; [exact IH|].
      apply Forall_forall. intros z Hz. apply list_elem_of_In in Hz.
      apply (Permutation_in _ (insert_by_perm x l)) in Hz. destruct Hz as [<-|Hz].
      * apply ltb_true_leb. exact E.
      * rewrite Forall_forall in Hy. apply Hy. apply list_elem_of_In. exact Hz.
    + assert (key_le key x y) as Hxy by (apply ltb_false_leb; exact E).
      constructor; [constructor; assumption|].
      constructor; [exact Hxy|].
      apply Forall_forall. intros z Hz. rewrite Forall_forall in Hy.
      eapply leb_trans; [exact Hxy|apply Hy; exact Hz].
Qed.

Lemma sort_by_sorted (l : list A) : StronglySorted (key_le key) (sort_by key l).
Proof.
  induction l as [|x l IH]; cbn [sort_by]; [constructor|].
  apply insert_by_sorted. exact IH.
Qed.

End SortBy.

(** ** Objects are only added *)

Lemma grows_refl (w : world) : grows w w.
Proof. repeat split. exists []. symmetry. apply app_nil_r. Qed.

Lemma grows_trans (w1 w2 w3 : world) : grows w1 w2 -> grows w2 w3 -> grows w1 w3.
Proof.
  intros (F1 & L1 & C1 & E1 & n1 & H1) (F2 & L2 & C2 & E2 & n2 & H2).
  repeat split; try congruence. exists (n1 ++ n2). rewrite H2, H1. symmetry. apply app_assoc.
Qed.

Lemma grows_length (w w' : world) : grows w w' -> (length (heap w) <= length (heap w'))%nat.
Proof. intros (_ & _ & _ & _ & n & ->). rewrite length_app. lia. Qed.

Lemma grows_lookup (w w' : world) (a : nat) (d : list (string * json)) :
  grows w w' -> heap w !! a = Some d -> heap w' !! a = Some d.
Proof. intros (_ & _ & _ & _ & n & ->) H. apply lookup_app_l_Some. exact H. Qed.

Lemma alloc_grows (d : list (string * json)) (w : world) :
  exists w', alloc d w = (Ok (length (heap w)), w') /\ grows w w'
             /\ heap w' !! length (heap w) = Some d
             /\ length (heap w') = S (length (heap w)).
Proof.
  eexists. split; [reflexivity|]. cbn. split; [|split].
  - repeat split. eauto.
  - apply list_lookup_middle. reflexivity.
  - rewrite length_app. simpl. lia.
Qed.

Lemma loaded_from_weaken (l l' : list json) (w0 w w' : world) (o : pyobj) :
  (forall v, In v l -> In v l') -> (length (heap w0) <= length (heap w))%nat ->
  loaded_from l w w' o -> loaded_from l' w0 w' o.
Proof.
  intros Hl Hw. destruct o as [a|v]; [|auto].
  intros [Ha (d & Hd & Hin)]. split; [lia|eauto].
Qed.

Lemma alloc_elems_spec (l : list json) (w : world) :
  exists objs w', alloc_elems l w = (Ok objs, w') /\ grows w w'
                  /\ Forall (loaded_from l w w') objs.
Proof.
  revert w. induction l as [|v l IH]; intros w.
  - exists [], w. split; [reflexivity|]. split; [apply grows_refl|constructor].
  - assert (forall v', (forall d, v' <> JObj d) -> v' = v ->
              exists objs w', (run r <- alloc_elems l; ret (OVal v' :: r)) w = (Ok objs, w')
                              /\ grows w w' /\ Forall (loaded_from (v :: l) w w') objs) as Hval.
    { intros v' _ _. destruct (IH w) as (objs & w' & E & Hg & Hf).
      exists (OVal v' :: objs), w'. split; [rewrite (bind_ok _ _ _ _ _ E); reflexivity|].
      split; [exact Hg|]. constructor; [exact I|].
      eapply Forall_impl; [exact Hf|]. intros o. apply loaded_from_weaken; [|lia].
      intros x Hx. right. exact Hx. }
    destruct v; try (apply Hval; [discriminate|reflexivity]).
    cbn [alloc_elems].
    destruct (alloc_grows d w) as (w1 & Ea & Hg1 & Hl1 & Hn1).
    destruct (IH w1) as (objs & w' & E & Hg & Hf).
    exists (ORef (length (heap w)) :: objs), w'.
    split; [rewrite (bind_ok _ _ _ _ _ Ea), (bind_ok _ _ _ _ _ E); reflexivity|].
    split; [eapply grows_trans; eassumption|].
    constructor.
    + pose proof (grows_length _ _ Hg). split; [lia|].
      exists d. split; [eapply grows_lookup; eassumption|left; reflexivity].
    + eapply Forall_impl; [exact Hf|]. intros o. apply loaded_from_weaken; [|lia].
      intros x Hx. right. exact Hx.
Qed.

Lemma upcoming_copy_weaken (t : date) (o : pyobj) (objs : list pyobj) (w0 w w' : world)
    (c : nat) :
  (length (heap w0) <= length (heap w))%nat ->
  upcoming_copy t objs w w' c -> upcoming_copy t (o :: objs) w0 w' c.
Proof.
  intros Hw [Hc (a & d & s & dt & Hin & Ha & Hcd & Hd & Hp & Hlt)].
  split; [lia|]. exists a, d, s, dt. repeat split; auto. right. exact Hin.
Qed.

Lemma keep_upcoming_spec (t : date) (o : pyobj) (w : world) :
  (keep_upcoming t o w = (Ok None, w))
  \/ exists a d s dt w',
       o = ORef a /\ keep_upcoming t o w = (Ok (Some (length (heap w))), w')
       /\ grows w w' /\ length (heap w') = S (length (heap w))
       /\ heap w !! a = Some d /\ heap w' !! length (heap w) = Some d
       /\ dict_get "date" d = Some (JStr s) /\ strptime s = Some dt
       /\ date_ltb dt t = false.
Proof.
  destruct o as [a|v]; [|left; reflexivity].
  cbn [keep_upcoming].
  rewrite (bind_ok (deref a) _ w w (default [] (heap w !! a))) by reflexivity.
  destruct (heap w !! a) as [d|] eqn:Ea; simpl (default _ _); [|left; reflexivity].
  unfold get_or_empty.
  destruct (dict_get "date" d) as [dv|] eqn:Ed; simpl (default _ _); [|left; reflexivity].
  destruct dv as [| | | |s| |]; try (left; reflexivity).
  destruct (strptime s) as [dt|] eqn:Ep; [|left; reflexivity].
  unfold date_geb.
  destruct (date_ltb dt t) eqn:El; cbn [negb]; [left; reflexivity|].
  right. destruct (alloc_grows d w) as (w' & Eal & Hg & Hl & Hn).
  exists a, d, s, dt, w'. rewrite (bind_ok _ _ _ _ _ Eal).
  repeat (split; [first [reflexivity|assumption]|]). assumption.
Qed.

Lemma collect_upcoming_spec (t : date) (objs : list pyobj) (w : world) :
  exists up w', collect_upcoming t objs w = (Ok up, w') /\ grows w w'
                /\ NoDup up /\ Forall (upcoming_copy t objs w w') up.
Proof.
  revert w. induction objs as [|o objs IH]; intros w.
  - exists [], w. split; [reflexivity|]. split; [apply grows_refl|]. split; constructor.
  - cbn [collect_upcoming].
    destruct (keep_upcoming_spec t o w)
      as [E|(a & d & s & dt & w1 & -> & E & Hg1 & Hn1 & Ha & Hc & Hd & Hp & Hlt)].
    + destruct (IH w) as (up & w' & Ec & Hg & Hnd & Hf).
      exists up, w'. split; [rewrite (bind_ok _ _ _ _ _ E), (bind_ok _ _ _ _ _ Ec); reflexivity|].
      split; [exact Hg|]. split; [exact Hnd|].
      eapply Forall_impl; [exact Hf|]. intros c. apply upcoming_copy_weaken. lia.
    + destruct (IH w1) as (up & w' & Ec & Hg & Hnd & Hf).
      exists (length (heap w) :: up), w'.
      split; [rewrite (bind_ok _ _ _ _ _ E), (bind_ok _ _ _ _ _ Ec); reflexivity|].
      split; [eapply grows_trans; eassumption|].
      pose proof (grows_length _ _ Hg) as Hlen.
      split; [|constructor].
      * constructor; [|exact Hnd]. intros Hin. rewrite Forall_forall in Hf.
        destruct (Hf _ Hin) as [Hb _]. lia.
      * split; [lia|]. exists a, d, s, dt. repeat split; auto.
        -- left. reflexivity.
        -- eapply grows_lookup; [|exact Ha]. eapply grows_trans; eassumption.
        -- eapply grows_lookup; eassumption.
      * eapply Forall_impl; [exact Hf|]. intros c. apply upcoming_copy_weaken. lia.
Qed.

(** C4.  For every stored list and every clock, the list [upcoming] is
    built, sorted by the date strings, and made of new objects, one
    apart from the other and from the loaded records: each holds the
    members of a stored record whose date reads as today or later, and
    an update of it leaves the loaded record as it is. *)
Theorem C4_upcoming_view (w : world) (l : list json) :
  exists objs up w',
    build_upcoming (JArr l) w = (Ok (objs, up), w')
    /\ grows w w'
    /\ StronglySorted (key_le (date_key (heap w'))) up
    /\ NoDup up
    /\ Forall (fun c =>
         ~ In (ORef c) objs
         /\ exists a d s dt,
              In (ORef a) objs /\ a <> c /\ In (JObj d) l
              /\ heap w' !! a = Some d /\ heap w' !! c = Some d
              /\ date_key (heap w') c = s /\ strptime s = Some dt
              /\ date_ltb dt (dt_date (clock w)) = false
              /\ forall k v, heap (snd (setitem c k v w')) !! a = Some d) up.
Proof.
  destruct (alloc_elems_spec l w) as (objs & w1 & Ea & Hg1 & Hobjs).
  destruct (collect_upcoming_spec (dt_date (clock w)) objs w1) as (up & w' & Ec & Hg & Hnd & Hup).
  exists objs, (sort_by (date_key (heap w')) up), w'.
  split.
  { unfold build_upcoming.
    rewrite (bind_ok today _ w w (dt_date (clock w))) by reflexivity.
    rewrite (bind_ok (lift (iter_json (JArr l))) _ w w l) by reflexivity.
    rewrite (bind_ok _ _ _ _ _ Ea), (bind_ok _ _ _ _ _ Ec). reflexivity. }
  split; [eapply grows_trans; eassumption|].
  split; [apply sort_by_sorted|].
  pose proof (sort_by_perm (date_key (heap w')) up) as Hperm.
  split; [rewrite Hperm; exact Hnd|].
  rewrite Hperm.
  eapply Forall_impl; [exact Hup|].
  intros c [Hc (a & d & s & dt & Hin & Ha & Hcd & Hd & Hp & Hlt)].
  rewrite Forall_forall in Hobjs.
  assert (forall x, In (ORef x) objs -> (x < length (heap w1))%nat) as Hold.
  { intros x Hx. apply list_elem_of_In in Hx. destruct (Hobjs _ Hx) as [Hb _]. lia. }
  split.
  - intros Hcin. apply Hold in Hcin. lia.
  - pose proof (Hold a Hin) as Hlt_a.
    apply list_elem_of_In in Hin. destruct (Hobjs _ Hin) as [_ (d' & Hd' & Hl)].
    apply list_elem_of_In in Hin.
    pose proof (grows_lookup _ _ _ _ Hg Hd') as Hd''. rewrite Ha in Hd''.
    injection Hd'' as <-.
    exists a, d, s, dt. repeat (split; [first [assumption|lia]|]).
    split; [unfold date_key; rewrite Hcd; simpl (default _ _); rewrite Hd; reflexivity|].
    split; [assumption|]. split; [assumption|].
    intros k v. cbn [setitem snd heap].
    rewrite list_lookup_insert_ne by lia. exact Ha.
Qed.

(** The window shows the list [upcoming] as it was built. *)
Lemma view_appointments_upcoming (w w' : world) (l : list json) (pop : popup) :
  load_appointments w = Ok (JArr l) ->
  view_appointments w = (Ok (Some pop), w') ->
  exists objs, build_upcoming (JArr l) w = (Ok (objs, upcoming pop), w')
               /\ listbox pop = upcoming pop /\ search_var pop = "".
Proof.
  intros Hload. unfold view_appointments.
  rewrite (bind_ok (reads load_appointments) _ w w (JArr l))
    by (unfold reads; rewrite Hload; reflexivity).
  destruct (truthy (JArr l)); cbn [negb].
  - unfold bind at 1.
    destruct (build_upcoming (JArr l) w) as [[[objs up]|e] w1]; [|discriminate].
    cbn [snd]. destruct up as [|c up].
    + unfold bind, emit, ret. discriminate.
    + unfold ret. intros [= <- <-]. exists objs. auto.
  - unfold bind, emit, ret. discriminate.
Qed.

(** ** Writing a value and reading it back *)

Section RoundTrip.
Import Dump Load.

Lemma scan_escape_char (c : ascii) (tail : string) :
  scan_string (escape_char c +:+ tail)
  = match scan_string tail with
    | Some (t, rest) => Some (String c t, rest)
    | None => None
    end.
Proof. destruct c as [[] [] [] [] [] [] [] []]; reflexivity. Qed.

Lemma append_assoc (a b c : string) : (a +:+ b) +:+ c = a +:+ (b +:+ c).
Proof. induction a as [|x a IH]; [reflexivity|]. simpl. rewrite IH. reflexivity. Qed.

Lemma scan_escape (s rest : string) :
  scan_string (escape s +:+ quote +:+ rest) = Some (s, rest).
Proof.
  induction s as [|c s IH].
  - reflexivity.
  - cbn [escape]. rewrite append_assoc, scan_escape_char, IH. reflexivity.
Qed.

Lemma stop_char_cases (c : ascii) :
  stop_char c = true ->
  digit_of c = None /\ is_ws c || Ascii.eqb c "," = true
  /\ Ascii.eqb c "." = false /\ Ascii.eqb c "e" = false /\ Ascii.eqb c "E" = false.
Proof. destruct c as [[] [] [] [] [] [] [] []]; try discriminate; repeat split. Qed.

Lemma take_digits_uint (u : Decimal.uint) (rest : string) :
  delimited rest = true ->
  take_digits (NilEmpty.string_of_uint u +:+ rest) = (u, rest).
Proof.
  intros Hr. induction u; cbn [NilEmpty.string_of_uint String.append take_digits];
    try (change (digit_of _) with (Some Decimal.D0) || change (digit_of _) with (Some Decimal.D1)
         || change (digit_of _) with (Some Decimal.D2) || change (digit_of _) with (Some Decimal.D3)
         || change (digit_of _) with (Some Decimal.D4) || change (digit_of _) with (Some Decimal.D5)
         || change (digit_of _) with (Some Decimal.D6) || change (digit_of _) with (Some Decimal.D7)
         || change (digit_of _) with (Some Decimal.D8) || change (digit_of _) with (Some Decimal.D9));
    try (rewrite IHu; reflexivity).
  destruct rest as [|c r]; [reflexivity|].
  cbn [take_digits]. cbn [delimited] in Hr.
  destruct (stop_char_cases c Hr) as [-> _]. reflexivity.
Qed.

Lemma unorm_head (d : Decimal.uint) :
  Decimal.unorm d = Decimal.D0 Decimal.Nil \/ head_nonzero (Decimal.unorm d).
Proof. induction d; simpl; auto. Qed.

Lemma to_uint_head (n : N) :
  N.to_uint n = Decimal.D0 Decimal.Nil \/ head_nonzero (N.to_uint n).
Proof.
  pose proof (DecimalN.Unsigned.to_of (N.to_uint n)) as H.
  rewrite DecimalN.Unsigned.of_to in H. rewrite H. apply unorm_head.
Qed.

Lemma scan_int_part_of_N (n : N) (rest : string) :
  delimited rest = true ->
  scan_int_part (Str.of_N n +:+ rest) = Some (N.to_uint n, rest).
Proof.
  intros Hr. unfold Str.of_N. pose proof (take_digits_uint (N.to_uint n) rest Hr) as Ht.
  destruct (to_uint_head n) as [E|Hnz].
  - rewrite E. reflexivity.
  - unfold scan_int_part.
    destruct (N.to_uint n); try contradiction;
      cbn [NilEmpty.string_of_uint String.append] in *; rewrite Ht; reflexivity.
Qed.

Lemma scan_tail_none (rest : string) :
  delimited rest = true ->
  scan_frac rest = (None, rest) /\ scan_exp rest = (None, rest).
Proof.
  destruct rest as [|c r]; [split; reflexivity|].
  cbn [delimited]. intros Hc.
  destruct (stop_char_cases c Hc) as (_ & _ & Hdot & He & HE).
  unfold scan_frac, scan_exp. rewrite He, HE. cbn [orb]. split; [|reflexivity].
  destruct c as [[] [] [] [] [] [] [] []]; try reflexivity; discriminate Hdot.
Qed.

Lemma scan_unsigned_of_N (n : N) (rest : string) (neg : bool) :
  delimited rest = true ->
  scan_unsigned neg (Str.of_N n +:+ rest)
  = Some (JInt (if neg then - Z.of_N n else Z.of_N n), rest).
Proof.
  intros Hr. unfold scan_unsigned. rewrite (scan_int_part_of_N n rest Hr).
  destruct (scan_tail_none rest Hr) as [-> ->].
  rewrite DecimalN.Unsigned.of_to. reflexivity.
Qed.

Lemma of_N_head (n : N) :
  exists c r, Str.of_N n = String c r /\ Str.is_digit c = true.
Proof.
  destruct (of_N_shape n) as (c & r & E & Hd). exists c, r. split; [exact E|].
  simpl in Hd. apply andb_prop in Hd. tauto.
Qed.

Lemma scan_number_of_Z (z : Z) (rest : string) :
  delimited rest = true -> scan_number (Str.of_Z z +:+ rest) = Some (JInt z, rest).
Proof.
  intros Hr. unfold Str.of_Z.
  destruct (Z.ltb_spec z 0) as [Hneg|Hpos].
  - cbn [String.append]. change (scan_number (String "-" ?r)) with (scan_unsigned true r).
    rewrite (scan_unsigned_of_N (Z.to_N (- z)) rest true Hr).
    rewrite Z2N.id by lia. repeat f_equal. lia.
  - destruct (of_N_head (Z.to_N z)) as (c & r & E & Hc).
    assert (scan_number (Str.of_N (Z.to_N z) +:+ rest)
            = scan_unsigned false (Str.of_N (Z.to_N z) +:+ rest)) as ->.
    { rewrite E. cbn [String.append].
      destruct c as [[] [] [] [] [] [] [] []]; try reflexivity; discriminate Hc. }
    rewrite (scan_unsigned_of_N (Z.to_N z) rest false Hr).
    rewrite Z2N.id by lia. reflexivity.
Qed.

(** A text that starts as a number is scanned as a number. *)
Lemma scan_value_number (fuel : nat) (c : ascii) (s : string) :
  Str.is_digit c = true \/ (Ascii.eqb c "-" = true
                           /\ exists c' s', s = String c' s' /\ Str.is_digit c' = true) ->
  scan_value (S fuel) (String c s) = scan_number (String c s).
Proof.
  intros [Hc|(Hc & c' & s' & -> & Hc')].
  - destruct c as [[] [] [] [] [] [] [] []]; try discriminate Hc; reflexivity.
  - apply Ascii.eqb_eq in Hc. subst c.
    destruct c' as [[] [] [] [] [] [] [] []]; try discriminate Hc'; reflexivity.
Qed.

Lemma scan_value_int (fuel : nat) (z : Z) (rest : string) :
  delimited rest = true ->
  scan_value (S fuel) (Str.of_Z z +:+ rest) = Some (JInt z, rest).
Proof.
  intros Hr. rewrite <- (scan_number_of_Z z rest Hr).
  unfold Str.of_Z. destruct (z <? 0).
  - destruct (of_N_head (Z.to_N (- z))) as (c & r & E & Hc).
    rewrite E. cbn [String.append]. apply scan_value_number. right.
    split; [reflexivity|]. eauto.
  - destruct (of_N_head (Z.to_N z)) as (c & r & E & Hc).
    rewrite E. cbn [String.append]. apply scan_value_number. left. exact Hc.
Qed.

Lemma append_nil_r (s : string) : s +:+ "" = s.
Proof. induction s as [|c s IH]; [reflexivity|]. simpl. rewrite IH. reflexivity. Qed.

Lemma length_append (a b : string) :
  String.length (a +:+ b) = (String.length a + String.length b)%nat.
Proof. induction a as [|c a IH]; [reflexivity|]. simpl. rewrite IH. reflexivity. Qed.

Lemma dump_arr (lvl : nat) (x : json) (l : list json) :
  dump lvl (JArr (x :: l))
  = "[" +:+ newline_indent (S lvl) +:+ dump (S lvl) x +:+ dump_items lvl l.
Proof.
  cbn [dump]. do 3 f_equal.
  induction l as [|y l IH]; [reflexivity|]. cbn [dump_items]. rewrite <- IH. reflexivity.
Qed.

Lemma dump_obj (lvl : nat) (k : string) (x : json) (d : list (string * json)) :
  dump lvl (JObj ((k, x) :: d))
  = "{" +:+ newline_indent (S lvl) +:+ dump_str k +:+ ": " +:+ dump (S lvl) x
      +:+ dump_members lvl d.
Proof.
  cbn [dump]. do 5 f_equal.
  induction d as [|[k' y] d IH]; [reflexivity|]. cbn [dump_members]. rewrite <- IH. reflexivity.
Qed.

Lemma skip_ws_spaces (n : nat) (s : string) : skip_ws (Str.mul " " n +:+ s) = skip_ws s.
Proof. induction n as [|n IH]; [reflexivity|]. cbn [Str.mul String.append skip_ws]. exact IH. Qed.

Lemma skip_ws_indent (lvl : nat) (s : string) : skip_ws (newline_indent lvl +:+ s) = skip_ws s.
Proof. unfold newline_indent. cbn [String.append skip_ws]. apply skip_ws_spaces. Qed.

Lemma value_start_cases (c : ascii) :
  value_start c = true -> is_ws c = false /\ Ascii.eqb c "]" = false.
Proof.
  unfold value_start. intros H. apply andb_prop in H as [H1 H2].
  apply negb_true_iff in H1, H2. auto.
Qed.

Lemma digit_value_start (c : ascii) : Str.is_digit c = true -> value_start c = true.
Proof. destruct c as [[] [] [] [] [] [] [] []]; try discriminate; reflexivity. Qed.

Lemma dump_head (lvl : nat) (v : json) :
  plain v = true -> exists c r, dump lvl v = String c r /\ value_start c = true.
Proof.
  destruct v as [|b|z|x|s|l|d]; intros Hp.
  - eexists _, _. split; reflexivity.
  - destruct b; eexists _, _; split; reflexivity.
  - cbn [dump]. unfold Str.of_Z. destruct (z <? 0).
    + eexists _, _. split; reflexivity.
    + destruct (of_N_head (Z.to_N z)) as (c & r & E & Hc).
      exists c, r. split; [exact E|]. apply digit_value_start, Hc.
  - discriminate Hp.
  - eexists _, _. split; reflexivity.
  - destruct l; eexists _, _; split; reflexivity.
  - destruct d as [|[k y] d]; eexists _, _; split; reflexivity.
Qed.

Lemma skip_ws_dump (lvl : nat) (v : json) (s : string) :
  plain v = true -> skip_ws (dump lvl v +:+ s) = dump lvl v +:+ s.
Proof.
  intros Hp. destruct (dump_head lvl v Hp) as (c & r & -> & Hc).
  destruct (value_start_cases c Hc) as [Hw _].
  cbn [String.append skip_ws]. rewrite Hw. reflexivity.
Qed.

Lemma next_is_dump (lvl : nat) (v : json) (s : string) :
  plain v = true -> next_is "]" (dump lvl v +:+ s) = None.
Proof.
  intros Hp. destruct (dump_head lvl v Hp) as (c & r & -> & Hc).
  destruct (value_start_cases c Hc) as [_ Hb].
  cbn [String.append next_is]. rewrite Hb. reflexivity.
Qed.

Lemma scan_value_str (fuel : nat) (r : string) :
  scan_value (S fuel) (String quote_char r)
  = match scan_string r with
    | Some (t, rest) => Some (JStr t, rest)
    | None => None
    end.
Proof. reflexivity. Qed.

Lemma scan_value_arr (fuel : nat) (r : string) :
  scan_value (S fuel) (String "[" r)
  = match next_is "]" (skip_ws r) with
    | Some rest => Some (JArr [], rest)
    | None =>
        match scan_items fuel (skip_ws r) with
        | Some (l, rest) => Some (JArr l, rest)
        | None => None
        end
    end.
Proof. reflexivity. Qed.

Lemma scan_value_obj (fuel : nat) (r : string) :
  scan_value (S fuel) (String "{" r)
  = match next_is "}" (skip_ws r) with
    | Some rest => Some (JObj [], rest)
    | None =>
        match scan_members fuel (skip_ws r) with
        | Some (pairs, rest) => Some (JObj (dict_of_pairs pairs), rest)
        | None => None
        end
    end.
Proof. reflexivity. Qed.

Lemma scan_cost_pos (v : json) : (1 <= scan_cost v)%nat.
Proof. destruct v; cbn [scan_cost]; lia. Qed.

Lemma delimited_items (lvl : nat) (l : list json) (rest : string) :
  delimited (dump_items lvl l +:+ rest) = true.
Proof. destruct l; reflexivity. Qed.

Lemma delimited_members (lvl : nat) (d : list (string * json)) (rest : string) :
  delimited (dump_members lvl d +:+ rest) = true.
Proof. destruct d as [|[k y] d]; reflexivity. Qed.

Lemma dict_set_fresh {V} (k : string) (v : V) (acc : list (string * V)) :
  k ∉ map fst acc -> dict_set k v acc = acc ++ [(k, v)].
Proof.
  induction acc as [|[k' v'] acc IH]; intros Hk; [reflexivity|].
  cbn [dict_set]. cbn [map fst] in Hk. apply not_elem_of_cons in Hk as [Hne Hk].
  destruct (String.eqb_spec k k') as [->|_]; [contradiction|].
  rewrite (IH Hk). reflexivity.
Qed.

Lemma dict_of_pairs_from {V} (pairs acc : list (string * V)) :
  NoDup (map fst (acc ++ pairs)) ->
  fold_left (fun d kv => dict_set (fst kv) (snd kv) d) pairs acc = acc ++ pairs.
Proof.
  revert acc. induction pairs as [|[k v] pairs IH]; intros acc Hnd.
  - rewrite app_nil_r. reflexivity.
  - cbn [fold_left fst snd]. rewrite dict_set_fresh.
    + rewrite IH; rewrite <- app_assoc; [reflexivity|exact Hnd].
    + rewrite map_app in Hnd. apply NoDup_app in Hnd as (_ & Hd & _).
      intros Hin. apply (Hd k Hin). cbn [map fst]. left.
Qed.

Lemma dict_of_pairs_nodup {V} (pairs : list (string * V)) :
  NoDup (map fst pairs) -> dict_of_pairs pairs = pairs.
Proof. intros H. apply (dict_of_pairs_from pairs []). exact H. Qed.

Lemma skip_ws_str (k s : string) : skip_ws (dump_str k +:+ s) = dump_str k +:+ s.
Proof. reflexivity. Qed.

Lemma next_is_str (k s : string) : next_is "}" (dump_str k +:+ s) = None.
Proof. reflexivity. Qed.

Lemma comma_next (c : ascii) (t : string) :
  Ascii.eqb "," c = false ->
  next_is c (skip_ws ("," +:+ t)) = None /\ next_is "," (skip_ws ("," +:+ t)) = Some t.
Proof.
  intros H. change (skip_ws ("," +:+ t)) with (String "," t).
  cbn [next_is]. rewrite H. split; reflexivity.
Qed.

Lemma scan_items_step (fuel : nat) (s : string) :
  scan_items (S fuel) s
  = match scan_value fuel s with
    | Some (v, r) =>
        match next_is "]" (skip_ws r) with
        | Some rest => Some ([v], rest)
        | None =>
            match next_is "," (skip_ws r) with
            | Some r' =>
                match scan_items fuel (skip_ws r') with
                | Some (l, rest) => Some (v :: l, rest)
                | None => None
                end
            | None => None
            end
        end
    | None => None
    end.
Proof. reflexivity. Qed.

Lemma scan_members_step (fuel : nat) (k : string) (tail : string) :
  scan_members (S fuel) (dump_str k +:+ ": " +:+ tail)
  = match scan_value fuel (skip_ws tail) with
    | Some (v, r) =>
        match next_is "}" (skip_ws r) with
        | Some rest => Some ([(k, v)], rest)
        | None =>
            match next_is "," (skip_ws r) with
            | Some r' =>
                match scan_members fuel (skip_ws r') with
                | Some (l, rest) => Some ((k, v) :: l, rest)
                | None => None
                end
            | None => None
            end
        end
    | None => None
    end.
Proof.
  unfold dump_str. rewrite !append_assoc.
  change (quote +:+ ?x) with (String quote_char x).
  cbn [scan_members next_is]. rewrite Ascii.eqb_refl.
  rewrite scan_escape. reflexivity.
Qed.

(** With enough fuel the scanner reads back what [Dump.dump] wrote. *)
Lemma scan_dump (fuel : nat) :
  (forall v lvl rest,
      plain v = true -> (scan_cost v <= fuel)%nat -> delimited rest = true ->
      scan_value fuel (dump lvl v +:+ rest) = Some (v, rest))
  /\ (forall x l lvl rest,
         plain x = true -> forallb plain l = true ->
         (items_cost (x :: l) <= fuel)%nat ->
         scan_items fuel (dump (S lvl) x +:+ dump_items lvl l +:+ rest)
         = Some (x :: l, rest))
  /\ (forall k x d lvl rest,
         plain x = true -> forallb (fun kv => plain (snd kv)) d = true ->
         (members_cost ((k, x) :: d) <= fuel)%nat ->
         scan_members fuel (dump_str k +:+ ": " +:+ dump (S lvl) x
                              +:+ dump_members lvl d +:+ rest)
         = Some ((k, x) :: d, rest)).
Proof.
  induction fuel as [|fuel (IHv & IHi & IHm)].
  - split; [|split].
    + intros v ? ? _ H. pose proof (scan_cost_pos v). lia.
    + intros ? ? ? ? _ _ H. cbn in H. lia.
    + intros ? ? ? ? ? _ _ H. cbn in H. lia.
  - split; [|split].
    + intros v lvl rest Hp Hc Hr. destruct v as [|b|z|x|s|l|d].
      * reflexivity.
      * destruct b; reflexivity.
      * apply scan_value_int, Hr.
      * discriminate Hp.
      * cbn [dump]. unfold dump_str. rewrite !append_assoc.
        change (quote +:+ ?x) with (String quote_char x).
        rewrite scan_value_str, scan_escape. reflexivity.
      * destruct l as [|x l]; [reflexivity|].
        cbn [plain forallb] in Hp. apply andb_prop in Hp as [Hx Hl].
        rewrite dump_arr, !append_assoc.
        change ("[" +:+ ?t) with (String "[" t).
        rewrite scan_value_arr, skip_ws_indent, (skip_ws_dump _ _ _ Hx),
          (next_is_dump _ _ _ Hx).
        rewrite (IHi x l lvl rest Hx Hl); [reflexivity|].
        change (scan_cost (JArr (x :: l))) with (S (items_cost (x :: l))) in Hc. lia.
      * destruct d as [|[k x] d]; [reflexivity|].
        cbn [plain forallb map fst snd] in Hp.
        apply andb_prop in Hp as [Hnd Hp]. apply andb_prop in Hp as [Hx Hd].
        apply bool_decide_eq_true_1 in Hnd.
        rewrite dump_obj, !append_assoc.
        change ("{" +:+ ?t) with (String "{" t).
        rewrite scan_value_obj, skip_ws_indent.
        rewrite skip_ws_str, next_is_str.
        rewrite (IHm k x d lvl rest Hx Hd).
        { rewrite dict_of_pairs_nodup by exact Hnd. reflexivity. }
        change (scan_cost (JObj ((k, x) :: d))) with (S (members_cost ((k, x) :: d))) in Hc.
        lia.
    + intros x l lvl rest Hx Hl Hc.
      change (items_cost (x :: l)) with (S (scan_cost x + items_cost l)) in Hc.
      rewrite scan_items_step.
      rewrite (IHv x (S lvl) _ Hx) by (lia || apply delimited_items).
      destruct l as [|y l].
      * cbn [dump_items]. rewrite append_assoc, skip_ws_indent. reflexivity.
      * cbn [forallb] in Hl. apply andb_prop in Hl as [Hy Hl].
        cbn [dump_items]. rewrite !append_assoc.
        destruct (comma_next "]" (newline_indent (S lvl) +:+ dump (S lvl) y
                                    +:+ dump_items lvl l +:+ rest) eq_refl) as [-> ->].
        rewrite skip_ws_indent, (skip_ws_dump _ _ _ Hy).
        rewrite (IHi y l lvl rest Hy Hl) by lia. reflexivity.
    + intros k x d lvl rest Hx Hd Hc.
      change (members_cost ((k, x) :: d)) with (S (scan_cost x + members_cost d)) in Hc.
      rewrite scan_members_step.
      change (skip_ws (dump (S lvl) x +:+ ?t)) with (skip_ws (dump (S lvl) x +:+ t)).
      rewrite (skip_ws_dump _ _ _ Hx).
      rewrite (IHv x (S lvl) _ Hx) by (lia || apply delimited_members).
      destruct d as [|[k' y] d].
      * cbn [dump_members]. rewrite append_assoc, skip_ws_indent. reflexivity.
      * cbn [forallb snd] in Hd. apply andb_prop in Hd as [Hy Hd].
        cbn [dump_members]. rewrite !append_assoc.
        destruct (comma_next "}" (newline_indent (S lvl) +:+ dump_str k' +:+ ": "
                                    +:+ dump (S lvl) y +:+ dump_members lvl d +:+ rest)
                    eq_refl) as [-> ->].
        rewrite skip_ws_indent, skip_ws_str.
        rewrite (IHm k' y d lvl rest Hy Hd) by lia. reflexivity.
Qed.

Lemma dump_length_pos (lvl : nat) (v : json) :
  plain v = true -> (1 <= String.length (dump lvl v))%nat.
Proof.
  intros Hp. destruct (dump_head lvl v Hp) as (c & r & -> & _). cbn [String.length]. lia.
Qed.

Lemma indent_length_pos (lvl : nat) : (1 <= String.length (newline_indent lvl))%nat.
Proof. unfold newline_indent. cbn [String.length]. lia. Qed.

(** The fuel of a value is at most the length of its text. *)
Lemma scan_cost_le_length (n : nat) (v : json) (lvl : nat) :
  plain v = true -> (scan_cost v <= n)%nat ->
  (scan_cost v <= String.length (dump lvl v))%nat.
Proof.
  revert v lvl. induction n as [|n IH]; intros v lvl Hp Hn.
  - pose proof (scan_cost_pos v). lia.
  - destruct v as [|b|z|x|s|l|d];
      try (pose proof (dump_length_pos lvl _ Hp) as Hl; cbn [scan_cost]; exact Hl).
    + destruct l as [|x l]; [cbn; lia|].
      change (scan_cost (JArr (x :: l))) with (S (S (scan_cost x + items_cost l))) in *.
      cbn [plain forallb] in Hp. apply andb_prop in Hp as [Hx Hl].
      rewrite dump_arr, !length_append.
      pose proof (IH x (S lvl) Hx ltac:(lia)) as Hlx.
      pose proof (indent_length_pos (S lvl)) as Hi.
      assert (items_cost l <= String.length (dump_items lvl l))%nat as Hli.
      { assert (items_cost l <= n)%nat as Hb by lia. clear Hn Hlx.
        induction l as [|y l IHl]; [cbn; lia|].
        change (items_cost (y :: l)) with (S (scan_cost y + items_cost l)) in *.
        cbn [forallb] in Hl. apply andb_prop in Hl as [Hy Hl].
        cbn [dump_items]. rewrite !length_append.
        pose proof (IH y (S lvl) Hy ltac:(lia)) as Hly.
        pose proof (IHl Hl ltac:(lia)) as Hll.
        change (String.length ",") with 1%nat. lia. }
      change (String.length "[") with 1%nat. lia.
    + destruct d as [|[k x] d]; [cbn; lia|].
      change (scan_cost (JObj ((k, x) :: d))) with (S (S (scan_cost x + members_cost d))) in *.
      cbn [plain forallb map fst snd] in Hp.
      apply andb_prop in Hp as [_ Hp]. apply andb_prop in Hp as [Hx Hd].
      rewrite dump_obj, !length_append.
      pose proof (IH x (S lvl) Hx ltac:(lia)) as Hlx.
      pose proof (indent_length_pos (S lvl)) as Hi.
      assert (members_cost d <= String.length (dump_members lvl d))%nat as Hli.
      { assert (members_cost d <= n)%nat as Hb by lia. clear Hn Hlx.
        induction d as [|[k' y] d IHd]; [cbn; lia|].
        change (members_cost ((k', y) :: d)) with (S (scan_cost y + members_cost d)) in *.
        cbn [forallb snd] in Hd. apply andb_prop in Hd as [Hy Hd].
        cbn [dump_members]. rewrite !length_append.
        pose proof (IH y (S lvl) Hy ltac:(lia)) as Hly.
        pose proof (IHd Hd ltac:(lia)) as Hll.
        change (String.length ",") with 1%nat. lia. }
      change (String.length "{") with 1%nat. lia.
Qed.

(** [json.loads(json.dumps(v, indent=4)) == v] *)
Lemma loads_dumps (v : json) : plain v = true -> loads (dumps v) = Some v.
Proof.
  intros Hp. unfold loads, dumps.
  pose proof (scan_cost_le_length _ v 0%nat Hp (Nat.le_refl _)) as Hlen.
  rewrite <- (append_nil_r (dump 0 v)) at 2.
  rewrite (skip_ws_dump _ _ _ Hp).
  destruct (scan_dump (2 * String.length (dump 0 v) + 2)) as (Hv & _ & _).
  rewrite Hv; [reflexivity|exact Hp|lia|reflexivity].
Qed.

End RoundTrip.

(** ** The two stores, saved and loaded *)

Lemma int_items_ints (cat acc : dict Z) :
  NoDup (map fst (acc ++ cat)) ->
  int_items (map (fun kv => (fst kv, JInt (snd kv))) cat) acc = Ok (acc ++ cat).
Proof.
  revert acc. induction cat as [|[k z] cat IH]; intros acc Hnd.
  - rewrite app_nil_r. reflexivity.
  - cbn [map int_items fst snd py_int rbind]. rewrite dict_set_fresh.
    + rewrite IH; rewrite <- app_assoc; [reflexivity|exact Hnd].
    + rewrite map_app in Hnd. apply NoDup_app in Hnd as (_ & Hd & _).
      intros Hin. apply (Hd k Hin). cbn [map fst]. left.
Qed.

Lemma plain_catalog (cat : dict Z) :
  NoDup (map fst cat) -> plain (json_of_catalog cat) = true.
Proof.
  intros Hnd. unfold json_of_catalog. cbn [plain]. apply andb_true_intro. split.
  - apply bool_decide_eq_true_2. rewrite map_map. cbn [fst]. exact Hnd.
  - clear Hnd. induction cat as [|[k z] cat IH]; [reflexivity|exact IH].
Qed.




(* ===================================================================== *)
(** * Part IV: further properties of the code                            *)
(* ===================================================================== *)

Section ExactAmounts.
Import Float64.

Lemma rne_div_exact (k d : Z) : 0 < d -> rne_div (k * d) d = k.
Proof.
  intros Hd. unfold rne_div. rewrite Z.div_mul, Z.mod_mul by lia.
  destruct (Z.compare_spec (2 * 0) d); lia.
Qed.

(** A representable magnitude is not moved by rounding. *)
Lemma round_units_exact (v : Z) : representable v -> round_units v 1 = v.
Proof.
  intros (m & t & Hm & Ht & ->). unfold round_units. rewrite Z.div_1_r, Z.mul_1_l.
  set (sh := shift_of (m * 2 ^ t)).
  assert (0 <= sh <= t) as Hsh.
  { unfold sh, shift_of. destruct (Z.eq_dec m 0) as [->|Hm0].
    - rewrite Z.mul_0_l. change (Z.log2 0) with 0. lia.
    - rewrite Z.log2_mul_pow2 by lia.
      assert (Z.log2 m < 53) by (apply Z.log2_lt_pow2; lia). lia. }
  replace (m * 2 ^ t) with (m * 2 ^ (t - sh) * 2 ^ sh).
  - rewrite rne_div_exact by (apply pow2_pos; lia). reflexivity.
  - rewrite <- Z.mul_assoc, <- Z.pow_add_r by lia. do 2 f_equal. lia.
Qed.

Lemma round_units_ge (n d B : Z) :
  0 <= n -> 0 < d -> representable B -> B * d <= n -> B <= round_units n d.
Proof.
  intros Hn Hd (m & t & Hm & Ht & ->) Hle. unfold round_units.
  set (sh := shift_of (n / d)).
  pose proof (shift_of_nonneg (n / d)) as Hsh. fold sh in Hsh.
  pose proof (pow2_pos sh Hsh) as Hp. pose proof (pow2_pos t Ht) as Hpt.
  destruct (Z.le_gt_cases sh t) as [Hc|Hc].
  - replace t with ((t - sh) + sh) in * by lia.
    rewrite Z.pow_add_r in * by lia.
    pose proof (pow2_pos (t - sh) ltac:(lia)).
    assert (m * 2 ^ (t - sh) <= rne_div n (d * 2 ^ sh)).
    { apply rne_div_ge; nia. }
    nia.
  - pose proof (shift_of_pos_bound (n / d) ltac:(fold sh; lia)) as Hb. fold sh in Hb.
    assert (2 ^ 52 <= rne_div n (d * 2 ^ sh)).
    { apply rne_div_ge; [nia|].
      rewrite Z.pow_add_r in Hb by lia.
      pose proof (Z.mul_div_le n d Hd). nia. }
    assert (2 ^ (t + 53) <= 2 ^ (sh + 52)) by (apply Z.pow_le_mono_r; lia).
    rewrite !Z.pow_add_r in * by lia. nia.
Qed.

(** [float(z)] is exact below [2^53]. *)
Lemma of_int_exact (z : Z) :
  Z.abs z < 2 ^ 53 -> of_int z = Ok (Fin (z <? 0) (Z.abs z * one)).
Proof.
  intros Hz. unfold of_int.
  assert (representable (Z.abs z * one)) as Hrep.
  { exists (Z.abs z), unit_exp. unfold one, unit_exp. lia. }
  rewrite (round_units_exact _ Hrep).
  assert (Z.abs z * one < overflow).
  { unfold one, overflow, unit_exp.
    assert (2 ^ 53 * 2 ^ 1074 <= 2 ^ 2098).
    { rewrite <- Z.pow_add_r by lia. apply Z.pow_le_mono_r; lia. }
    pose proof (pow2_pos 1074 ltac:(lia)). nia. }
  destruct (Z.ltb_spec (Z.abs z * one) overflow); [reflexivity|lia].
Qed.

(** A whole number of rupees is shown with [.00]. *)
Lemma format_2f_whole (z : Z) :
  Float64.format_2f (Fin (z <? 0) (Z.abs z * one)) = Str.of_Z z +:+ ".00".
Proof.
  unfold Float64.format_2f.
  replace (Z.abs z * one * 100) with (Z.abs z * 100 * one) by lia.
  rewrite rne_div_exact by apply one_pos.
  rewrite Z.div_mul, Z.mod_mul by lia.
  change (Str.zfill 2 0) with "00".
  unfold Str.of_Z. destruct (Z.ltb_spec z 0).
  - replace (Z.abs z) with (- z) by lia. cbn [String.append]. reflexivity.
  - replace (Z.abs z) with z by lia. cbn [String.append]. reflexivity.
Qed.

End ExactAmounts.

Section BillTotals.
Import Float64.

Lemma round_units_zero (d : Z) : 0 < d -> round_units 0 d = 0.
Proof.
  intros Hd.
  assert (round_units 0 d <= 0)
    by (apply round_units_le; [lia|lia|exists 0, 0; lia|lia]).
  pose proof (round_units_nonneg 0 d ltac:(lia) Hd). lia.
Qed.

Lemma zero_rate : int_truediv 0 100 = Ok (Fin false 0).
Proof.
  unfold int_truediv. change (Z.abs 0 * one) with 0.
  rewrite round_units_zero by lia. reflexivity.
Qed.

(** The amounts of a bill at 0%: no discount, and the sum as it is. *)
Lemma zero_discount_amounts (z : Z) :
  Z.abs z < 2 ^ 53 ->
  mul (Fin (z <? 0) (Z.abs z * one)) (Fin false 0) = Fin (z <? 0) 0
  /\ sub (Fin (z <? 0) (Z.abs z * one)) (Fin (z <? 0) 0) = Fin (z <? 0) (Z.abs z * one).
Proof.
  intros Hz. pose proof one_pos as H1.
  assert (representable (Z.abs z * one)) as Hrep.
  { exists (Z.abs z), unit_exp. unfold one, unit_exp. lia. }
  pose proof (of_int_exact z Hz) as Hof. unfold of_int in Hof.
  rewrite (round_units_exact _ Hrep) in Hof.
  destruct (Z.ltb_spec (Z.abs z * one) overflow) as [Hov|]; [clear Hof|discriminate Hof].
  split.
  - unfold mul, pack. rewrite Z.mul_0_r, round_units_zero by exact H1.
    rewrite xorb_false_r. reflexivity.
  - unfold sub, signed. destruct (Z.ltb_spec z 0) as [Hneg|Hpos].
    + destruct (Z.eqb_spec (- (Z.abs z * one) - - 0) 0) as [E|_]; [nia|].
      replace (Z.abs (- (Z.abs z * one) - - 0)) with (Z.abs z * one) by nia.
      rewrite (round_units_exact _ Hrep). unfold pack.
      destruct (Z.ltb_spec (Z.abs z * one) overflow); [|lia].
      f_equal. apply Z.ltb_lt. nia.
    + destruct (Z.eqb_spec (Z.abs z * one - 0) 0) as [E|Hne].
      * cbn [andb]. f_equal. lia.
      * replace (Z.abs (Z.abs z * one - 0)) with (Z.abs z * one) by nia.
        rewrite (round_units_exact _ Hrep). unfold pack.
        destruct (Z.ltb_spec (Z.abs z * one) overflow); [|lia].
        f_equal. apply Z.ltb_ge. nia.
Qed.

End BillTotals.

(** X1.  A bill without discount (the patient is not VIP, or is VIP at
    0%) whose prices sum to less than [2^53] in magnitude has no
    subtotal and no discount line, and its total is the exact sum of the
    prices followed by [.00]; it is refused with a [ValueError] when
    one of the prices has more than 4300 digits. *)
Theorem X1_whole_total (p : Patient) (now : datetime) :
  no_discount p ->
  Z.abs (total_cost (p_treatments p)) < 2 ^ 53 ->
  get_bill_lines p now
  = if writable_costs (p_treatments p) then
      Ok (bill_head p now ++ map treatment_line (p_treatments p)
          ++ [ Str.mul "-" 60;
               amount_line "Total Bill" (Str.of_Z (total_cost (p_treatments p)) +:+ ".00") ]
          ++ bill_foot)
    else Raise ValueError.
Proof.
  intros Hno Hsum. unfold get_bill_lines. rewrite bill_loop_spec, Z.add_0_l.
  destruct (writable_costs (p_treatments p)); cbn [rbind]; [|reflexivity].
  set (T := total_cost (p_treatments p)) in *.
  unfold bill_amounts.
  destruct (String.eqb_spec (p_patient_type p) "VIP") as [Hvip|Hnot].
  - destruct Hno as [Hno|Hzero]; [contradiction|].
    rewrite Hzero, zero_rate. cbn [rbind]. rewrite (of_int_exact T Hsum). cbn [rbind].
    destruct (zero_discount_amounts T Hsum) as [-> ->].
    cbn [rbind pynum_gt0 Float64.gt0]. change (0 <? 0) with false. rewrite andb_false_r.
    cbn [rbind]. unfold money_line, format_2f. cbn [rbind].
    rewrite format_2f_whole. rewrite <- !app_assoc. reflexivity.
  - cbn [rbind pynum_gt0]. change (0 <? 0) with false. cbn [rbind].
    unfold money_line, format_2f. rewrite (of_int_exact T Hsum). cbn [rbind].
    rewrite format_2f_whole. rewrite <- !app_assoc. reflexivity.
Qed.

Lemma X1_whole_total_witness :
  no_discount (mkPatient "Ann" "0300123456" sample_treatments "" "VIP" 0)
  /\ In "Total Bill                                       350.00"
        (match get_bill_lines (mkPatient "Ann" "0300123456" sample_treatments "" "VIP" 0) noon
         with Ok lines => lines | Raise _ => [] end).
Proof.
  assert (no_discount (mkPatient "Ann" "0300123456" sample_treatments "" "VIP" 0)) as Hno
    by (right; reflexivity).
  split; [exact Hno|].
  rewrite (X1_whole_total _ noon Hno) by (vm_compute; reflexivity).
  change (writable_costs _) with true. cbv iota.
  rewrite !in_app_iff. right. right. left. right. left. vm_compute. reflexivity.
Defined.

Section DiscountShown.
Import Float64.

Lemma hundred_le_one : 100 <= one.
Proof.
  unfold one, unit_exp. change 100 with (100 * 1).
  assert (2 ^ 7 <= 2 ^ 1074) by (apply Z.pow_le_mono_r; lia). lia.
Qed.

(** The discount is above zero exactly when the percentage and the sum
    both are. *)
Lemma discount_sign (a T : Z) (x rate : float) :
  0 <= a <= 100 -> of_int T = Ok x -> int_truediv a 100 = Ok rate ->
  gt0 (mul x rate) = (0 <? a) && (0 <? T).
Proof.
  intros Ha. unfold of_int, int_truediv.
  pose proof one_pos as H1. pose proof hundred_le_one as H100.
  set (v := round_units (Z.abs T * one) 1). set (r := round_units (Z.abs a * one) 100).
  assert (0 <= v) by (apply round_units_nonneg; nia).
  assert (0 <= r) by (apply round_units_nonneg; nia).
  assert (r <= one).
  { apply round_units_le; [nia|lia| |nia]. exists 1, unit_exp. unfold one, unit_exp. lia. }
  destruct (Z.ltb_spec v overflow) as [Hv|]; [|discriminate].
  destruct (Z.ltb_spec r overflow) as [Hr|]; [|discriminate].
  intros [= <-] [= <-]. unfold mul, pack.
  replace (a <? 0) with false by (symmetry; apply Z.ltb_ge; lia). rewrite xorb_false_r.
  set (d := round_units (v * r) one).
  assert (0 <= d) by (apply round_units_nonneg; nia).
  assert (d <= v).
  { apply round_units_le; [nia|lia| |nia]. apply round_units_representable; nia. }
  destruct (Z.ltb_spec d overflow); [|lia]. cbn [gt0].
  destruct (Z.ltb_spec 0 a) as [Hap|Haz]; destruct (Z.ltb_spec 0 T) as [HTp|HTn]; cbn [andb].
  - replace (T <? 0) with false by (symmetry; apply Z.ltb_ge; lia). cbn [negb andb].
    apply Z.ltb_lt.
    assert (one <= v).
    { apply round_units_ge; [nia|lia| |nia]. exists 1, unit_exp. unfold one, unit_exp. lia. }
    assert (1 <= r) by (apply round_units_ge; [nia|lia|exists 1, 0; lia|nia]).
    assert (1 <= d) by (apply round_units_ge; [nia|lia|exists 1, 0; lia|nia]).
    lia.
  - destruct (Z.ltb_spec T 0); [reflexivity|]. cbn [negb andb].
    assert (T = 0) as -> by lia. apply Z.ltb_ge.
    unfold d, v. change (Z.abs 0 * one) with 0.
    repeat first [rewrite round_units_zero by lia | rewrite Z.mul_0_l]. lia.
  - assert (a = 0) as -> by lia. rewrite andb_false_iff. right. apply Z.ltb_ge.
    unfold d, r. change (Z.abs 0 * one) with 0.
    repeat first [rewrite round_units_zero by lia | rewrite Z.mul_0_r]. lia.
  - assert (a = 0) as -> by lia. rewrite andb_false_iff. right. apply Z.ltb_ge.
    unfold d, r. change (Z.abs 0 * one) with 0.
    repeat first [rewrite round_units_zero by lia | rewrite Z.mul_0_r]. lia.
Qed.

End DiscountShown.

(** X2.  In a bill whose discount is in range, the subtotal line and
    the discount line stand between the rule and the total exactly when
    the patient is VIP, the percentage is above 0 and the prices sum to
    more than 0; in every other case the total follows the rule at
    once. *)
Theorem X2_discount_lines_shown (p : Patient) (now : datetime) (lines : list string) :
  discount_in_range p ->
  get_bill_lines p now = Ok lines ->
  exists pre tot,
    lines = bill_head p now ++ map treatment_line (p_treatments p)
              ++ [Str.mul "-" 60] ++ pre ++ [amount_line "Total Bill" tot] ++ bill_foot
    /\ if discount_shown p then exists sub dis, pre = discount_lines p sub dis
       else pre = [].
Proof.
  intros Hrange. unfold get_bill_lines, discount_shown.
  rewrite bill_loop_spec, Z.add_0_l.
  destruct (writable_costs (p_treatments p)); cbn [rbind]; [|discriminate].
  set (T := total_cost (p_treatments p)).
  unfold bill_amounts.
  destruct (String.eqb_spec (p_patient_type p) "VIP") as [Hvip|Hnot].
  - specialize (Hrange Hvip).
    destruct (Float64.int_truediv (p_vip_discount p) 100) as [rate|] eqn:Er;
      cbn [rbind]; [|discriminate].
    destruct (Float64.of_int T) as [x|] eqn:Ex; cbn [rbind]; [|discriminate].
    cbn [pynum_gt0]. rewrite (discount_sign _ _ _ _ Hrange Ex Er). cbn [andb].
    destruct ((0 <? p_vip_discount p) && (0 <? T)).
    + unfold money_line.
      destruct (format_2f (PInt T)) as [sub|]; cbn [rbind]; [|discriminate].
      destruct (format_2f (pynum_neg _)) as [dis|]; cbn [rbind]; [|discriminate].
      destruct (format_2f _) as [tot|]; cbn [rbind]; [|discriminate].
      intros [= <-]. exists (discount_lines p sub dis), tot. split; [|eauto].
      rewrite <- !app_assoc. reflexivity.
    + cbn [rbind]. unfold money_line.
      destruct (format_2f _) as [tot|]; cbn [rbind]; [|discriminate].
      intros [= <-]. exists [], tot. split; [|reflexivity].
      rewrite <- !app_assoc. reflexivity.
  - cbn [rbind pynum_gt0 andb]. change (0 <? 0) with false. cbn [rbind].
    unfold money_line.
    destruct (format_2f _) as [tot|]; cbn [rbind]; [|discriminate].
    intros [= <-]. exists [], tot. split; [|reflexivity].
    rewrite <- !app_assoc. reflexivity.
Qed.

Lemma X2_discount_lines_shown_witness :
  discount_in_range (mkPatient "Ann" "0300123456" sample_treatments "" "VIP" 10)
  /\ exists lines sub dis,
       get_bill_lines (mkPatient "Ann" "0300123456" sample_treatments "" "VIP" 10) noon
       = Ok lines
       /\ In (amount_line "Subtotal" sub) lines
       /\ In (amount_line "VIP Discount (10%)" dis) lines.
Proof.
  assert (discount_in_range (mkPatient "Ann" "0300123456" sample_treatments "" "VIP" 10))
    as Hr by (intros _; simpl; lia).
  split; [exact Hr|].
  destruct (get_bill_lines (mkPatient "Ann" "0300123456" sample_treatments "" "VIP" 10) noon)
    as [lines|] eqn:E; [|vm_compute in E; discriminate E].
  destruct (X2_discount_lines_shown _ _ _ Hr E) as (pre & tot & -> & Hpre).
  change (discount_shown _) with true in Hpre. destruct Hpre as (sub & dis & ->).
  eexists. exists sub, dis. split; [reflexivity|].
  split; rewrite !in_app_iff; right; right; right; left.
  - left. reflexivity.
  - right. left. reflexivity.
Defined.

Lemma emit_add_event (e : event) (w : world) : emit e w = (Ok tt, add_event w e).
Proof. reflexivity. Qed.

Lemma eqb_empty_false (s : string) : s <> "" -> String.eqb s "" = false.
Proof. intros H. destruct (String.eqb_spec s ""); [contradiction|reflexivity]. Qed.

(** X3.  The checks of [generate_bill_prescription], in their order: a
    blank name or phone, a refusal to go on with an unusual phone, an
    empty selection and a VIP discount outside 0..100 each end the
    callback with at most one error box; the session (an earlier bill
    included) and the files are as they were. *)
Theorem X3_generate_refused (go_on : bool) (app : ClinicApp) (w : world) :
  (Str.strip (entry_name app) = "" \/ Str.strip (entry_phone app) = "" ->
     generate_bill_prescription go_on app w
     = (Ok tt, app, add_event w (input_error "Please enter patient name and phone number.")))
  /\ (Str.strip (entry_name app) <> "" -> Str.strip (entry_phone app) <> "" ->
      (phone_passes go_on app = false ->
         generate_bill_prescription go_on app w = (Ok tt, app, phone_checked app w))
      /\ (phone_passes go_on app = true -> selected_treatments app = [] ->
            generate_bill_prescription go_on app w
            = (Ok tt, app, add_event (phone_checked app w)
                             (input_error "Please select at least one treatment.")))
      /\ (phone_passes go_on app = true -> selected_treatments app <> [] ->
          patient_type_var app = "VIP" ->
          ~ 0 <= vip_discount_var app <= 100 ->
            generate_bill_prescription go_on app w
            = (Ok tt, app, add_event (phone_checked app w)
                             (input_error "VIP discount must be between 0 and 100."))))
  /\ no_side_effect w (phone_checked app w)
  /\ forall text, no_side_effect w (add_event (phone_checked app w) (input_error text)).
Proof.
  assert (no_side_effect w (phone_checked app w)) as Hq.
  { unfold phone_checked. destruct (phone_looks_usual _).
    - split; reflexivity.
    - apply add_event_no_side_effect. reflexivity. }
  split; [|split; [|split; [exact Hq|]]].
  - intros Hblank. unfold generate_bill_prescription.
    assert (String.eqb (Str.strip (entry_name app)) "" || String.eqb (Str.strip (entry_phone app)) ""
            = true) as ->.
    { apply orb_true_iff. destruct Hblank as [->| ->]; auto. }
    reflexivity.
  - intros Hn Hp. unfold generate_bill_prescription, phone_passes, phone_checked.
    rewrite (eqb_empty_false _ Hn), (eqb_empty_false _ Hp). cbn [orb].
    split; [|split].
    + intros Hpass. apply orb_false_iff in Hpass as [-> ->]. reflexivity.
    + intros Hpass Hsel. rewrite Hsel.
      destruct (phone_looks_usual _); [reflexivity|].
      cbn [orb] in Hpass. rewrite Hpass. reflexivity.
    + intros Hpass Hsel Hvip Hout.
      assert (String.eqb (patient_type_var app) "VIP"
              && negb ((0 <=? vip_discount_var app) && (vip_discount_var app <=? 100)) = true)
        as Hc.
      { rewrite Hvip. cbn [String.eqb Ascii.eqb andb]. apply negb_true_iff.
        apply andb_false_iff. lia. }
      destruct (selected_treatments app) as [|t ts]; [contradiction|].
      destruct (phone_looks_usual _).
      * cbn [negb]. rewrite Hc. reflexivity.
      * cbn [orb] in Hpass. rewrite Hpass. cbn [negb snd]. rewrite Hc. reflexivity.
  - intros text. destruct Hq as [Hf He]. split; [exact Hf|].
    cbn [add_event events]. rewrite List.filter_app, He. cbn. apply app_nil_r.
Qed.

Lemma X3_generate_refused_witness :
  generate_bill_prescription true
    (mkApp [] (Some one_treatment_patient) ["A"] [("A", 100)] "" "0300" "Normal" 10 "" "old")
    empty_world
  = (Ok tt,
     mkApp [] (Some one_treatment_patient) ["A"] [("A", 100)] "" "0300" "Normal" 10 "" "old",
     add_event empty_world (input_error "Please enter patient name and phone number.")).
Proof.
  apply (proj1 (X3_generate_refused true _ empty_world)). left. reflexivity.
Defined.

Lemma add_selected_spec (names : list string) (vars : dict Z) (p : Patient) :
  Forall (fun n => has_key n vars = true) names ->
  add_selected names vars p
  = Ok (mkPatient (p_name p) (p_phone p) (p_treatments p ++ map (priced vars) names)
                  (p_prescription p) (p_patient_type p) (p_vip_discount p)).
Proof.
  revert p. induction names as [|n names IH]; intros p Hall.
  - cbn [add_selected map]. rewrite app_nil_r. destruct p; reflexivity.
  - apply Forall_cons in Hall as [Hn Hall]. cbn [add_selected]. unfold has_key in Hn.
    unfold priced at 1. cbn [map].
    destruct (dict_get n vars) as [cost|]; [|discriminate Hn].
    rewrite (IH _ Hall). unfold add_treatment. cbn [p_name p_phone p_treatments
      p_prescription p_patient_type p_vip_discount default].
    rewrite <- app_assoc. reflexivity.
Qed.

Lemma session_discount_in_range (go_on : bool) (app : ClinicApp) :
  generate_ready go_on app -> discount_in_range (session_patient app).
Proof.
  intros (_ & _ & _ & _ & Hd & _) Hvip. cbn in Hvip |- *.
  rewrite Hvip in *. cbn [String.eqb Ascii.eqb]. apply Hd. reflexivity.
Qed.

(** The callback up to the rendering of the bill. *)
Lemma generate_renders (go_on : bool) (app : ClinicApp) (w : world) :
  generate_ready go_on app ->
  generate_bill_prescription go_on app w
  = match combined_text (session_patient app) (clock w) with
    | Raise e => (Raise e, set_patient app (Some (session_patient app)), phone_checked app w)
    | Ok text =>
        leave (set_output (set_patient app (Some (session_patient app))) text)
              (exec makedirs ("records/" +:+ strftime_day (clock w));
               try_write (record_path app (clock w)) text)
              (phone_checked app w)
    end.
Proof.
  intros (Hn & Hp & Hpass & Hsel & Hd & Hvars).
  unfold generate_bill_prescription, phone_passes, phone_checked in *.
  rewrite (eqb_empty_false _ Hn), (eqb_empty_false _ Hp). cbn [orb].
  assert (String.eqb (patient_type_var app) "VIP"
          && negb ((0 <=? vip_discount_var app) && (vip_discount_var app <=? 100)) = false)
    as Hc.
  { destruct (String.eqb_spec (patient_type_var app) "VIP") as [E|]; [|reflexivity].
    cbn [andb]. apply negb_false_iff. specialize (Hd E). apply andb_true_iff. lia. }
  rewrite (add_selected_spec _ _ _ Hvars).
  cbn [p_name p_phone p_treatments p_prescription p_patient_type p_vip_discount app_nil_l].
  change (set_prescription _ _) with (session_patient app).
  destruct (selected_treatments app) as [|t ts] eqn:Esel; [contradiction|].
  destruct (phone_looks_usual _).
  - cbn [negb]. rewrite Hc. reflexivity.
  - cbn [orb] in Hpass. rewrite Hpass. cbn [negb snd]. rewrite Hc. reflexivity.
Qed.

Lemma cannot_make_env (w1 w2 : world) (path : string) :
  files w1 = files w2 -> locked w1 = locked w2 -> cannot_make w1 path = cannot_make w2 path.
Proof. intros Hf Hl. unfold cannot_make, dir_refused. rewrite Hf, Hl. reflexivity. Qed.

Lemma phone_checked_disk (app : ClinicApp) (w : world) :
  files (phone_checked app w) = files w /\ locked (phone_checked app w) = locked w.
Proof. unfold phone_checked. destruct (phone_looks_usual _); auto. Qed.

(** X4.  When every check passes and the bill can be rendered, the
    callback keeps the patient, whose discount is in range, and shows
    the bill and the prescription.  When the folder of the day cannot
    be made it then raises [OSError]; otherwise it has the folder made
    and writes the same text to the record file of the patient, and
    when that file cannot be written the failure is passed over in
    silence. *)
Theorem X4_generate_success (go_on : bool) (app : ClinicApp) (w : world) (text : string) :
  generate_ready go_on app ->
  combined_text (session_patient app) (clock w) = Ok text ->
  let folder := "records/" +:+ strftime_day (clock w) in
  let shown := set_output (set_patient app (Some (session_patient app))) text in
  discount_in_range (session_patient app)
  /\ (cannot_make w folder = true ->
      generate_bill_prescription go_on app w = (Raise OSError, shown, phone_checked app w))
  /\ (cannot_make w folder = false ->
      exists w',
        generate_bill_prescription go_on app w = (Ok tt, shown, w')
        /\ files w'
           = (if decide (record_path app (clock w) ∈ locked w) then files w
              else <[record_path app (clock w) := text]> (files w))
        /\ events w'
           = events (phone_checked app w)
               ++ MakeDirs folder
               :: (if decide (record_path app (clock w) ∈ locked w) then []
                   else [FileWrite (record_path app (clock w))])).
Proof.
  intros Hready Htext. cbv zeta.
  destruct (phone_checked_disk app w) as [Hf Hl].
  pose proof (cannot_make_env (phone_checked app w) w
                ("records/" +:+ strftime_day (clock w)) Hf Hl) as Hmk.
  split; [exact (session_discount_in_range _ _ Hready)|].
  rewrite (generate_renders _ _ _ Hready), Htext.
  unfold leave, bind, makedirs. rewrite Hmk.
  split; intros ->; [reflexivity|].
  unfold try_write, write_file. cbn [files locked clock heap events]. rewrite Hl.
  destruct (decide (record_path app (clock w) ∈ locked w)).
  - eexists. split; [reflexivity|]. cbn [files events]. auto.
  - eexists. split; [reflexivity|]. cbn [files events]. rewrite Hf, <- app_assoc. auto.
Qed.

Lemma X4_generate_success_witness :
  generate_ready true ready_app
  /\ exists text w',
       generate_bill_prescription true ready_app empty_world
       = (Ok tt, set_output (set_patient ready_app (Some (session_patient ready_app))) text, w')
       /\ files w' !! "records/2026-03-05/Ann_120000.txt" = Some text.
Proof.
  assert (generate_ready true ready_app) as Hr.
  { repeat split; try discriminate; try (vm_compute; lia).
    repeat constructor. }
  split; [exact Hr|].
  destruct (combined_text (session_patient ready_app) (clock empty_world)) as [text|] eqn:E;
    [|vm_compute in E; discriminate E].
  destruct (proj2 (proj2 (X4_generate_success true ready_app empty_world text Hr E)))
    as (w' & Hg & Hf & _); [reflexivity|].
  exists text, w'. split; [exact Hg|]. rewrite Hf.
  destruct (decide _) as [Hin|_].
  { exfalso. revert Hin. change (locked empty_world) with (∅ : gset string).
    apply not_elem_of_empty. }
  change (record_path ready_app (clock empty_world)) with "records/2026-03-05/Ann_120000.txt".
  apply lookup_insert_eq.
Defined.

Section TooLarge.
Import Float64.

Lemma of_int_overflow (z : Z) : 2 ^ 1024 <= Z.abs z -> of_int z = Raise OverflowError.
Proof.
  intros Hz. unfold of_int. pose proof one_pos.
  assert (overflow <= round_units (Z.abs z * one) 1).
  { apply round_units_ge; [nia|lia| |].
    - exists 1, 2098. unfold overflow. lia.
    - unfold overflow, one, unit_exp in *.
      replace 2098 with (1024 + 1074) by lia. rewrite Z.pow_add_r by lia. nia. }
  destruct (Z.ltb_spec (round_units (Z.abs z * one) 1) overflow); [lia|reflexivity].
Qed.

Lemma int_truediv_raises (a b : Z) (e : exn) : int_truediv a b = Raise e -> e = OverflowError.
Proof. unfold int_truediv. destruct (_ <? _); [discriminate|]. intros [= <-]. reflexivity. Qed.

End TooLarge.

(** A sum of [2^1024] or more cannot be shown. *)
Lemma bill_overflow (p : Patient) (now : datetime) :
  writable_costs (p_treatments p) = true ->
  2 ^ 1024 <= Z.abs (total_cost (p_treatments p)) ->
  get_bill_lines p now = Raise OverflowError.
Proof.
  intros Hw Hbig. unfold get_bill_lines. rewrite bill_loop_spec, Z.add_0_l, Hw.
  cbn [rbind].
  unfold bill_amounts. destruct (String.eqb (p_patient_type p) "VIP").
  - destruct (Float64.int_truediv _ 100) as [rate|e] eqn:Er; cbn [rbind].
    + rewrite (of_int_overflow _ Hbig). reflexivity.
    + rewrite (int_truediv_raises _ _ _ Er). reflexivity.
  - cbn [rbind pynum_gt0]. change (0 <? 0) with false. cbn [rbind].
    unfold money_line, format_2f. rewrite (of_int_overflow _ Hbig). reflexivity.
Qed.

(** A bill that cannot be rendered raises the exception of
    [bill_refusal]. *)
Lemma bill_refused (p : Patient) (now : datetime) (e : exn) :
  bill_refusal p = Some e -> get_bill_lines p now = Raise e.
Proof.
  unfold bill_refusal. destruct (writable_costs (p_treatments p)) eqn:Hw; cbn [negb].
  - destruct (Z.leb_spec (2 ^ 1024) (Z.abs (total_cost (p_treatments p)))); [|discriminate].
    intros [= <-]. apply bill_overflow; assumption.
  - intros [= <-]. unfold get_bill_lines. rewrite bill_loop_spec, Hw. reflexivity.
Qed.

(** X5.  The bill cannot be rendered when a price has more than 4300
    digits ([ValueError]) and, the prices being shorter, when they sum
    to [2^1024] or more in magnitude ([OverflowError]):
    [get_bill_text] raises.  A session that passes every check then
    keeps the patient but raises before anything is shown or written,
    and printing and saving raise in their turn, with nothing sent to
    the printer or the disk. *)
Theorem X5_bill_too_large (go_on printer_ok : bool) (app : ClinicApp) (w w2 : world)
    (now : datetime) (e : exn) :
  bill_refusal (session_patient app) = Some e ->
  get_bill_text (session_patient app) now = Raise e
  /\ (generate_ready go_on app ->
      generate_bill_prescription go_on app w
      = (Raise e, set_patient app (Some (session_patient app)), phone_checked app w))
  /\ print_bill_and_prescription printer_ok (set_patient app (Some (session_patient app))) w2
     = (Raise e, w2)
  /\ save_to_txt (set_patient app (Some (session_patient app))) w2 = (Raise e, w2).
Proof.
  intros Hbig.
  assert (forall t, combined_text (session_patient app) t = Raise e) as Hc.
  { intros t. unfold combined_text, get_bill_text. rewrite (bill_refused _ t _ Hbig).
    reflexivity. }
  split; [|split; [|split]].
  - unfold get_bill_text. rewrite (bill_refused _ now _ Hbig). reflexivity.
  - intros Hready. rewrite (generate_renders _ _ _ Hready), Hc. reflexivity.
  - unfold print_bill_and_prescription, set_patient, bind, gets, lift. cbn [patient].
    change (mkPatient _ _ _ _ _ _) with (session_patient app). rewrite Hc. reflexivity.
  - unfold save_to_txt, set_patient, bind, gets, lift. cbn [patient].
    change (mkPatient _ _ _ _ _ _) with (session_patient app). rewrite Hc. reflexivity.
Qed.

Lemma X5_bill_too_large_witness :
  bill_refusal (session_patient huge_app) = Some OverflowError
  /\ get_bill_text (session_patient huge_app) noon = Raise OverflowError.
Proof.
  assert (bill_refusal (session_patient huge_app) = Some OverflowError) as H
    by (vm_compute; reflexivity).
  split; [exact H|].
  exact (proj1 (X5_bill_too_large true true huge_app empty_world empty_world noon _ H)).
Defined.

(** ** The prescription block *)

Lemma lstrip_blank (s : string) : blank s = true -> Str.lstrip s = "".
Proof.
  unfold blank. induction s as [|c s IH]; [reflexivity|].
  cbn [list_ascii_of_string forallb Str.lstrip]. intros H.
  apply andb_prop in H as [-> H]. auto.
Qed.

Lemma lstrip_not_blank (s : string) :
  blank s = false -> exists c r, Str.lstrip s = String c r /\ Str.is_space c = false.
Proof.
  unfold blank. induction s as [|c s IH]; [discriminate|].
  cbn [list_ascii_of_string forallb Str.lstrip].
  destruct (Str.is_space c) eqn:Ec; cbn [andb]; [exact IH|eauto].
Qed.

Lemma rstrip_head (c : ascii) (r : string) :
  Str.is_space c = false -> exists r', Str.rstrip (String c r) = String c r'.
Proof.
  intros Hc. cbn [Str.rstrip]. rewrite Hc. destruct (Str.rstrip r); eauto.
Qed.

(** Stripping leaves nothing exactly when the text is blank. *)
Lemma strip_blank (s : string) :
  String.eqb (Str.strip s) "" = blank s.
Proof.
  unfold Str.strip. destruct (blank s) eqn:Eb.
  - rewrite (lstrip_blank _ Eb). reflexivity.
  - destruct (lstrip_not_blank _ Eb) as (c & r & -> & Hc).
    destruct (rstrip_head c r Hc) as (r' & ->). reflexivity.
Qed.

(** X6.  The prescription block of the patient a session describes has
    seven lines of heading, one body line and a closing rule; the body
    is the text of the prescription box without the white space around
    it, or [No prescription provided.] when the box holds nothing but
    white space. *)
Theorem X6_prescription_body (app : ClinicApp) (now : datetime) :
  get_prescription_text (session_patient app) now
  = Str.join newline
      (prescription_head (session_patient app) now
       ++ [ if blank (text_prescription app) then "No prescription provided."
            else Str.strip (text_prescription app) ]
       ++ [ Str.mul "=" 60 ])
  /\ (blank (text_prescription app) = false -> Str.strip (text_prescription app) <> "").
Proof.
  split.
  - unfold get_prescription_text, session_patient. cbn [p_prescription p_name p_phone].
    rewrite strip_blank. reflexivity.
  - intros Hb E. rewrite <- strip_blank, E in Hb. discriminate Hb.
Qed.

Lemma X6_prescription_body_witness :
  blank " Rest " = false /\ Str.strip " Rest " <> "".
Proof.
  split; [reflexivity|].
  apply (proj2 (X6_prescription_body
                  (mkApp [] None [] [] "Ann" "0300123456" "Normal" 10 " Rest " "") noon)).
  reflexivity.
Defined.

(** ** The record file *)

(** A test that holds of each of the 256 characters holds of every
    character. *)
Lemma ascii_all (P : ascii -> bool) :
  forallb (fun n => P (ascii_of_nat n)) (seq 0 256) = true -> forall c, P c = true.
Proof.
  intros H c. rewrite forallb_forall in H. specialize (H (nat_of_ascii c)).
  rewrite ascii_nat_embedding in H. apply H. apply in_seq.
  pose proof (nat_ascii_bounded c). lia.
Qed.

Lemma safe_char_no_separator (c : ascii) :
  safe_char c = true ->
  negb (Ascii.eqb c "/") && negb (Ascii.eqb c "\") && negb (Ascii.eqb c ".") = true.
Proof.
  intros H.
  pose proof (ascii_all (fun c => implb (safe_char c)
                 (negb (Ascii.eqb c "/") && negb (Ascii.eqb c "\") && negb (Ascii.eqb c ".")))
                ltac:(vm_compute; reflexivity) c) as Hc.
  cbv beta in Hc. rewrite H in Hc. exact Hc.
Qed.

Lemma digit_no_separator (c : ascii) :
  Str.is_digit c = true -> negb (Ascii.eqb c "/") && negb (Ascii.eqb c "\") = true.
Proof.
  intros H.
  pose proof (ascii_all (fun c => implb (Str.is_digit c)
                 (negb (Ascii.eqb c "/") && negb (Ascii.eqb c "\")))
                ltac:(vm_compute; reflexivity) c) as Hc.
  cbv beta in Hc. rewrite H in Hc. exact Hc.
Qed.

Lemma keep_chars_forall (f : ascii -> bool) (s : string) :
  forallb f (list_ascii_of_string (keep_chars f s)) = true.
Proof.
  induction s as [|c s IH]; [reflexivity|].
  cbn [keep_chars]. destruct (f c) eqn:E; [|exact IH].
  cbn [list_ascii_of_string forallb]. rewrite E. exact IH.
Qed.

Lemma rstrip_forall (f : ascii -> bool) (s : string) :
  forallb f (list_ascii_of_string s) = true ->
  forallb f (list_ascii_of_string (Str.rstrip s)) = true.
Proof.
  induction s as [|c s IH]; [reflexivity|].
  cbn [list_ascii_of_string forallb Str.rstrip]. intros H.
  apply andb_prop in H as [Hc Hs]. specialize (IH Hs).
  destruct (Str.rstrip s) as [|c' r].
  - destruct (Str.is_space c); [reflexivity|].
    cbn [list_ascii_of_string forallb]. rewrite Hc. reflexivity.
  - cbn [list_ascii_of_string forallb] in *. rewrite Hc. exact IH.
Qed.

Lemma rstrip_idem (s : string) : Str.rstrip (Str.rstrip s) = Str.rstrip s.
Proof.
  induction s as [|c s IH]; [reflexivity|].
  cbn [Str.rstrip]. destruct (Str.rstrip s) as [|c' r] eqn:E.
  - destruct (Str.is_space c) eqn:Ec; [reflexivity|].
    cbn [Str.rstrip]. rewrite Ec. reflexivity.
  - change (Str.rstrip (String c (String c' r)))
      with (match Str.rstrip (String c' r) with
            | EmptyString => if Str.is_space c then EmptyString else String c EmptyString
            | r0 => String c r0
            end).
    rewrite IH. reflexivity.
Qed.

Lemma forallb_chars_app (f : ascii -> bool) (a b : string) :
  forallb f (list_ascii_of_string (a +:+ b))
  = forallb f (list_ascii_of_string a) && forallb f (list_ascii_of_string b).
Proof.
  induction a as [|c a IH]; [reflexivity|].
  cbn [String.append list_ascii_of_string forallb]. rewrite IH. apply andb_assoc.
Qed.

Lemma forallb_weaken (f g : ascii -> bool) (l : list ascii) :
  (forall c, f c = true -> g c = true) -> forallb f l = true -> forallb g l = true.
Proof.
  intros Hfg. induction l as [|c l IH]; [reflexivity|].
  cbn [forallb]. intros H. apply andb_prop in H as [Hc Hl].
  rewrite (Hfg c Hc), (IH Hl). reflexivity.
Qed.

Lemma zfill_digits (w n : Z) :
  forallb Str.is_digit (list_ascii_of_string (Str.zfill w n)) = true.
Proof.
  unfold Str.zfill. rewrite forallb_chars_app. apply andb_true_intro. split.
  - induction (Z.to_nat (w - Str.len (Str.of_N (Z.to_N n)))) as [|k IH]; [reflexivity|].
    cbn [Str.mul String.append list_ascii_of_string forallb]. exact IH.
  - unfold Str.of_N. generalize (N.to_uint (Z.to_N n)). intros u.
    induction u; cbn; auto.
Qed.

(** X7.  The part of a record file's name taken from the patient's name
    holds alphanumeric characters, blanks and underscores only and has
    no white space at its end; whatever the name is, no slash and no
    backslash stands in the file name and no dot comes from the
    patient's name, so the file lies in the folder of the day. *)
Theorem X7_record_file_name (name : string) (now : datetime) :
  forallb safe_char (list_ascii_of_string (safe_name name)) = true
  /\ Str.rstrip (safe_name name) = safe_name name
  /\ forallb (fun c => negb (Ascii.eqb c "/") && negb (Ascii.eqb c "\"))
             (list_ascii_of_string (record_file name now)) = true
  /\ forallb (fun c => negb (Ascii.eqb c ".")) (list_ascii_of_string (safe_name name)) = true.
Proof.
  assert (forallb safe_char (list_ascii_of_string (safe_name name)) = true) as Hsafe.
  { unfold safe_name. apply rstrip_forall. apply (keep_chars_forall safe_char). }
  split; [exact Hsafe|]. split; [apply rstrip_idem|]. split.
  - unfold record_file, strftime_hms. rewrite !forallb_chars_app.
    repeat (apply andb_true_intro; split); try reflexivity.
    + revert Hsafe. apply forallb_weaken. intros c Hc.
      pose proof (safe_char_no_separator c Hc) as H.
      apply andb_prop in H as [H _]. exact H.
    + apply (forallb_weaken Str.is_digit); [apply digit_no_separator|apply zfill_digits].
    + apply (forallb_weaken Str.is_digit); [apply digit_no_separator|apply zfill_digits].
    + apply (forallb_weaken Str.is_digit); [apply digit_no_separator|apply zfill_digits].
  - revert Hsafe. apply forallb_weaken. intros c Hc.
    pose proof (safe_char_no_separator c Hc) as H.
    apply andb_prop in H as [_ H]. exact H.
Qed.

(** ** The text shown and the text saved *)

(** The clock enters the two blocks through its rendering only. *)
Lemma combined_text_time (p : Patient) (a b : datetime) :
  strftime_bill a = strftime_bill b -> combined_text p a = combined_text p b.
Proof.
  intros E. unfold combined_text, get_bill_text, get_bill_lines, get_prescription_text.
  rewrite E. reflexivity.
Qed.

(** X8.  After a bill was generated, a later save or print renders the
    bill anew at the time of the save.  Within the same minute the
    text written to [txt/bill_prescription_<stamp>.txt], and the text
    handed to the printer, is the text the window shows.  When the
    folder [txt] cannot be made, the save raises [OSError] and nothing
    is written. *)
Theorem X8_saved_text_is_shown (go_on printer_ok : bool) (app app' : ClinicApp)
    (w w' w2 : world) :
  generate_ready go_on app ->
  generate_bill_prescription go_on app w = (Ok tt, app', w') ->
  strftime_bill (clock w2) = strftime_bill (clock w) ->
  (txt_path (clock w2) ∉ locked w2 ->
     files (snd (save_to_txt app' w2))
     = if cannot_make w2 "txt" then files w2
       else <[txt_path (clock w2) := text_output app']> (files w2))
  /\ (cannot_make w2 "txt" = true -> save_to_txt app' w2 = (Raise OSError, w2))
  /\ events (snd (print_bill_and_prescription printer_ok app' w2))
     = events w2 ++ TempFile (text_output app')
         :: (if printer_ok then [SendToPrinter; ShowInfo "Success" [Lit "Document sent to printer"]]
             else [ShowError "Print Error" [Lit "Could not print: "; Lit "OSError"]])
         ++ [ScheduleRemoveTemp].
Proof.
  intros Hready Hgen Hmin. rewrite (generate_renders _ _ _ Hready) in Hgen.
  destruct (combined_text (session_patient app) (clock w)) as [text|e] eqn:Et;
    [|discriminate Hgen].
  unfold leave in Hgen.
  destruct ((exec makedirs _; try_write _ text) (phone_checked app w)) as [r w0].
  injection Hgen as _ <- _.
  rewrite <- (combined_text_time _ _ _ Hmin) in Et.
  split; [|split].
  - intros Hfree.
    unfold save_to_txt, set_output, set_patient, bind, gets, lift, makedirs, emit, write_file.
    cbn [patient text_output files locked clock heap events].
    change (mkPatient _ _ _ _ _ _) with (session_patient app). rewrite Et.
    destruct (cannot_make w2 "txt"); [reflexivity|].
    cbn [files locked clock heap events].
    change ("txt" +:+ "/bill_prescription_" +:+ strftime_stamp (clock w2) +:+ ".txt")
      with (txt_path (clock w2)).
    destruct (decide (txt_path (clock w2) ∈ locked w2)); [contradiction|]. reflexivity.
  - intros Hno.
    unfold save_to_txt, set_output, set_patient, bind, gets, lift, makedirs.
    cbn [patient text_output files locked clock heap events].
    change (mkPatient _ _ _ _ _ _) with (session_patient app). rewrite Et, Hno.
    reflexivity.
  - unfold print_bill_and_prescription, print_text, set_output, set_patient, bind, gets,
      lift, emit.
    cbn [patient text_output files locked clock heap events].
    change (mkPatient _ _ _ _ _ _) with (session_patient app). rewrite Et.
    destruct printer_ok; cbn [events]; rewrite <- !app_assoc; reflexivity.
Qed.

Lemma X8_saved_text_is_shown_witness :
  generate_ready true ready_app
  /\ exists text,
       files (snd (save_to_txt
                     (set_output (set_patient ready_app (Some (session_patient ready_app))) text)
                     empty_world))
       !! "txt/bill_prescription_20260305_120000.txt" = Some text.
Proof.
  assert (generate_ready true ready_app) as Hr.
  { repeat split; try discriminate; try (vm_compute; lia).
    repeat constructor. }
  split; [exact Hr|].
  destruct (generate_bill_prescription true ready_app empty_world) as [[r app'] w'] eqn:Eg.
  pose proof Eg as Eg'. rewrite (generate_renders _ _ _ Hr) in Eg'.
  destruct (combined_text (session_patient ready_app) (clock empty_world)) as [text|] eqn:E;
    [|vm_compute in E; discriminate E].
  unfold leave in Eg'.
  destruct ((exec makedirs _; try_write _ text) (phone_checked ready_app empty_world))
    as [r0 w0] eqn:Ew.
  assert (r0 = Ok tt) as ->.
  { revert Ew. unfold bind, makedirs.
    assert (cannot_make (phone_checked ready_app empty_world)
                        ("records/" +:+ strftime_day (clock empty_world)) = false) as ->
      by (vm_compute; reflexivity).
    unfold try_write. destruct (write_file _ _ _) as [[|] ?];
      intros [= <- _]; reflexivity. }
  injection Eg' as <- <- <-.
  exists text.
  pose proof (X8_saved_text_is_shown true true ready_app _ empty_world w0 empty_world
                Hr Eg eq_refl) as [Hs _].
  rewrite Hs.
  - assert (cannot_make empty_world "txt" = false) as -> by (vm_compute; reflexivity).
    apply lookup_insert_eq.
  - change (locked empty_world) with (∅ : gset string). apply not_elem_of_empty.
Defined.

(** ** Rows and names *)

Lemma prefixb_app (p s : string) : Str.prefixb p (p +:+ s) = true.
Proof.
  induction p as [|c p IH]; [reflexivity|].
  cbn [String.append Str.prefixb]. rewrite Ascii.eqb_refl. exact IH.
Qed.

Lemma prefixb_paren (c : ascii) (name tail : string) :
  Str.prefixb " (" (String c (name +:+ " (" +:+ tail)) = Str.prefixb " (" (String c name).
Proof.
  destruct name as [|c' name']; cbn [String.append Str.prefixb].
  - change (Ascii.eqb "(" " ") with false. reflexivity.
  - reflexivity.
Qed.

Lemma split_head_app (name tail : string) :
  split_head " (" (name +:+ " (" +:+ tail) = split_head " (" name.
Proof.
  induction name as [|c name IH].
  - reflexivity.
  - change (String c name +:+ " (" +:+ tail) with (String c (name +:+ " (" +:+ tail)).
    cbn [split_head]. rewrite prefixb_paren, IH. reflexivity.
Qed.

Lemma split_head_none (s : string) : Str.contains " (" s = false -> split_head " (" s = s.
Proof.
  induction s as [|c s IH]; [reflexivity|].
  cbn [Str.contains split_head]. intros H. apply orb_false_iff in H as [-> H].
  rewrite (IH H). reflexivity.
Qed.

Lemma split_head_length (s : string) :
  Str.contains " (" s = true -> (String.length (split_head " (" s) < String.length s)%nat.
Proof.
  induction s as [|c s IH]; [discriminate|].
  cbn [Str.contains split_head]. intros H.
  destruct (Str.prefixb " (" (String c s)); [cbn; lia|].
  cbn [orb] in H. specialize (IH H). cbn [String.length]. lia.
Qed.

(** X9.  The name [add_selected_treatments] reads back from a row of
    the listbox is the catalog name up to its first [ (]: the name
    itself when it holds no blank followed by an opening bracket, and a
    strictly shorter text otherwise. *)
Theorem X9_row_name (treatment_name : string) (cost : Z) :
  split_head " (" (treatment_row treatment_name cost) = split_head " (" treatment_name
  /\ (Str.contains " (" treatment_name = false ->
      split_head " (" (treatment_row treatment_name cost) = treatment_name)
  /\ (Str.contains " (" treatment_name = true ->
      split_head " (" (treatment_row treatment_name cost) <> treatment_name).
Proof.
  assert (split_head " (" (treatment_row treatment_name cost) = split_head " (" treatment_name)
    as E.
  { unfold treatment_row.
    change (" (Rs. " +:+ ?t) with (" (" +:+ "Rs. " +:+ t). apply split_head_app. }
  split; [exact E|]. split.
  - intros H. rewrite E. apply split_head_none, H.
  - intros H Heq. rewrite E in Heq. pose proof (split_head_length _ H) as Hl.
    rewrite Heq in Hl. lia.
Qed.

Lemma X9_row_name_witness :
  Str.contains " (" "Peel (deep)" = true
  /\ split_head " (" (treatment_row "Peel (deep)" 500) <> "Peel (deep)"
  /\ split_head " (" (treatment_row "Peel" 500) = "Peel".
Proof.
  split; [reflexivity|]. split.
  - apply (proj2 (proj2 (X9_row_name "Peel (deep)" 500))). reflexivity.
  - apply (proj1 (proj2 (X9_row_name "Peel" 500))). reflexivity.
Defined.

(** ** Catalog and selection as the window keeps them *)

Lemma has_key_in {V} (k : string) (d : list (string * V)) :
  has_key k d = true <-> k ∈ map fst d.
Proof.
  unfold has_key. induction d as [|[k' v] d IH]; cbn [dict_get map fst].
  - split; [discriminate|]. intros H. apply elem_of_nil in H. destruct H.
  - rewrite elem_of_cons. destruct (String.eqb_spec k k') as [->|Hne].
    + split; auto.
    + rewrite IH. split; [auto|]. intros [?|?]; [contradiction|assumption].
Qed.

Lemma has_key_false {V} (k : string) (d : list (string * V)) :
  has_key k d = false <-> k ∉ map fst d.
Proof.
  rewrite <- has_key_in. destruct (has_key k d); split; congruence.
Qed.

Lemma in_list_in (x : string) (l : list string) : in_list x l = true <-> x ∈ l.
Proof.
  unfold in_list. induction l as [|y l IH]; cbn [existsb].
  - split; [discriminate|]. intros H. apply elem_of_nil in H. destruct H.
  - rewrite elem_of_cons, orb_true_iff, IH.
    destruct (String.eqb_spec x y); split; intros [?|?]; auto; discriminate.
Qed.

Lemma in_list_false (x : string) (l : list string) : in_list x l = false <-> x ∉ l.
Proof. rewrite <- in_list_in. destruct (in_list x l); split; congruence. Qed.



Lemma dict_del_keys {V} (k : string) (d : list (string * V)) :
  NoDup (map fst d) ->
  dict_del k d = List.filter (fun kv => negb (String.eqb k (fst kv))) d.
Proof.
  induction d as [|[k' v] d IH]; [reflexivity|].
  cbn [map fst dict_del List.filter]. intros Hnd. apply NoDup_cons in Hnd as [Hk Hnd].
  destruct (String.eqb_spec k k') as [->|Hne]; cbn [negb].
  - clear IH. symmetry. apply forallb_filter_id. apply forallb_forall.
    intros [k0 v0] Hin. cbn [fst]. apply negb_true_iff.
    destruct (String.eqb_spec k' k0) as [->|]; [|reflexivity].
    exfalso. apply Hk. apply list_elem_of_In. apply in_map_iff. exists (k0, v0). auto.
  - rewrite (IH Hnd). reflexivity.
Qed.

Lemma filter_keys_nodup {V} (f : string * V -> bool) (d : list (string * V)) :
  NoDup (map fst d) -> NoDup (map fst (List.filter f d)).
Proof.
  induction d as [|[k v] d IH]; [auto|].
  cbn [map fst List.filter]. intros Hnd. apply NoDup_cons in Hnd as [Hk Hnd].
  destruct (f (k, v)); [|auto]. cbn [map fst]. apply NoDup_cons. split; [|auto].
  intros Hin. apply Hk. apply list_elem_of_In in Hin. apply list_elem_of_In.
  apply in_map_iff in Hin as ([k0 v0] & E & Hin). apply filter_In in Hin as [Hin _].
  apply in_map_iff. exists (k0, v0). auto.
Qed.

Lemma remove_first_filter (x : string) (l : list string) :
  NoDup l -> remove_first x l = List.filter (fun y => negb (String.eqb x y)) l.
Proof.
  induction l as [|y l IH]; [reflexivity|].
  cbn [remove_first List.filter]. intros Hnd. apply NoDup_cons in Hnd as [Hy Hnd].
  destruct (String.eqb_spec x y) as [->|Hne]; cbn [negb].
  - symmetry. apply forallb_filter_id. apply forallb_forall. intros z Hin.
    apply negb_true_iff. destruct (String.eqb_spec y z) as [->|]; [|reflexivity].
    exfalso. apply Hy. apply list_elem_of_In. exact Hin.
  - rewrite (IH Hnd). reflexivity.
Qed.

Lemma filter_nodup (f : string -> bool) (l : list string) :
  NoDup l -> NoDup (List.filter f l).
Proof.
  induction l as [|y l IH]; [auto|].
  cbn [List.filter]. intros Hnd. apply NoDup_cons in Hnd as [Hy Hnd].
  destruct (f y); [|auto]. apply NoDup_cons. split; [|auto].
  intros Hin. apply Hy. apply list_elem_of_In in Hin. apply filter_In in Hin as [Hin _].
  apply list_elem_of_In. exact Hin.
Qed.


Lemma display_get (d : dict Z) (names : list string) (acc : dict Z) (n : string) :
  dict_get n (fold_left (fun vars t_name => dict_set t_name (default 0 (dict_get t_name d)) vars)
                        names acc)
  = if in_list n names then Some (catalog_price d n) else dict_get n acc.
Proof.
  revert acc. induction names as [|t names IH]; intros acc; [reflexivity|].
  cbn [fold_left]. rewrite IH. unfold in_list. cbn [existsb].
  destruct (existsb (String.eqb n) names); [rewrite orb_true_r; reflexivity|].
  rewrite orb_false_r. destruct (String.eqb_spec n t) as [->|Hne].
  - apply dict_get_set_eq.
  - apply dict_get_set_ne, Hne.
Qed.



Lemma remove_one_ok (rows : list string) (st : dict Z * list string) (idx : nat) :
  NoDup (map fst (fst st)) -> NoDup (snd st) ->
  remove_one rows st idx
  = (List.filter (fun kv => negb (String.eqb (listbox_get rows idx) (fst kv))) (fst st),
     List.filter (fun y => negb (String.eqb (listbox_get rows idx) y)) (snd st)).
Proof.
  intros Hd Hs. unfold remove_one. f_equal.
  - rewrite <- (dict_del_keys _ _ Hd). destruct (has_key _ _) eqn:E; [reflexivity|].
    rewrite (dict_del_keys _ _ Hd). symmetry. apply forallb_filter_id, forallb_forall.
    intros [k v] Hin. cbn [fst]. apply negb_true_iff.
    destruct (String.eqb_spec (listbox_get rows idx) k) as [Ek|]; [|reflexivity].
    apply has_key_false in E. exfalso. apply E. rewrite Ek.
    apply list_elem_of_In, in_map_iff. exists (k, v). auto.
  - rewrite <- (remove_first_filter _ _ Hs). destruct (in_list _ _) eqn:E; [reflexivity|].
    rewrite (remove_first_filter _ _ Hs). symmetry. apply forallb_filter_id, forallb_forall.
    intros y Hin. apply negb_true_iff.
    destruct (String.eqb_spec (listbox_get rows idx) y) as [Ey|]; [|reflexivity].
    apply in_list_false in E. exfalso. apply E. rewrite Ey. apply list_elem_of_In, Hin.
Qed.

Lemma filter_twice {A} (f g : A -> bool) (l : list A) :
  List.filter f (List.filter g l) = List.filter (fun x => g x && f x) l.
Proof.
  induction l as [|x l IH]; [reflexivity|].
  cbn [List.filter]. destruct (g x); cbn [andb List.filter]; [|exact IH].
  destruct (f x); rewrite IH; reflexivity.
Qed.

(** The loop of [on_remove]: what is left of the catalog and of the
    selection are the entries whose name is none of the chosen rows. *)
Lemma remove_loop (rows : list string) (idxs : list nat) (st : dict Z * list string) :
  NoDup (map fst (fst st)) -> NoDup (snd st) ->
  fold_left (remove_one rows) idxs st
  = (List.filter (fun kv => negb (in_list (fst kv) (map (listbox_get rows) idxs))) (fst st),
     List.filter (fun y => negb (in_list y (map (listbox_get rows) idxs))) (snd st)).
Proof.
  revert st. induction idxs as [|i idxs IH]; intros st Hd Hs.
  - cbn [fold_left map in_list existsb negb].
    rewrite !forallb_filter_id by (apply forallb_forall; reflexivity). destruct st; reflexivity.
  - cbn [fold_left]. rewrite (remove_one_ok _ _ _ Hd Hs).
    rewrite IH; cbn [fst snd]; [|apply filter_keys_nodup, Hd|apply filter_nodup, Hs].
    cbn [map]. unfold in_list. cbn [existsb].
    rewrite !filter_twice. f_equal.
    + apply filter_ext. intros [k v]. cbn [fst]. rewrite negb_orb.
      rewrite (String.eqb_sym k). reflexivity.
    + apply filter_ext. intros y. rewrite negb_orb.
      rewrite (String.eqb_sym y). reflexivity.
Qed.








(** X11.  Whenever the selection changes, the price fields are made
    anew from the catalog: after [add_selected_treatments] and after a
    removal, the field of each selected treatment holds the price of
    the catalog (0 for a name the catalog lacks), whatever prices had
    been typed into the fields before. *)
Theorem X11_prices_reset (m m' : MainWindow) (w w' : world) :
  (forall idxs, idxs <> [] -> add_selected_treatments idxs m w = (Ok m', w') ->
     forall n, dict_get n (treatment_price_vars (session m'))
               = if in_list n (selected_treatments (session m'))
                 then Some (catalog_price (treatments_dict (session m')) n) else None)
  /\ (forall idxs rows, idxs <> [] -> on_remove idxs rows m w = (Ok m', w') ->
        forall n, dict_get n (treatment_price_vars (session m'))
                  = if in_list n (selected_treatments (session m'))
                    then Some (catalog_price (treatments_dict (session m')) n) else None).
Proof.
  split.
  - intros [|i idxs] Hne; [contradiction|]. cbn [add_selected_treatments]. unfold ret.
    intros [= <- _] n. cbn [session]. unfold update_selected_treatments_display.
    cbn [treatment_price_vars selected_treatments treatments_dict set_price_vars set_selected].
    apply (display_get _ _ [] n).
  - intros [|i idxs] rows Hne; [contradiction|]. cbn [on_remove]. unfold bind.
    destruct (save_treatments _ _) as [[[]|e] w1]; [|discriminate].
    unfold emit, ret. intros [= <- _] n. unfold update_treatment_listbox. cbn [session].
    unfold update_selected_treatments_display.
    cbn [treatment_price_vars selected_treatments treatments_dict set_price_vars set_selected
         set_treatments].
    apply (display_get _ _ [] n).
Qed.

Lemma X11_prices_reset_witness :
  dict_get "Facial" (treatment_price_vars (session (type_price "Facial" 900 small_window)))
  = Some 900
  /\ forall m' w',
       add_selected_treatments [1%nat] (type_price "Facial" 900 small_window) empty_world
       = (Ok m', w') ->
       dict_get "Facial" (treatment_price_vars (session m')) = Some 1200.
Proof.
  split; [reflexivity|]. intros m' w' E.
  pose proof (proj1 (X11_prices_reset _ m' empty_world w') [1%nat] ltac:(discriminate) E
                "Facial") as H.
  rewrite H. injection E as <- _. reflexivity.
Defined.

(** ** Adding to the catalog *)

(** X12.  [add_new_treatment] gives up without a word when the name
    prompt is cancelled or its answer is blank, and when the price
    prompt is cancelled; it shows [Treatment already exists.] when the
    trimmed name is in the catalog, without asking for a price.  In
    each case the window and the files are as they were. *)
Theorem X12_add_refused (answer_name : option string) (answer_price : option Z)
    (m : MainWindow) (w : world) :
  let asked := add_event w ask_name in
  ((answer_name = None \/ exists typed, answer_name = Some typed /\ Str.strip typed = "") ->
     add_new_treatment answer_name answer_price m w = (Ok m, asked))
  /\ (forall typed,
        answer_name = Some typed -> Str.strip typed <> "" ->
        (has_key (Str.strip typed) (treatments_dict (session m)) = true ->
           add_new_treatment answer_name answer_price m w
           = (Ok m, add_event asked (ShowError "Error" [Lit "Treatment already exists."])))
        /\ (has_key (Str.strip typed) (treatments_dict (session m)) = false ->
            answer_price = None ->
              add_new_treatment answer_name answer_price m w
              = (Ok m, add_event asked (ask_price (Str.strip typed)))))
  /\ no_side_effect w asked
  /\ forall e, is_side_effect e = false -> no_side_effect w (add_event asked e).
Proof.
  cbv zeta. split; [|split; [|split]].
  - intros [->|(typed & -> & Hblank)]; [reflexivity|].
    unfold add_new_treatment, bind, emit, ret.
    destruct (String.eqb typed ""); [reflexivity|]. rewrite Hblank. reflexivity.
  - intros typed -> Hname.
    assert (String.eqb typed "" = false) as Ht.
    { destruct (String.eqb_spec typed "") as [->|]; [|reflexivity].
      exfalso. apply Hname. reflexivity. }
    assert (String.eqb (Str.strip typed) "" = false) as Hs.
    { destruct (String.eqb_spec (Str.strip typed) ""); [contradiction|reflexivity]. }
    unfold add_new_treatment, bind, emit, ret. rewrite Ht, Hs. split.
    + intros ->. reflexivity.
    + intros -> ->. reflexivity.
  - apply add_event_no_side_effect. reflexivity.
  - intros e He. split; [reflexivity|].
    cbn [add_event events]. rewrite !List.filter_app. cbn [List.filter is_side_effect].
    rewrite He. rewrite !app_nil_r. reflexivity.
Qed.

Lemma X12_add_refused_witness :
  add_new_treatment (Some " Facial ") (Some 5) small_window empty_world
  = (Ok small_window,
     add_event (add_event empty_world ask_name)
               (ShowError "Error" [Lit "Treatment already exists."])).
Proof.
  apply (proj1 (proj2 (X12_add_refused (Some " Facial ") (Some 5) small_window empty_world))
           " Facial " eq_refl).
  - discriminate.
  - reflexivity.
Defined.

Lemma load_treatments_env (w1 w2 : world) :
  files w1 = files w2 -> locked w1 = locked w2 -> load_treatments w1 = load_treatments w2.
Proof. intros Hf Hl. unfold load_treatments, read_json. rewrite Hf, Hl. reflexivity. Qed.

(** A catalog that was written is the catalog that is read. *)
Lemma saved_catalog_loads (d : dict Z) (w : world) :
  NoDup (map fst d) -> TREATMENTS_FILE ∉ locked w ->
  exists w', save_treatments d w = (Ok tt, w')
    /\ files w' = <[TREATMENTS_FILE := Dump.dumps (json_of_catalog d)]> (files w)
    /\ locked w' = locked w
    /\ events w' = events w ++ [FileWrite TREATMENTS_FILE]
    /\ load_treatments w' = Ok d.
Proof.
  intros Hnd Hfree. unfold save_treatments, write_file.
  destruct (decide (TREATMENTS_FILE ∈ locked w)); [contradiction|].
  eexists. split; [reflexivity|]. cbn [files locked events]. repeat split.
  unfold load_treatments, read_json. cbn [files locked]. rewrite lookup_insert_eq.
  destruct (decide (is_Some (Some _))) as [_|n0]; [|exfalso; apply n0; eauto].
  destruct (decide (TREATMENTS_FILE ∈ locked w)); [contradiction|].
  rewrite (loads_dumps _ (plain_catalog d Hnd)).
  cbn [rbind try_except catalog_of_json json_of_catalog].
  rewrite (int_items_ints d [] Hnd). reflexivity.
Qed.



(** ** Removing from the catalog *)

Lemma in_list_rev (x : string) (l : list string) : in_list x (rev l) = in_list x l.
Proof.
  unfold in_list. induction l as [|y l IH]; [reflexivity|].
  cbn [rev existsb]. rewrite existsb_app, IH. cbn [existsb]. rewrite orb_false_r.
  apply orb_comm.
Qed.

(** X14.  [remove_treatment] opens no window on an empty catalog.  The
    [Remove] button with nothing selected only warns; otherwise it
    takes the chosen names out of the catalog and out of the
    selection, whatever else was there keeping its order, ignores a
    chosen name the catalog lacks, shows the new catalog in the
    listbox, and writes it to the catalog file, which then reads back
    as the new catalog. *)
Theorem X14_remove_treatments (idxs : list nat) (rows : list string) (m : MainWindow)
    (w : world) :
  (treatments_dict (session m) = [] ->
     remove_treatment m w
     = (Ok None, add_event w (ShowInfo "Info" [Lit "No treatments available to remove."])))
  /\ (treatments_dict (session m) <> [] ->
      remove_treatment m w = (Ok (Some (map fst (treatments_dict (session m)))), w))
  /\ on_remove [] rows m w
     = (Ok m, add_event w (ShowWarning "No Selection"
                             [Lit "Please select at least one treatment to remove."]))
  /\ (window_ok m -> idxs <> [] ->
      let chosen := map (listbox_get rows) idxs in
      let d := List.filter (fun kv => negb (in_list (fst kv) chosen))
                           (treatments_dict (session m)) in
      let sel := List.filter (fun y => negb (in_list y chosen))
                             (selected_treatments (session m)) in
      exists m' w',
        on_remove idxs rows m w = (Ok m', w')
        /\ treatments_dict (session m') = d
        /\ selected_treatments (session m') = sel
        /\ treatment_listbox m' = catalog_rows d
        /\ (TREATMENTS_FILE ∉ locked w ->
            load_treatments w' = Ok d
            /\ events w' = events w ++ [FileWrite TREATMENTS_FILE; PopupDestroy])).
Proof.
  split; [|split; [|split]].
  - unfold remove_treatment. intros ->. reflexivity.
  - unfold remove_treatment. destruct (treatments_dict (session m)); [congruence|reflexivity].
  - reflexivity.
  - intros (Hcat & Hrows & Hsel & Hvars) Hne. cbv zeta.
    destruct idxs as [|i idxs]; [contradiction|]. cbn [on_remove].
    rewrite (remove_loop rows (rev (i :: idxs))
               (treatments_dict (session m), selected_treatments (session m)) Hcat Hsel).
    cbn [fst snd].
    assert (forall {A} (f : A -> string) (l : list A),
               List.filter (fun a => negb (in_list (f a) (map (listbox_get rows)
                                                           (rev (i :: idxs))))) l
               = List.filter (fun a => negb (in_list (f a) (map (listbox_get rows)
                                                             (i :: idxs)))) l) as Hrev.
    { intros A f l. apply filter_ext. intros a. rewrite map_rev, in_list_rev. reflexivity. }
    rewrite (Hrev _ fst), (Hrev _ (fun y => y)).
    set (d := List.filter _ (treatments_dict (session m))).
    set (sel := List.filter _ (selected_treatments (session m))).
    assert (NoDup (map fst d)) as Hd by apply filter_keys_nodup, Hcat.
    unfold bind. destruct (decide (TREATMENTS_FILE ∈ locked w)) as [Hlock|Hfree].
    + unfold save_treatments, write_file.
      destruct (decide (TREATMENTS_FILE ∈ locked w)); [|contradiction].
      cbn [emit ret]. eexists _, _. split; [reflexivity|].
      split; [reflexivity|]. split; [reflexivity|]. split; [reflexivity|].
      intros Hf. contradiction.
    + destruct (saved_catalog_loads d w Hd Hfree) as (w1 & -> & Hf1 & Hl1 & He1 & Hload).
      cbn [emit ret]. eexists _, _. split; [reflexivity|].
      split; [reflexivity|]. split; [reflexivity|]. split; [reflexivity|].
      intros _. split.
      * rewrite <- Hload. apply load_treatments_env; reflexivity.
      * cbn [events]. rewrite He1, <- app_assoc. reflexivity.
Qed.

Lemma X14_remove_treatments_witness :
  window_ok small_window
  /\ exists m' w',
       on_remove [0%nat] ["Facial"; "Peel"] small_window empty_world = (Ok m', w')
       /\ treatments_dict (session m') = [("Peel", 3500)]
       /\ selected_treatments (session m') = [].
Proof.
  assert (window_ok small_window) as Hok.
  { split; [|split; [reflexivity|split; [|reflexivity]]].
    - apply (bool_decide_eq_true_1 (NoDup (map fst small_catalog))). vm_compute. reflexivity.
    - apply NoDup_singleton. }
  split; [exact Hok|].
  destruct (proj2 (proj2 (proj2 (X14_remove_treatments [0%nat] ["Facial"; "Peel"]
                                   small_window empty_world))) Hok ltac:(discriminate))
    as (m' & w' & E & Hd & Hs & _).
  exists m', w'. split; [exact E|]. split; [rewrite Hd|rewrite Hs]; reflexivity.
Defined.

(** ** The catalog at launch *)

Lemma bad_catalog_loads_empty (w : world) : bad_catalog_file w -> load_treatments w = Ok [].
Proof.
  intros Hbad. unfold load_treatments, read_json.
  destruct (decide (is_Some (files w !! TREATMENTS_FILE))) as [Hs|Hn]; [|reflexivity].
  destruct (decide (TREATMENTS_FILE ∈ locked w)) as [Hl|Hl]; [reflexivity|].
  destruct Hbad as [Hm|[Hk|(text & Ht & Hbad)]].
  - rewrite Hm in Hs. destruct Hs as [? [=]].
  - contradiction.
  - rewrite Ht. destruct Hbad as [->|(data & -> & Hbad)]; [reflexivity|].
    cbn [rbind]. destruct Hbad as [Hno|(d & k & v & -> & Hin & Hv)].
    + destruct data; try reflexivity. destruct (Hno d eq_refl).
    + cbn [catalog_of_json]. destruct (int_items_raises d k v [] Hin Hv) as [e ->].
      reflexivity.
Qed.

(** X15.  At launch a catalog file that is missing, does not parse,
    holds something else than an object or holds a price [int()]
    refuses is replaced by the empty catalog [{}]: what the file held
    is lost, and the session starts with no treatment. *)
Theorem X15_bad_catalog_replaced (w : world) :
  bad_catalog_file w -> TREATMENTS_FILE ∉ locked w ->
  exists app w',
    init_app w = (Ok app, w')
    /\ treatments_dict app = []
    /\ files w' = <[TREATMENTS_FILE := "{}"]> (files w)
    /\ events w' = events w ++ [FileWrite TREATMENTS_FILE].
Proof.
  intros Hbad Hfree. unfold init_app, bind, reads, ret.
  rewrite (bad_catalog_loads_empty _ Hbad).
  unfold save_treatments, write_file.
  destruct (decide (TREATMENTS_FILE ∈ locked w)); [contradiction|].
  eexists _, _. split; [reflexivity|]. repeat split.
Qed.

Lemma X15_bad_catalog_replaced_witness :
  bad_catalog_file (catalog_world null_price_text)
  /\ exists app w',
       init_app (catalog_world null_price_text) = (Ok app, w')
       /\ files w' !! TREATMENTS_FILE = Some "{}".
Proof.
  assert (bad_catalog_file (catalog_world null_price_text)) as Hbad.
  { right. right. exists null_price_text. split; [reflexivity|]. right.
    exists (JObj [("A", JNull)]). split; [vm_compute; reflexivity|]. right.
    exists [("A", JNull)], "A", JNull. split; [reflexivity|]. split; [left; reflexivity|].
    exists TypeError. reflexivity. }
  split; [exact Hbad|].
  destruct (X15_bad_catalog_replaced _ Hbad) as (app & w' & E & _ & Hf & _).
  { change (locked (catalog_world null_price_text)) with (∅ : gset string).
    apply not_elem_of_empty. }
  exists app, w'. split; [exact E|]. rewrite Hf. apply lookup_insert_eq.
Defined.

(** ** Booking *)

Lemma load_appointments_env (w1 w2 : world) :
  files w1 = files w2 -> locked w1 = locked w2 -> load_appointments w1 = load_appointments w2.
Proof. intros Hf Hl. unfold load_appointments, read_json. rewrite Hf, Hl. reflexivity. Qed.

(** An appointment list that was written is the list that is read. *)
Lemma written_appointments_load (v : json) (w w' : world) :
  plain v = true -> APPOINTMENTS_FILE ∉ locked w ->
  files w' = <[APPOINTMENTS_FILE := Dump.dumps v]> (files w) -> locked w' = locked w ->
  load_appointments w' = Ok v.
Proof.
  intros Hp Hfree Hf Hl. unfold load_appointments, read_json. rewrite Hf, Hl, lookup_insert_eq.
  destruct (decide (is_Some (Some _))) as [_|n0]; [|exfalso; apply n0; eauto].
  destruct (decide (APPOINTMENTS_FILE ∈ locked w)); [contradiction|].
  rewrite (loads_dumps _ Hp). reflexivity.
Qed.

Lemma plain_snoc (l : list json) (x : json) :
  plain (JArr l) = true -> plain x = true -> plain (JArr (l ++ [x])) = true.
Proof.
  cbn [plain]. intros Hl Hx. rewrite forallb_app, Hl. cbn [forallb]. rewrite Hx. reflexivity.
Qed.

(** X16.  A booking whose three fields are filled and whose date reads
    as today or a later day puts the new record after the stored ones
    and rewrites the file: the stored records keep their order, and
    the file then reads back as the longer list.  When what the file
    holds is no list, the booking raises [AttributeError] and nothing
    is written. *)
Theorem X16_booking_appends (w : world) (name phone date_str : string) (stored : json) :
  ~ booking_invalid w name phone date_str ->
  load_appointments w = Ok stored ->
  (forall l, stored = JArr l -> APPOINTMENTS_FILE ∉ locked w ->
     exists w',
       save_appointment name phone date_str w = (Ok tt, w')
       /\ files w' = written w (l ++ [booked_record name phone date_str])
       /\ events w' = events w ++ booked_events name date_str
       /\ (plain (JArr l) = true ->
           load_appointments w' = Ok (JArr (l ++ [booked_record name phone date_str]))))
  /\ ((forall l, stored <> JArr l) ->
      save_appointment name phone date_str w = (Raise AttributeError, w)).
Proof.
  intros Hvalid Hload.
  assert (String.eqb (Str.strip name) "" || String.eqb (Str.strip phone) ""
          || String.eqb (Str.strip date_str) "" = false) as Hblank.
  { apply orb_false_iff. split; [apply orb_false_iff; split|].
    - destruct (String.eqb_spec (Str.strip name) ""); [|reflexivity].
      exfalso. apply Hvalid. left. assumption.
    - destruct (String.eqb_spec (Str.strip phone) ""); [|reflexivity].
      exfalso. apply Hvalid. right. left. assumption.
    - destruct (String.eqb_spec (Str.strip date_str) ""); [|reflexivity].
      exfalso. apply Hvalid. right. right. left. assumption. }
  destruct (strptime (Str.strip date_str)) as [d|] eqn:Ed;
    [|exfalso; apply Hvalid; right; right; right; left; exact Ed].
  destruct (date_ltb d (dt_date (clock w))) eqn:Epast;
    [exfalso; apply Hvalid; right; right; right; right; eauto|].
  unfold save_appointment. rewrite Hblank.
  rewrite (bind_ok today _ w w (dt_date (clock w))) by reflexivity.
  rewrite Ed, Epast.
  rewrite (bind_ok (reads load_appointments) _ w w stored)
    by (unfold reads; rewrite Hload; reflexivity).
  split.
  - intros l -> Hfree.
    rewrite (bind_ok (lift _) _ w w (JArr (l ++ [booked_record name phone date_str])))
      by reflexivity.
    destruct (save_appointments_writes (JArr (l ++ [booked_record name phone date_str])) w Hfree)
      as (w1 & Es & Hf & Hl & _).
    rewrite (bind_ok _ _ _ _ _ Es).
    assert (events w1 = events w ++ [FileWrite APPOINTMENTS_FILE]) as He.
    { revert Es. unfold save_appointments, write_file.
      destruct (decide _); [contradiction|]. intros [= <-]. reflexivity. }
    unfold bind, emit. eexists. split; [reflexivity|]. cbn [files events].
    split; [exact Hf|]. split.
    + rewrite He, <- !app_assoc. reflexivity.
    + intros Hp. apply (written_appointments_load _ w).
      * apply plain_snoc; [exact Hp|reflexivity].
      * exact Hfree.
      * exact Hf.
      * exact Hl.
  - intros Hnot. apply bind_raise. unfold lift.
    destruct stored; try reflexivity. destruct (Hnot l eq_refl).
Qed.

Lemma X16_booking_appends_witness :
  ~ booking_invalid ann_world "Bob" " 0311 " "2999-02-01"
  /\ exists w',
       save_appointment "Bob" " 0311 " "2999-02-01" ann_world = (Ok tt, w')
       /\ load_appointments w'
          = Ok (JArr [JObj ann_record; booked_record "Bob" " 0311 " "2999-02-01"]).
Proof.
  assert (~ booking_invalid ann_world "Bob" " 0311 " "2999-02-01") as Hv.
  { intros [H|[H|[H|[H|(d & Hd & Hp)]]]]; try discriminate H.
    vm_compute in Hd. injection Hd as <-. vm_compute in Hp. discriminate Hp. }
  split; [exact Hv|].
  assert (load_appointments ann_world = Ok (JArr [JObj ann_record])) as Hl
    by (vm_compute; reflexivity).
  destruct (proj1 (X16_booking_appends ann_world "Bob" " 0311 " "2999-02-01" _ Hv Hl)
              [JObj ann_record] eq_refl) as (w' & E & _ & _ & Hload).
  { change (locked ann_world) with (∅ : gset string). apply not_elem_of_empty. }
  exists w'. split; [exact E|]. apply Hload. vm_compute. reflexivity.
Defined.

(** ** Deleting *)

Lemma delete_first_found (target : pydict) (pre : list pydict) (r : pydict)
    (post : list pydict) :
  Forall (fun x => same_triple x target = false) pre ->
  same_triple r target = true ->
  delete_first target (map JObj (pre ++ r :: post)) = Ok (map JObj (pre ++ post)).
Proof.
  intros Hpre Hr. induction Hpre as [|x pre Hx _ IH]; cbn [app map delete_first].
  - rewrite Hr. reflexivity.
  - rewrite Hx, IH. reflexivity.
Qed.

Lemma delete_first_absent (target : pydict) (recs : list pydict) :
  Forall (fun x => same_triple x target = false) recs ->
  delete_first target (map JObj recs) = Ok (map JObj recs).
Proof.
  intros H. induction H as [|x recs Hx _ IH]; cbn [map delete_first]; [reflexivity|].
  rewrite Hx, IH. reflexivity.
Qed.


(** The file after the [Delete Selected] button, whatever comes after
    the write. *)
Lemma delete_selected_store (w : world) (index : nat) (rest : list nat) (p : popup)
    (a : nat) (target : pydict) (saved saved' : json) :
  delete_applies w p index a target ->
  load_appointments w = Ok saved ->
  delete_from target saved = Ok saved' ->
  files (snd (delete_selected (index :: rest) p w))
  = <[APPOINTMENTS_FILE := Dump.dumps saved']> (files w).
Proof.
  intros (rows & Hc & Hr & Hobj & Hfree) Hload Hdel. unfold delete_selected.
  rewrite (bind_ok _ _ _ _ _ Hc). rewrite Hr.
  rewrite (bind_ok (deref a) _ w w target) by (unfold deref; rewrite Hobj; reflexivity).
  rewrite (bind_ok (reads load_appointments) _ w w saved)
    by (unfold reads; rewrite Hload; reflexivity).
  rewrite (bind_ok (lift (delete_from target saved)) _ w w saved')
    by (unfold lift; rewrite Hdel; reflexivity).
  destruct (save_appointments_writes saved' w Hfree) as (w1 & Es & Hf & _).
  rewrite (bind_ok _ _ _ _ _ Es).
  match goal with |- files (snd (?m w1)) = _ =>
    assert (preserves_files m) as Hpf end.
  { pf_steps. }
  rewrite (proj1 (Hpf w1)). exact Hf.
Qed.

(** X17.  [Delete Selected] rewrites the file without the first stored
    record whose name, phone and date all equal those of the selected
    row; the records before and after it stay, in their order.  When
    no stored record has the three fields, the file is rewritten with
    the list as it was. *)
Theorem X17_delete_first_match (w : world) (p : popup) (index : nat) (rest : list nat)
    (a : nat) (target : pydict) :
  delete_applies w p index a target ->
  (forall pre r post,
      load_appointments w = Ok (JArr (map JObj (pre ++ r :: post))) ->
      Forall (fun x => same_triple x target = false) pre ->
      same_triple r target = true ->
      files (snd (delete_selected (index :: rest) p w)) = written w (map JObj (pre ++ post)))
  /\ (forall recs,
        load_appointments w = Ok (JArr (map JObj recs)) ->
        Forall (fun x => same_triple x target = false) recs ->
        files (snd (delete_selected (index :: rest) p w)) = written w (map JObj recs)).
Proof.
  intros Happ. split.
  - intros pre r post Hload Hpre Hr.
    apply (delete_selected_store w index rest p a target _ _ Happ Hload).
    cbn [delete_from]. rewrite (delete_first_found _ _ _ _ Hpre Hr). reflexivity.
  - intros recs Hload Hnone.
    apply (delete_selected_store w index rest p a target _ _ Happ Hload).
    cbn [delete_from]. rewrite (delete_first_absent _ _ Hnone). reflexivity.
Qed.

Lemma two_ann_delete_applies : delete_applies two_ann_world two_ann_popup 1 1 ann_later.
Proof.
  exists [0%nat; 1%nat]. split; [vm_compute; reflexivity|]. split; [reflexivity|].
  split; [reflexivity|].
  change (locked two_ann_world) with (∅ : gset string). apply not_elem_of_empty.
Qed.

Lemma X17_delete_first_match_witness :
  delete_applies two_ann_world two_ann_popup 1 1 ann_later
  /\ files (snd (delete_selected [1%nat] two_ann_popup two_ann_world))
     = written two_ann_world [JObj ann_record].
Proof.
  split; [exact two_ann_delete_applies|].
  apply (proj1 (X17_delete_first_match _ _ 1 [] 1 ann_later two_ann_delete_applies)
           [ann_record] ann_later []).
  - vm_compute. reflexivity.
  - constructor; [reflexivity|constructor].
  - reflexivity.
Defined.

(** ** The reminder at launch *)

Lemma py_eq_str (v : json) (s : string) : py_eq v (JStr s) = true <-> v = JStr s.
Proof.
  destruct v as [|b|z|x|t|l|d]; cbn [py_eq as_num]; split; intros H; try discriminate H.
  - apply String.eqb_eq in H. subst. reflexivity.
  - injection H as ->. apply String.eqb_refl.
Qed.

Lemma due_on_records (s : string) (recs : list pydict) :
  due_on s (map JObj recs) = Ok (map JObj (List.filter (due_tomorrow s) recs)).
Proof.
  induction recs as [|r recs IH]; [reflexivity|].
  cbn [map due_on elem_get rbind List.filter]. rewrite IH. cbn [rbind].
  change (py_eq (get_or_none "date" r) (JStr s)) with (due_tomorrow s r).
  destruct (due_tomorrow s r); reflexivity.
Qed.

Lemma reminder_lines_records (due : list pydict) :
  reminder_lines (map JObj due) = Ok (flat_map reminder_line due).
Proof.
  induction due as [|r due IH]; [reflexivity|].
  cbn [map reminder_lines elem_get rbind flat_map]. rewrite IH. reflexivity.
Qed.

(** X18.  At launch the reminder lists, in the order of the file, the
    stored records whose date is, character for character, the text
    [YYYY-MM-DD] of the day after today, one line for each; with no
    such record nothing is shown. *)
Theorem X18_reminder (w : world) (recs : list pydict) (tomorrow : date) :
  load_appointments w = Ok (JArr (map JObj recs)) ->
  next_day (dt_date (clock w)) = Ok tomorrow ->
  let due := List.filter (due_tomorrow (strftime_date tomorrow)) recs in
  check_appointments_reminder w
  = (Ok tt, match due with [] => w | _ => add_event w (reminder due) end)
  /\ forall r, In r due
               <-> In r recs /\ get_or_none "date" r = JStr (strftime_date tomorrow).
Proof.
  intros Hload Hnext. cbv zeta. split.
  - unfold check_appointments_reminder.
    rewrite (bind_ok (reads load_appointments) _ w w _)
      by (unfold reads; rewrite Hload; reflexivity).
    rewrite (bind_ok today _ w w (dt_date (clock w))) by reflexivity.
    rewrite (bind_ok (lift (next_day _)) _ w w tomorrow)
      by (unfold lift; rewrite Hnext; reflexivity).
    rewrite (bind_ok (lift (iter_json _)) _ w w (map JObj recs)) by reflexivity.
    rewrite (bind_ok (lift (due_on _ _)) _ w w _)
      by (unfold lift; rewrite due_on_records; reflexivity).
    destruct (List.filter _ recs) as [|r due] eqn:Ed; cbn [map]; [reflexivity|].
    change (JObj r :: map JObj due) with (map JObj (r :: due)).
    rewrite (bind_ok (lift (reminder_lines _)) _ w w _)
      by (unfold lift; rewrite reminder_lines_records; reflexivity).
    reflexivity.
  - intros r. rewrite filter_In. unfold due_tomorrow. rewrite py_eq_str. reflexivity.
Qed.

Lemma X18_reminder_witness :
  load_appointments (stored_world (JArr [JObj loose_record; JObj due_record]))
  = Ok (JArr (map JObj [loose_record; due_record]))
  /\ check_appointments_reminder (stored_world (JArr [JObj loose_record; JObj due_record]))
     = (Ok tt, add_event (stored_world (JArr [JObj loose_record; JObj due_record]))
                         (reminder [due_record])).
Proof.
  assert (load_appointments (stored_world (JArr [JObj loose_record; JObj due_record]))
          = Ok (JArr (map JObj [loose_record; due_record]))) as Hl
    by (vm_compute; reflexivity).
  split; [exact Hl|].
  exact (proj1 (X18_reminder _ [loose_record; due_record] (mkdate 2026 3 6) Hl eq_refl)).
Defined.

Lemma due_on_raises (s : string) (l : list json) :
  Exists (fun x => forall d, x <> JObj d) l -> due_on s l = Raise AttributeError.
Proof.
  induction l as [|x l IH]; intros H; [inversion H|].
  cbn [due_on]. destruct x; try reflexivity.
  cbn [elem_get rbind]. rewrite IH; [reflexivity|].
  inversion H as [? ? Hx|? ? Hl]; subst; [destruct (Hx d eq_refl)|exact Hl].
Qed.

(** What [__init__] leaves of the world before the reminder. *)
Lemma init_app_frame (w : world) :
  exists app w1, init_app w = (Ok app, w1)
    /\ load_appointments w1 = load_appointments w /\ clock w1 = clock w.
Proof.
  unfold init_app, bind, reads, ret.
  destruct (load_treatments_total w) as [loaded ->].
  destruct loaded as [|kv loaded]; [|eexists _, _; split; [reflexivity|auto]].
  unfold save_treatments, write_file. destruct (decide _).
  - eexists _, _. split; [reflexivity|]. split; [|reflexivity].
    apply load_appointments_env; reflexivity.
  - eexists _, _. split; [reflexivity|]. split; [|reflexivity].
    unfold load_appointments, read_json. cbn [files locked].
    rewrite lookup_insert_ne by discriminate. reflexivity.
Qed.

(** X19.  When the appointment file parses but does not hold a list of
    records (one element is no object, or the whole is an object or a
    text that is not empty, a number, a truth value or [null]), the
    reminder raises [AttributeError] or [TypeError] and [__init__]
    with it: the application does not start, though loading the file
    did not fail. *)
Theorem X19_launch_fails (w : world) (v : json) (tomorrow : date) :
  load_appointments w = Ok v ->
  not_records v ->
  next_day (dt_date (clock w)) = Ok tomorrow ->
  exists e,
    check_appointments_reminder w = (Raise e, w)
    /\ (exists w', start_app w = (Raise e, w'))
    /\ (e = AttributeError \/ e = TypeError).
Proof.
  intros Hload Hbad Hnext.
  set (e := match v with JArr _ | JObj _ | JStr _ => AttributeError | _ => TypeError end).
  assert (forall w0, load_appointments w0 = Ok v -> clock w0 = clock w ->
            check_appointments_reminder w0 = (Raise e, w0)) as Hrem.
  { intros w0 Hl Hc. unfold check_appointments_reminder.
    rewrite (bind_ok (reads load_appointments) _ w0 w0 _)
      by (unfold reads; rewrite Hl; reflexivity).
    rewrite (bind_ok today _ w0 w0 (dt_date (clock w0))) by reflexivity.
    rewrite (bind_ok (lift (next_day _)) _ w0 w0 tomorrow)
      by (unfold lift; rewrite Hc, Hnext; reflexivity).
    destruct v; cbn [not_records] in Hbad; try reflexivity.
    - rewrite (bind_ok (lift (iter_json _)) _ w0 w0 _) by reflexivity.
      apply bind_raise. unfold lift.
      destruct s; [congruence|reflexivity].
    - rewrite (bind_ok (lift (iter_json _)) _ w0 w0 l) by reflexivity.
      apply bind_raise. unfold lift. rewrite (due_on_raises _ _ Hbad). reflexivity.
    - rewrite (bind_ok (lift (iter_json _)) _ w0 w0 _) by reflexivity.
      apply bind_raise. unfold lift.
      destruct d as [|[k x] d]; [congruence|reflexivity]. }
  exists e. split; [exact (Hrem w Hload eq_refl)|]. split.
  - destruct (init_app_frame w) as (app & w1 & Hinit & Hl1 & Hc1).
    exists w1. unfold start_app. rewrite (bind_ok _ _ _ _ _ Hinit).
    apply bind_raise. apply Hrem; congruence.
  - unfold e. destruct v; auto.
Qed.

Lemma X19_launch_fails_witness :
  not_records (JArr [JInt 1])
  /\ exists w', start_app (stored_world (JArr [JInt 1])) = (Raise AttributeError, w').
Proof.
  assert (not_records (JArr [JInt 1])) as Hbad by (left; discriminate).
  split; [exact Hbad|].
  destruct (X19_launch_fails (stored_world (JArr [JInt 1])) (JArr [JInt 1]) (mkdate 2026 3 6))
    as (e & He & (w' & Hs) & _); [vm_compute; reflexivity|exact Hbad|reflexivity|].
  exists w'. rewrite Hs. f_equal. f_equal.
  unfold check_appointments_reminder in He.
  rewrite (bind_ok (reads load_appointments) _ _ _ (JArr [JInt 1])) in He
    by (vm_compute; reflexivity).
  injection He as <-. reflexivity.
Defined.

(** ** The upcoming appointments, all of them *)

Lemma alloc_elems_records (recs : list pydict) (w : world) :
  alloc_elems (map JObj recs) w
  = (Ok (map ORef (seq (length (heap w)) (length recs))), with_heap w (heap w ++ recs)).
Proof.
  revert w. induction recs as [|r recs IH]; intros w.
  - cbn [map alloc_elems length seq]. unfold ret, with_heap. rewrite app_nil_r.
    destruct w; reflexivity.
  - cbn [map alloc_elems length seq]. unfold bind at 1. cbn [alloc].
    unfold bind at 1. rewrite IH. cbn [heap]. rewrite length_app. cbn [length].
    replace (length (heap w) + 1)%nat with (S (length (heap w))) by lia.
    unfold ret, with_heap. cbn [files locked clock events heap].
    rewrite <- app_assoc. reflexivity.
Qed.

Lemma keep_upcoming_record (t : date) (a : nat) (r : pydict) (w : world) :
  heap w !! a = Some r ->
  keep_upcoming t (ORef a) w
  = if is_upcoming t r then (Ok (Some (length (heap w))), with_heap w (heap w ++ [r]))
    else (Ok None, w).
Proof.
  intros Ha. unfold keep_upcoming, is_upcoming.
  rewrite (bind_ok (deref a) _ w w r) by (unfold deref; rewrite Ha; reflexivity).
  destruct (get_or_empty "date" r); try reflexivity.
  destruct (strptime s); [|reflexivity].
  destruct (date_geb d t); reflexivity.
Qed.

Lemma collect_upcoming_records (t : date) (recs : list pydict) (n : nat) (w : world) :
  (forall i r, recs !! i = Some r -> heap w !! (n + i)%nat = Some r) ->
  collect_upcoming t (map ORef (seq n (length recs))) w
  = (Ok (seq (length (heap w)) (length (List.filter (is_upcoming t) recs))),
     with_heap w (heap w ++ List.filter (is_upcoming t) recs)).
Proof.
  revert n w. induction recs as [|r recs IH]; intros n w Hat.
  - cbn [length seq map collect_upcoming List.filter]. unfold ret, with_heap.
    rewrite app_nil_r. destruct w; reflexivity.
  - cbn [length seq map collect_upcoming List.filter].
    pose proof (Hat 0%nat r eq_refl) as H0. rewrite Nat.add_0_r in H0.
    unfold bind at 1. rewrite (keep_upcoming_record t n r w H0).
    assert (forall w', (forall i x, heap w !! i = Some x -> heap w' !! i = Some x) ->
              forall i x, recs !! i = Some x -> heap w' !! (S n + i)%nat = Some x) as Hnext.
    { intros w' Hext i x Hi. apply Hext. specialize (Hat (S i) x Hi).
      replace (S n + i)%nat with (n + S i)%nat by lia. exact Hat. }
    destruct (is_upcoming t r).
    + unfold bind at 1. rewrite IH.
      * cbn [heap with_heap length]. rewrite length_app. cbn [length].
        replace (length (heap w) + 1)%nat with (S (length (heap w))) by lia.
        unfold ret, with_heap. cbn [files locked clock events heap seq].
        rewrite <- app_assoc. reflexivity.
      * apply Hnext. intros i x Hi. cbn [heap with_heap].
        apply lookup_app_l_Some. exact Hi.
    + unfold bind at 1. rewrite IH by (apply Hnext; auto). reflexivity.
Qed.

(** The first part of [view_appointments] on a list of records. *)
Lemma build_upcoming_records (recs : list pydict) (w : world) :
  let ups := List.filter (is_upcoming (dt_date (clock w))) recs in
  let w1 := with_heap w (heap w ++ recs ++ ups) in
  build_upcoming (JArr (map JObj recs)) w
  = (Ok (map ORef (seq (length (heap w)) (length recs)),
         sort_by (date_key (heap w1))
                 (seq (length (heap w) + length recs) (length ups))), w1).
Proof.
  cbv zeta. unfold build_upcoming.
  rewrite (bind_ok today _ w w (dt_date (clock w))) by reflexivity.
  rewrite (bind_ok (lift (iter_json _)) _ w w (map JObj recs)) by reflexivity.
  rewrite (bind_ok _ _ _ _ _ (alloc_elems_records recs w)).
  assert (forall i r, recs !! i = Some r ->
            heap (with_heap w (heap w ++ recs)) !! (length (heap w) + i)%nat = Some r) as Hat.
  { intros i r Hi. cbn [heap with_heap]. rewrite lookup_app_r by lia.
    replace (length (heap w) + i - length (heap w))%nat with i by lia. exact Hi. }
  rewrite (bind_ok _ _ _ _ _
             (collect_upcoming_records (dt_date (clock w)) recs (length (heap w))
                (with_heap w (heap w ++ recs)) Hat)).
  cbn [heap with_heap files locked clock events]. rewrite length_app, <- app_assoc.
  reflexivity.
Qed.

(** X20.  [View Appointments] on a stored list of records: with no
    record it says [No appointments found.]; when no date reads as
    today or later it says [No upcoming appointments.]; otherwise the
    window shows a copy of every stored record whose date reads as
    today or later, of these only, each as often as it is stored, in
    the order of their date texts. *)
Theorem X20_view_lists_upcoming (w : world) (recs : list pydict) :
  load_appointments w = Ok (JArr (map JObj recs)) ->
  let ups := List.filter (is_upcoming (dt_date (clock w))) recs in
  let w1 := with_heap w (heap w ++ recs ++ ups) in
  (recs = [] ->
     view_appointments w
     = (Ok None, add_event w (ShowInfo "Appointments" [Lit "No appointments found."])))
  /\ (recs <> [] -> ups = [] ->
      view_appointments w
      = (Ok None, add_event w1 (ShowInfo "Appointments" [Lit "No upcoming appointments."])))
  /\ (ups <> [] ->
      exists pop,
        view_appointments w = (Ok (Some pop), w1)
        /\ listbox pop = upcoming pop /\ search_var pop = ""
        /\ upcoming pop = sort_by (date_key (heap w1))
                                  (seq (length (heap w) + length recs) (length ups))
        /\ Permutation (map (obj w1) (upcoming pop)) ups).
Proof.
  intros Hload. cbv zeta. unfold view_appointments.
  rewrite (bind_ok (reads load_appointments) _ w w _)
    by (unfold reads; rewrite Hload; reflexivity).
  split; [|split].
  - intros ->. reflexivity.
  - intros Hne Hups. destruct recs as [|r recs]; [congruence|].
    cbn [map truthy negb].
    rewrite (bind_ok _ _ _ _ _ (build_upcoming_records (r :: recs) w)).
    cbn [snd]. rewrite Hups. reflexivity.
  - intros Hups. destruct recs as [|r recs]; [cbn in Hups; congruence|].
    cbn [map truthy negb].
    rewrite (bind_ok _ _ _ _ _ (build_upcoming_records (r :: recs) w)).
    cbn [snd].
    set (ups := List.filter _ (r :: recs)) in *.
    set (w1 := with_heap w (heap w ++ (r :: recs) ++ ups)).
    set (up := sort_by (date_key (heap w1)) _).
    assert (Permutation (map (obj w1) up) ups) as Hperm.
    { unfold up. rewrite (sort_by_perm (date_key (heap w1)) _).
      assert (forall (l : list pydict) (h : list pydict),
                 map (fun a => default [] ((h ++ l) !! a)) (seq (length h) (length l)) = l)
        as Hseq.
      { intros l. induction l as [|x l IHl]; intros h; [reflexivity|].
        cbn [length seq map]. rewrite lookup_app_r by lia. rewrite Nat.sub_diag.
        cbn [lookup list_lookup default]. f_equal.
        specialize (IHl (h ++ [x])). rewrite length_app in IHl. cbn [length] in IHl.
        replace (length h + 1)%nat with (S (length h)) in IHl by lia.
        rewrite <- app_assoc in IHl. exact IHl. }
      unfold obj, w1. cbn [heap with_heap]. rewrite app_assoc, <- length_app.
      rewrite Hseq. reflexivity. }
    destruct up as [|c up'] eqn:Eup.
    + exfalso. apply Hups. apply Permutation_nil. exact Hperm.
    + exists (mkPopup (c :: up') "" (c :: up')). unfold ret.
      split; [reflexivity|]. split; [reflexivity|]. split; [reflexivity|].
      split; [reflexivity|]. exact Hperm.
Qed.

Lemma X20_view_lists_upcoming_witness :
  load_appointments two_ann_world = Ok (JArr (map JObj [ann_record; ann_later]))
  /\ exists pop w',
       view_appointments two_ann_world = (Ok (Some pop), w')
       /\ Permutation (map (obj w') (upcoming pop)) [ann_record; ann_later].
Proof.
  assert (load_appointments two_ann_world = Ok (JArr (map JObj [ann_record; ann_later])))
    as Hl by (vm_compute; reflexivity).
  split; [exact Hl|].
  destruct (proj2 (proj2 (X20_view_lists_upcoming two_ann_world [ann_record; ann_later] Hl)))
    as (pop & Hv & _ & _ & _ & Hp); [discriminate|].
  exists pop. eexists. split; [exact Hv|exact Hp].
Defined.

(** ** Equal dates keep the order of the file *)

Section Stable.
Context {A : Type} (key : A -> string).

Lemma insert_by_stable (k : string) (x : A) (l : list A) :
  List.filter (fun y => String.eqb (key y) k) (insert_by key x l)
  = List.filter (fun y => String.eqb (key y) k) (x :: l).
Proof.
  induction l as [|y l IH]; [reflexivity|].
  cbn [insert_by]. destruct (String.ltb (key y) (key x)) eqn:E; [|reflexivity].
  assert (key y <> key x) as Hne.
  { intros Heq. rewrite Heq in E. unfold String.ltb in E.
    pose proof (String.compare_antisym (key x) (key x)) as Ha.
    destruct (String.compare (key x) (key x)); try discriminate E. discriminate Ha. }
  cbn [List.filter] in *. rewrite IH.
  destruct (String.eqb_spec (key y) k) as [Ey|]; [|reflexivity].
  destruct (String.eqb_spec (key x) k) as [Ex|]; [congruence|reflexivity].
Qed.

Lemma sort_by_stable (k : string) (l : list A) :
  List.filter (fun y => String.eqb (key y) k) (sort_by key l)
  = List.filter (fun y => String.eqb (key y) k) l.
Proof.
  induction l as [|x l IH]; [reflexivity|].
  cbn [sort_by]. rewrite insert_by_stable. cbn [List.filter]. rewrite IH. reflexivity.
Qed.

End Stable.

Lemma filter_map_comm {A B} (f : A -> B) (g : B -> bool) (l : list A) :
  List.filter g (map f l) = map f (List.filter (fun a => g (f a)) l).
Proof.
  induction l as [|a l IH]; [reflexivity|].
  cbn [map List.filter]. rewrite IH. destruct (g (f a)); reflexivity.
Qed.

Lemma heap_seq (l h : list pydict) :
  map (fun a => default [] ((h ++ l) !! a)) (seq (length h) (length l)) = l.
Proof.
  revert h. induction l as [|x l IHl]; intros h; [reflexivity|].
  cbn [length seq map]. rewrite lookup_app_r by lia. rewrite Nat.sub_diag.
  cbn [lookup list_lookup default]. f_equal.
  specialize (IHl (h ++ [x])). rewrite length_app in IHl. cbn [length] in IHl.
  replace (length h + 1)%nat with (S (length h)) in IHl by lia.
  rewrite <- app_assoc in IHl. exact IHl.
Qed.

(** X21.  In the window of upcoming appointments the records that
    carry the same date text stand in the order in which the file has
    them: sorting by the date moves no record past another of its own
    date. *)
Theorem X21_same_date_file_order (w w' : world) (recs : list pydict) (pop : popup)
    (s : string) :
  load_appointments w = Ok (JArr (map JObj recs)) ->
  view_appointments w = (Ok (Some pop), w') ->
  List.filter (fun r => String.eqb (date_text r) s) (map (obj w') (upcoming pop))
  = List.filter (fun r => String.eqb (date_text r) s)
                (List.filter (is_upcoming (dt_date (clock w))) recs).
Proof.
  intros Hload Hview. unfold view_appointments in Hview.
  rewrite (bind_ok (reads load_appointments) _ w w _) in Hview
    by (unfold reads; rewrite Hload; reflexivity).
  destruct recs as [|r recs]; [discriminate Hview|].
  cbn [map truthy negb] in Hview.
  rewrite (bind_ok _ _ _ _ _ (build_upcoming_records (r :: recs) w)) in Hview.
  cbn [snd] in Hview.
  set (ups := List.filter _ (r :: recs)) in *.
  set (w1 := with_heap w (heap w ++ (r :: recs) ++ ups)) in *.
  set (L := seq (length (heap w) + length (r :: recs)) (length ups)) in *.
  assert (upcoming pop = sort_by (date_key (heap w1)) L /\ w' = w1) as [-> ->].
  { destruct (sort_by (date_key (heap w1)) L) as [|c up'].
    - revert Hview. unfold bind, emit, ret. discriminate.
    - revert Hview. unfold ret. intros [= <- <-]. auto. }
  rewrite filter_map_comm.
  change (fun a => String.eqb (date_text (obj w1 a)) s)
    with (fun a => String.eqb (date_key (heap w1) a) s).
  rewrite sort_by_stable.
  change (fun a => String.eqb (date_key (heap w1) a) s)
    with (fun a => (fun r => String.eqb (date_text r) s) (obj w1 a)).
  rewrite <- (filter_map_comm (obj w1) (fun r => String.eqb (date_text r) s)). f_equal.
  unfold obj, w1, L. cbn [heap with_heap]. rewrite app_assoc, <- length_app.
  apply heap_seq.
Qed.

Lemma X21_same_date_file_order_witness :
  load_appointments two_ann_world = Ok (JArr (map JObj [ann_record; ann_later]))
  /\ exists pop w',
       view_appointments two_ann_world = (Ok (Some pop), w')
       /\ List.filter (fun r => String.eqb (date_text r) "2999-02-10")
                      (map (obj w') (upcoming pop))
          = [ann_later].
Proof.
  assert (load_appointments two_ann_world = Ok (JArr (map JObj [ann_record; ann_later])))
    as Hl by (vm_compute; reflexivity).
  split; [exact Hl|].
  destruct (view_appointments two_ann_world) as [[[pop|]|e] w'] eqn:E;
    [|vm_compute in E; discriminate E..].
  exists pop, w'. split; [reflexivity|].
  rewrite (X21_same_date_file_order _ _ _ _ "2999-02-10" Hl E). vm_compute. reflexivity.
Defined.

(** ** Dates in the strict form *)

Lemma is_digit_char (c : ascii) :
  Str.is_digit c = true -> exists k, In k digits /\ c = digit_char k.
Proof.
  unfold Str.is_digit. intros H. apply andb_true_iff in H as [Hlo Hhi].
  apply Nat.leb_le in Hlo, Hhi.
  exists (nat_of_ascii c - 48)%nat. split.
  - apply in_seq. lia.
  - unfold digit_char. replace (48 + (nat_of_ascii c - 48))%nat with (nat_of_ascii c) by lia.
    symmetry. apply ascii_nat_embedding.
Qed.

Lemma first_alt_ext {A} (alts : list (string -> option (Z * string)))
    (k1 k2 : Z -> string -> option A) (s : string) :
  (forall v r, k1 v r = k2 v r) -> first_alt alts k1 s = first_alt alts k2 s.
Proof.
  intros H. induction alts as [|alt alts IH]; [reflexivity|].
  cbn [first_alt]. destruct (alt s) as [[v r]|]; [|exact IH].
  rewrite H, IH. reflexivity.
Qed.

Lemma first_alt_map {A B} (f : A -> B) (alts : list (string -> option (Z * string)))
    (k : Z -> string -> option A) (s : string) :
  first_alt alts (fun v r => option_map f (k v r)) s = option_map f (first_alt alts k s).
Proof.
  induction alts as [|alt alts IH]; [reflexivity|].
  cbn [first_alt]. destruct (alt s) as [[v r]|]; [|exact IH].
  destruct (k v r); [reflexivity|exact IH].
Qed.

(** The format after the year, through [month_day]. *)
Lemma match_format_month_day (s : string) :
  match_format s
  = match match_year s with
    | Some (y, r) =>
        match match_dash r with
        | Some r => option_map (fun mdr : Z * Z * string =>
                                  (mkdate y (fst (fst mdr)) (snd (fst mdr)), snd mdr))
                               (month_day r)
        | None => None
        end
    | None => None
    end.
Proof.
  unfold match_format, month_day. destruct (match_year s) as [[y r]|]; [|reflexivity].
  destruct (match_dash r) as [r'|]; [|reflexivity].
  rewrite <- first_alt_map. apply first_alt_ext. intros m r1.
  destruct (match_dash r1) as [r2|]; [|reflexivity].
  rewrite <- first_alt_map. apply first_alt_ext. reflexivity.
Qed.

(** Month and day of two digits each: the numbers are read when they
    are a month of 1..12 and a day of 1..31, and not otherwise. *)
Lemma month_day_table :
  forallb (fun m1 => forallb (fun m2 => forallb (fun a1 => forallb (fun a2 =>
    let M := Z.of_nat (10 * m1 + m2) in
    let D := Z.of_nat (10 * a1 + a2) in
    let ok := (1 <=? M) && (M <=? 12) && (1 <=? D) && (D <=? 31) in
    match month_day (String (digit_char m1) (String (digit_char m2) (String "-"
                       (String (digit_char a1) (String (digit_char a2) EmptyString))))) with
    | Some (m, d, EmptyString) => ok && (m =? M) && (d =? D)
    | _ => negb ok
    end) digits) digits) digits) digits = true.
Proof. vm_compute. reflexivity. Qed.

Lemma month_day_digits (m1 m2 a1 a2 : nat) :
  In m1 digits -> In m2 digits -> In a1 digits -> In a2 digits ->
  let M := Z.of_nat (10 * m1 + m2) in
  let D := Z.of_nat (10 * a1 + a2) in
  let ok := (1 <=? M) && (M <=? 12) && (1 <=? D) && (D <=? 31) in
  match month_day (String (digit_char m1) (String (digit_char m2) (String "-"
                     (String (digit_char a1) (String (digit_char a2) EmptyString))))) with
  | Some (m, d, EmptyString) => ok && (m =? M) && (d =? D)
  | _ => negb ok
  end = true.
Proof.
  intros H1 H2 H3 H4. pose proof month_day_table as T.
  rewrite forallb_forall in T. specialize (T m1 H1).
  rewrite forallb_forall in T. specialize (T m2 H2).
  rewrite forallb_forall in T. specialize (T a1 H3).
  rewrite forallb_forall in T. exact (T a2 H4).
Qed.

Lemma digit_val_char (k : nat) : In k digits -> digit_val (digit_char k) = Some (Z.of_nat k).
Proof.
  intros H. assert (forallb (fun k => match digit_val (digit_char k) with
                                      | Some v => v =? Z.of_nat k | None => false end)
                            digits = true) as T by (vm_compute; reflexivity).
  rewrite forallb_forall in T. specialize (T k H).
  destruct (digit_val (digit_char k)); [|discriminate T].
  apply Z.eqb_eq in T. subst. reflexivity.
Qed.

Lemma zfill4_table :
  forallb (fun a => forallb (fun b => forallb (fun c => forallb (fun e =>
    String.eqb (Str.zfill 4 (Z.of_nat (1000 * a + 100 * b + 10 * c + e)))
               (String (digit_char a) (String (digit_char b) (String (digit_char c)
                  (String (digit_char e) EmptyString)))))
    digits) digits) digits) digits = true.
Proof. vm_compute. reflexivity. Qed.

Lemma zfill4_digits (a b c e : nat) :
  In a digits -> In b digits -> In c digits -> In e digits ->
  Str.zfill 4 (Z.of_nat (1000 * a + 100 * b + 10 * c + e))
  = String (digit_char a) (String (digit_char b) (String (digit_char c)
      (String (digit_char e) EmptyString))).
Proof.
  intros H1 H2 H3 H4. pose proof zfill4_table as T.
  rewrite forallb_forall in T. specialize (T a H1).
  rewrite forallb_forall in T. specialize (T b H2).
  rewrite forallb_forall in T. specialize (T c H3).
  rewrite forallb_forall in T. specialize (T e H4).
  apply String.eqb_eq in T. exact T.
Qed.

Lemma zfill2_digits (a b : nat) :
  In a digits -> In b digits ->
  Str.zfill 2 (Z.of_nat (10 * a + b))
  = String (digit_char a) (String (digit_char b) EmptyString).
Proof.
  intros H1 H2.
  assert (forallb (fun a => forallb (fun b =>
            String.eqb (Str.zfill 2 (Z.of_nat (10 * a + b)))
                       (String (digit_char a) (String (digit_char b) EmptyString)))
            digits) digits = true) as T by (vm_compute; reflexivity).
  rewrite forallb_forall in T. specialize (T a H1).
  rewrite forallb_forall in T. specialize (T b H2).
  apply String.eqb_eq in T. exact T.
Qed.

(** The text [strftime] writes for the date of eight digits. *)
Lemma strftime_iso (y1 y2 y3 y4 m1 m2 a1 a2 : nat) :
  In y1 digits -> In y2 digits -> In y3 digits -> In y4 digits ->
  In m1 digits -> In m2 digits -> In a1 digits -> In a2 digits ->
  strftime_date (iso_date y1 y2 y3 y4 m1 m2 a1 a2) = iso_text y1 y2 y3 y4 m1 m2 a1 a2.
Proof.
  intros. unfold strftime_date, strftime_day, iso_date. cbn [dt_date year month day].
  rewrite zfill4_digits, !zfill2_digits by assumption. reflexivity.
Qed.

(** The shape of a text in the strict form. *)
Lemma iso_shape (s : string) :
  iso_form s = true ->
  exists y1 y2 y3 y4 m1 m2 a1 a2,
    (In y1 digits /\ In y2 digits /\ In y3 digits /\ In y4 digits)
    /\ (In m1 digits /\ In m2 digits /\ In a1 digits /\ In a2 digits)
    /\ s = iso_text y1 y2 y3 y4 m1 m2 a1 a2.
Proof.
  unfold iso_form.
  destruct s as [|c1 [|c2 [|c3 [|c4 [|c5 [|c6 [|c7 [|c8 [|c9 [|c10 [|c11 s]]]]]]]]]]];
    cbn [list_ascii_of_string]; try discriminate.
  intros H. apply andb_true_iff in H as [H Hd2]. apply andb_true_iff in H as [H Hd1].
  cbn [forallb] in H.
  repeat match type of H with (_ && _ = true) =>
    let Hc := fresh "Hc" in apply andb_true_iff in H as [Hc H] end.
  apply Ascii.eqb_eq in Hd1, Hd2. subst c5 c8.
  destruct (is_digit_char _ Hc) as (y1 & ? & ->).
  destruct (is_digit_char _ Hc0) as (y2 & ? & ->).
  destruct (is_digit_char _ Hc1) as (y3 & ? & ->).
  destruct (is_digit_char _ Hc2) as (y4 & ? & ->).
  destruct (is_digit_char _ Hc3) as (m1 & ? & ->).
  destruct (is_digit_char _ Hc4) as (m2 & ? & ->).
  destruct (is_digit_char _ Hc5) as (a1 & ? & ->).
  destruct (is_digit_char _ Hc6) as (a2 & ? & ->).
  exists y1, y2, y3, y4, m1, m2, a1, a2. auto 10.
Qed.

Lemma iso_text_form (y1 y2 y3 y4 m1 m2 a1 a2 : nat) :
  In y1 digits -> In y2 digits -> In y3 digits -> In y4 digits ->
  In m1 digits -> In m2 digits -> In a1 digits -> In a2 digits ->
  iso_form (iso_text y1 y2 y3 y4 m1 m2 a1 a2) = true.
Proof.
  assert (forall k, In k digits -> Str.is_digit (digit_char k) = true) as Hd.
  { intros k Hk.
    assert (forallb (fun k => Str.is_digit (digit_char k)) digits = true) as T
      by (vm_compute; reflexivity).
    rewrite forallb_forall in T. exact (T k Hk). }
  intros. unfold iso_form, iso_text. cbn [list_ascii_of_string forallb].
  rewrite !Hd by assumption. reflexivity.
Qed.

(** How [strptime] reads a text of eight digits. *)
Lemma strptime_iso (y1 y2 y3 y4 m1 m2 a1 a2 : nat) :
  In y1 digits -> In y2 digits -> In y3 digits -> In y4 digits ->
  In m1 digits -> In m2 digits -> In a1 digits -> In a2 digits ->
  strptime (iso_text y1 y2 y3 y4 m1 m2 a1 a2)
  = if valid_date (iso_date y1 y2 y3 y4 m1 m2 a1 a2)
    then Some (iso_date y1 y2 y3 y4 m1 m2 a1 a2) else None.
Proof.
  intros Hy1 Hy2 Hy3 Hy4 Hm1 Hm2 Ha1 Ha2.
  unfold strptime. rewrite match_format_month_day. unfold iso_text.
  cbn [match_year]. rewrite !digit_val_char by assumption.
  cbn [match_dash].
  pose proof (month_day_digits m1 m2 a1 a2 Hm1 Hm2 Ha1 Ha2) as T. cbv zeta in T.
  replace (1000 * Z.of_nat y1 + 100 * Z.of_nat y2 + 10 * Z.of_nat y3 + Z.of_nat y4)
    with (Z.of_nat (1000 * y1 + 100 * y2 + 10 * y3 + y4)) by lia.
  set (Y := Z.of_nat (1000 * y1 + 100 * y2 + 10 * y3 + y4)).
  assert (forall M D, valid_date (mkdate Y M D) = true ->
            (1 <=? M) && (M <=? 12) && (1 <=? D) && (D <=? 31) = true) as Hrange.
  { intros M D Hv. unfold valid_date in Hv. cbn [year month day] in Hv.
    repeat match type of Hv with (_ && _ = true) =>
      let Hc := fresh "Hc" in apply andb_true_iff in Hv as [Hv Hc] end.
    assert (days_in_month Y M <= 31).
    { unfold days_in_month. repeat match goal with |- context [if ?b then _ else _] =>
        destruct b end; lia. }
    repeat (apply andb_true_iff; split); lia. }
  destruct (month_day _) as [[[m d] r]|]; cbn [option_map fst snd].
  - destruct r as [|c r].
    + apply andb_true_iff in T as [T Hd]. apply andb_true_iff in T as [T Hm].
      apply Z.eqb_eq in Hm, Hd. subst m d. reflexivity.
    + apply negb_true_iff in T. unfold iso_date.
      destruct (valid_date _) eqn:Hv; [|reflexivity].
      rewrite (Hrange _ _ Hv) in T. discriminate T.
  - apply negb_true_iff in T. unfold iso_date.
    destruct (valid_date _) eqn:Hv; [|reflexivity].
    rewrite (Hrange _ _ Hv) in T. discriminate T.
Qed.

(** A date in the strict form is written as [strftime] writes it. *)
Lemma iso_canonical (s : string) (d : date) :
  iso_form s = true -> strptime s = Some d -> s = strftime_date d.
Proof.
  intros Hiso Hd.
  destruct (iso_shape s Hiso)
    as (y1 & y2 & y3 & y4 & m1 & m2 & a1 & a2 & (?&?&?&?) & (?&?&?&?) & ->).
  rewrite strptime_iso in Hd by assumption.
  destruct (valid_date _); [|discriminate Hd]. injection Hd as <-.
  symmetry. apply strftime_iso; assumption.
Qed.

(** A calendar date is a date of eight digits. *)
Lemma valid_date_digits (d : date) :
  valid_date d = true ->
  exists y1 y2 y3 y4 m1 m2 a1 a2,
    (In y1 digits /\ In y2 digits /\ In y3 digits /\ In y4 digits)
    /\ (In m1 digits /\ In m2 digits /\ In a1 digits /\ In a2 digits)
    /\ d = iso_date y1 y2 y3 y4 m1 m2 a1 a2.
Proof.
  intros Hv. unfold valid_date in Hv.
  repeat match type of Hv with (_ && _ = true) =>
    let Hc := fresh "Hc" in apply andb_true_iff in Hv as [Hv Hc] end.
  assert (days_in_month (year d) (month d) <= 31).
  { unfold days_in_month. repeat match goal with |- context [if ?b then _ else _] =>
      destruct b end; lia. }
  destruct d as [Y M D]. cbn [year month day] in *.
  apply Z.leb_le in Hv, Hc, Hc0, Hc1, Hc2, Hc3.
  exists (Z.to_nat (Y / 1000)), (Z.to_nat (Y / 100 mod 10)), (Z.to_nat (Y / 10 mod 10)),
         (Z.to_nat (Y mod 10)), (Z.to_nat (M / 10)), (Z.to_nat (M mod 10)),
         (Z.to_nat (D / 10)), (Z.to_nat (D mod 10)).
  unfold digits, iso_date. rewrite !in_seq.
  split; [|split]; [repeat split; Z.to_euclidean_division_equations; lia..|].
  f_equal; Z.to_euclidean_division_equations; lia.
Qed.

(** [strftime] and [strptime] agree on every calendar date. *)
Lemma strptime_strftime (d : date) :
  valid_date d = true ->
  iso_form (strftime_date d) = true /\ strptime (strftime_date d) = Some d.
Proof.
  intros Hv.
  destruct (valid_date_digits d Hv)
    as (y1 & y2 & y3 & y4 & m1 & m2 & a1 & a2 & (?&?&?&?) & (?&?&?&?) & ->).
  rewrite strftime_iso by assumption. split.
  - apply iso_text_form; assumption.
  - rewrite strptime_iso by assumption. rewrite Hv. reflexivity.
Qed.

Lemma digit_compare (a b : nat) :
  In a digits -> In b digits ->
  Ascii.compare (digit_char a) (digit_char b) = Nat.compare a b.
Proof.
  intros Ha Hb.
  assert (forallb (fun a => forallb (fun b =>
            match Ascii.compare (digit_char a) (digit_char b), Nat.compare a b with
            | Eq, Eq | Lt, Lt | Gt, Gt => true
            | _, _ => false
            end) digits) digits = true) as T by (vm_compute; reflexivity).
  rewrite forallb_forall in T. specialize (T a Ha).
  rewrite forallb_forall in T. specialize (T b Hb).
  destruct (Ascii.compare _ _), (Nat.compare a b); try discriminate T; reflexivity.
Qed.

Lemma date_ltb_spec (a b : date) :
  date_ltb a b = true
  <-> year a < year b
      \/ (year a = year b
          /\ (month a < month b \/ (month a = month b /\ day a < day b))).
Proof.
  unfold date_ltb.
  rewrite orb_true_iff, andb_true_iff, orb_true_iff, andb_true_iff.
  rewrite !Z.ltb_lt, !Z.eqb_eq. reflexivity.
Qed.

(** Texts of eight digits compare as the dates they write. *)
Lemma iso_text_order (y1 y2 y3 y4 m1 m2 a1 a2 z1 z2 z3 z4 n1 n2 b1 b2 : nat) :
  (In y1 digits /\ In y2 digits /\ In y3 digits /\ In y4 digits) ->
  (In m1 digits /\ In m2 digits /\ In a1 digits /\ In a2 digits) ->
  (In z1 digits /\ In z2 digits /\ In z3 digits /\ In z4 digits) ->
  (In n1 digits /\ In n2 digits /\ In b1 digits /\ In b2 digits) ->
  String.ltb (iso_text y1 y2 y3 y4 m1 m2 a1 a2) (iso_text z1 z2 z3 z4 n1 n2 b1 b2)
  = date_ltb (iso_date y1 y2 y3 y4 m1 m2 a1 a2) (iso_date z1 z2 z3 z4 n1 n2 b1 b2).
Proof.
  intros (Hy1&Hy2&Hy3&Hy4) (Hm1&Hm2&Ha1&Ha2) (Hz1&Hz2&Hz3&Hz4) (Hn1&Hn2&Hb1&Hb2).
  unfold String.ltb, iso_text. cbn [String.compare].
  rewrite !digit_compare by assumption.
  change (Ascii.compare "-" "-") with Eq. cbv iota.
  unfold digits in *. rewrite in_seq in *.
  destruct (date_ltb _ _) eqn:E.
  - apply date_ltb_spec in E. unfold iso_date in E. cbn [year month day] in E.
    repeat match goal with
           | |- context [(?a ?= ?b)%nat] => destruct (Nat.compare_spec a b); [subst| |]
           end; first [reflexivity | exfalso; lia].
  - assert (~ date_ltb (iso_date y1 y2 y3 y4 m1 m2 a1 a2) (iso_date z1 z2 z3 z4 n1 n2 b1 b2)
              = true) as N by (rewrite E; discriminate).
    rewrite date_ltb_spec in N. unfold iso_date in N. cbn [year month day] in N.
    repeat match goal with
           | |- context [(?a ?= ?b)%nat] => destruct (Nat.compare_spec a b); [subst| |]
           end; first [reflexivity | exfalso; lia].
Qed.

(** Dates in the strict form compare, as texts, as the days they
    read as. *)
Lemma iso_order (s1 s2 : string) (d1 d2 : date) :
  iso_form s1 = true -> iso_form s2 = true ->
  strptime s1 = Some d1 -> strptime s2 = Some d2 ->
  String.ltb s1 s2 = date_ltb d1 d2.
Proof.
  intros H1 H2 E1 E2.
  destruct (iso_shape s1 H1) as (y1 & y2 & y3 & y4 & m1 & m2 & a1 & a2 & Hy & Hm & ->).
  destruct (iso_shape s2 H2) as (z1 & z2 & z3 & z4 & n1 & n2 & b1 & b2 & Hz & Hn & ->).
  assert (d1 = iso_date y1 y2 y3 y4 m1 m2 a1 a2) as ->.
  { destruct Hy as (?&?&?&?), Hm as (?&?&?&?). rewrite strptime_iso in E1 by assumption.
    destruct (valid_date _); congruence. }
  assert (d2 = iso_date z1 z2 z3 z4 n1 n2 b1 b2) as ->.
  { destruct Hz as (?&?&?&?), Hn as (?&?&?&?). rewrite strptime_iso in E2 by assumption.
    destruct (valid_date _); congruence. }
  apply iso_text_order; assumption.
Qed.

(** The day after a calendar date is a calendar date. *)
Lemma next_day_valid (d t : date) : valid_date d = true -> next_day d = Ok t -> valid_date t = true.
Proof.
  assert (forall y m, 28 <= days_in_month y m <= 31) as Hdim.
  { intros y m. unfold days_in_month.
    repeat match goal with |- context [if ?b then _ else _] => destruct b end; lia. }
  unfold valid_date, next_day. intros Hv.
  repeat match type of Hv with (_ && _ = true) =>
    let Hc := fresh "Hc" in apply andb_true_iff in Hv as [Hv Hc] end.
  apply Z.leb_le in Hv, Hc, Hc0, Hc1, Hc2, Hc3.
  destruct (Z.ltb_spec (day d) (days_in_month (year d) (month d))).
  - intros [= <-]. cbn [year month day]. repeat (apply andb_true_iff; split); lia.
  - destruct (Z.ltb_spec (month d) 12).
    + intros [= <-]. cbn [year month day].
      pose proof (Hdim (year d) (month d + 1)).
      repeat (apply andb_true_iff; split); lia.
    + destruct (Z.ltb_spec (year d) 9999); [|discriminate].
      intros [= <-]. cbn [year month day]. pose proof (Hdim (year d + 1) 1).
      repeat (apply andb_true_iff; split); lia.
Qed.

(** ** From the booking to the window and to the reminder *)

(** A record that counts as upcoming has a date text that reads as a
    day from [t] on. *)
Lemma is_upcoming_date (t : date) (r : pydict) :
  is_upcoming t r = true ->
  exists d, strptime (date_text r) = Some d /\ date_ltb d t = false.
Proof.
  unfold is_upcoming, get_or_empty, date_text.
  destruct (dict_get "date" r) as [v|]; cbn [default from_option id].
  - destruct v; try discriminate. destruct (strptime s) as [d|]; [|discriminate].
    intros H. exists d. split; [reflexivity|]. apply negb_true_iff. exact H.
  - intros H. vm_compute in H. discriminate H.
Qed.

Lemma sorted_lookup {A} (R : A -> A -> Prop) (l : list A) (i j : nat) (x y : A) :
  StronglySorted R l -> (i < j)%nat -> l !! i = Some x -> l !! j = Some y -> R x y.
Proof.
  intros Hs. revert i j. induction Hs as [|a l Hs IH Ha]; intros i j Hij Hi Hj.
  - discriminate Hi.
  - destruct j as [|j]; [lia|]. cbn in Hj. destruct i as [|i].
    + cbn in Hi. injection Hi as ->. rewrite Forall_forall in Ha. apply Ha.
      eapply list_elem_of_lookup_2. exact Hj.
    + cbn in Hi. apply (IH i j); [lia|assumption..].
Qed.

(** The window [view_appointments] opens on a list of records. *)
Lemma view_window (w w' : world) (recs : list pydict) (pop : popup) :
  load_appointments w = Ok (JArr (map JObj recs)) ->
  view_appointments w = (Ok (Some pop), w') ->
  let ups := List.filter (is_upcoming (dt_date (clock w))) recs in
  exists L,
    upcoming pop = sort_by (date_key (heap w')) L /\ map (obj w') L = ups.
Proof.
  intros Hload Hview. cbv zeta. unfold view_appointments in Hview.
  rewrite (bind_ok (reads load_appointments) _ w w _) in Hview
    by (unfold reads; rewrite Hload; reflexivity).
  destruct recs as [|r recs]; [discriminate Hview|].
  cbn [map truthy negb] in Hview.
  rewrite (bind_ok _ _ _ _ _ (build_upcoming_records (r :: recs) w)) in Hview.
  cbn [snd] in Hview.
  set (ups := List.filter _ (r :: recs)) in *.
  set (w1 := with_heap w (heap w ++ (r :: recs) ++ ups)) in *.
  set (L := seq (length (heap w) + length (r :: recs)) (length ups)) in *.
  assert (upcoming pop = sort_by (date_key (heap w1)) L /\ w' = w1) as [-> ->].
  { destruct (sort_by (date_key (heap w1)) L) as [|c up'].
    - revert Hview. unfold bind, emit, ret. discriminate.
    - revert Hview. unfold ret. intros [= <- <-]. auto. }
  exists L. split; [reflexivity|].
  unfold obj, w1, L. cbn [heap with_heap]. rewrite app_assoc, <- length_app.
  apply heap_seq.
Qed.

(** The window opens when a stored record is upcoming. *)
Lemma view_opens (w : world) (recs : list pydict) (r : pydict) :
  load_appointments w = Ok (JArr (map JObj recs)) ->
  In r recs -> is_upcoming (dt_date (clock w)) r = true ->
  exists pop w', view_appointments w = (Ok (Some pop), w').
Proof.
  intros Hload Hin Hup. unfold view_appointments.
  rewrite (bind_ok (reads load_appointments) _ w w _)
    by (unfold reads; rewrite Hload; reflexivity).
  destruct recs as [|r0 recs]; [destruct Hin|].
  cbn [map truthy negb].
  rewrite (bind_ok _ _ _ _ _ (build_upcoming_records (r0 :: recs) w)).
  cbn [snd].
  set (ups := List.filter _ (r0 :: recs)) in *.
  set (w1 := with_heap w (heap w ++ (r0 :: recs) ++ ups)) in *.
  set (L := seq (length (heap w) + length (r0 :: recs)) (length ups)) in *.
  destruct (sort_by (date_key (heap w1)) L) as [|c up'] eqn:Es.
  - exfalso.
    assert (In r ups) as Hr by (apply filter_In; auto).
    assert (length L = length ups) as Hlen by (unfold L; apply length_seq).
    pose proof (Permutation_length (sort_by_perm (date_key (heap w1)) L)) as Hp.
    rewrite Es in Hp. cbn [length] in Hp. destruct ups; [destruct Hr|].
    cbn [length] in Hlen. lia.
  - eexists _, _. reflexivity.
Qed.

(** X22.  When the date texts of the stored upcoming records are in the
    strict form [YYYY-MM-DD], the window of upcoming appointments is in
    the order of the calendar: no record stands before one of an
    earlier day. *)
Theorem X22_strict_dates_chronological (w w' : world) (recs : list pydict) (pop : popup)
    (i j : nat) (ri rj : pydict) :
  load_appointments w = Ok (JArr (map JObj recs)) ->
  view_appointments w = (Ok (Some pop), w') ->
  Forall (fun r => is_upcoming (dt_date (clock w)) r = true -> iso_form (date_text r) = true)
         recs ->
  (i < j)%nat -> shown w' pop !! i = Some ri -> shown w' pop !! j = Some rj ->
  exists di dj,
    strptime (date_text ri) = Some di /\ strptime (date_text rj) = Some dj
    /\ date_ltb dj di = false.
Proof.
  intros Hload Hview Hiso Hij Hi Hj.
  destruct (view_window _ _ _ _ Hload Hview) as (L & Hup & HL).
  assert (forall k r, shown w' pop !! k = Some r ->
            exists a d, upcoming pop !! k = Some a /\ r = obj w' a
                        /\ iso_form (date_text r) = true
                        /\ strptime (date_text r) = Some d) as Hrow.
  { intros k r Hk. unfold shown in Hk. rewrite list_lookup_fmap in Hk.
    destruct (upcoming pop !! k) as [a|] eqn:Ea; [|discriminate Hk].
    injection Hk as <-.
    assert (In (obj w' a) (List.filter (is_upcoming (dt_date (clock w))) recs)) as Hin.
    { rewrite <- HL. apply in_map.
      apply (Permutation_in _ (sort_by_perm (date_key (heap w')) L)).
      rewrite <- Hup. apply list_elem_of_In. eapply list_elem_of_lookup_2. exact Ea. }
    apply filter_In in Hin as [Hin Hu].
    rewrite Forall_forall in Hiso.
    destruct (is_upcoming_date _ _ Hu) as (d & Hd & _).
    exists a, d. split; [reflexivity|]. split; [reflexivity|]. split; [|exact Hd].
    apply Hiso; [apply list_elem_of_In; exact Hin|exact Hu]. }
  destruct (Hrow i ri Hi) as (ai & di & Hai & -> & Hisoi & Hdi).
  destruct (Hrow j rj Hj) as (aj & dj & Haj & -> & Hisoj & Hdj).
  exists di, dj. split; [exact Hdi|]. split; [exact Hdj|].
  pose proof (sort_by_sorted (date_key (heap w')) L) as Hs. rewrite <- Hup in Hs.
  pose proof (sorted_lookup _ _ _ _ _ _ Hs Hij Hai Haj) as Hle.
  unfold key_le in Hle.
  change (date_key (heap w') ai) with (date_text (obj w' ai)) in Hle.
  change (date_key (heap w') aj) with (date_text (obj w' aj)) in Hle.
  rewrite <- (iso_order _ _ _ _ Hisoj Hisoi Hdj Hdi).
  unfold String.leb in Hle. unfold String.ltb.
  rewrite (String.compare_antisym (date_text (obj w' aj)) (date_text (obj w' ai))).
  destruct (String.compare (date_text (obj w' ai)) (date_text (obj w' aj)));
    [reflexivity|reflexivity|discriminate Hle].
Qed.

Lemma X22_strict_dates_chronological_witness :
  exists pop w' di dj,
    view_appointments later_first_world = (Ok (Some pop), w')
    /\ shown w' pop = [ann_record; ann_later]
    /\ strptime (date_text ann_record) = Some di /\ strptime (date_text ann_later) = Some dj
    /\ date_ltb dj di = false.
Proof.
  assert (load_appointments later_first_world = Ok (JArr (map JObj [ann_later; ann_record])))
    as Hl by (vm_compute; reflexivity).
  destruct (view_appointments later_first_world) as [[[pop|]|e] w'] eqn:E;
    [|vm_compute in E; discriminate E..].
  assert (shown w' pop = [ann_record; ann_later]) as Hs.
  { vm_compute in E. injection E as <- <-. reflexivity. }
  destruct (X22_strict_dates_chronological _ _ _ _ 0 1 ann_record ann_later Hl E)
    as (di & dj & Hi & Hj & Hlt).
  - repeat constructor.
  - lia.
  - rewrite Hs. reflexivity.
  - rewrite Hs. reflexivity.
  - exists pop, w', di, dj. auto.
Defined.

(** What a booking leaves in the file. *)
Lemma booking_stored (w : world) (name phone date_str : string) (recs : list pydict) :
  ~ booking_invalid w name phone date_str ->
  load_appointments w = Ok (JArr (map JObj recs)) ->
  plain (JArr (map JObj recs)) = true ->
  APPOINTMENTS_FILE ∉ locked w ->
  exists w',
    save_appointment name phone date_str w = (Ok tt, w')
    /\ forall w2, files w2 = files w' -> locked w2 = locked w' ->
         load_appointments w2
         = Ok (JArr (map JObj (recs ++ [booked_fields name phone date_str]))).
Proof.
  intros Hvalid Hload Hplain Hfree.
  assert (String.eqb (Str.strip name) "" || String.eqb (Str.strip phone) ""
          || String.eqb (Str.strip date_str) "" = false) as Hblank.
  { apply orb_false_iff. split; [apply orb_false_iff; split|].
    - destruct (String.eqb_spec (Str.strip name) ""); [|reflexivity].
      exfalso. apply Hvalid. left. assumption.
    - destruct (String.eqb_spec (Str.strip phone) ""); [|reflexivity].
      exfalso. apply Hvalid. right. left. assumption.
    - destruct (String.eqb_spec (Str.strip date_str) ""); [|reflexivity].
      exfalso. apply Hvalid. right. right. left. assumption. }
  destruct (strptime (Str.strip date_str)) as [d|] eqn:Ed;
    [|exfalso; apply Hvalid; right; right; right; left; exact Ed].
  destruct (date_ltb d (dt_date (clock w))) eqn:Epast;
    [exfalso; apply Hvalid; right; right; right; right; eauto|].
  unfold save_appointment. rewrite Hblank.
  rewrite (bind_ok today _ w w (dt_date (clock w))) by reflexivity.
  rewrite Ed, Epast.
  rewrite (bind_ok (reads load_appointments) _ w w _)
    by (unfold reads; rewrite Hload; reflexivity).
  set (v := JArr (map JObj (recs ++ [booked_fields name phone date_str]))).
  rewrite (bind_ok (lift _) _ w w v)
    by (unfold v; rewrite map_app; reflexivity).
  destruct (save_appointments_writes v w Hfree) as (w1 & Es & Hf & Hl & _).
  rewrite (bind_ok _ _ _ _ _ Es).
  unfold bind, emit. eexists. split; [reflexivity|].
  cbn [files locked]. intros w2 Hf2 Hl2.
  apply (written_appointments_load v w).
  - unfold v. rewrite map_app. apply plain_snoc; [exact Hplain|reflexivity].
  - exact Hfree.
  - congruence.
  - congruence.
Qed.

Lemma booked_upcoming (t d : date) (name phone date_str : string) :
  strptime (Str.strip date_str) = Some d ->
  is_upcoming t (booked_fields name phone date_str) = date_geb d t.
Proof.
  intros Hd. unfold is_upcoming, booked_fields, get_or_empty.
  cbn [dict_get String.eqb Ascii.eqb Bool.eqb default from_option id].
  rewrite Hd. reflexivity.
Qed.

(** X23.  An appointment that was booked is listed by [View
    Appointments] on every day up to the day its date reads as, and on
    no later day. *)
Theorem X23_booked_is_listed (w : world) (name phone date_str : string)
    (recs : list pydict) (d : date) :
  ~ booking_invalid w name phone date_str ->
  load_appointments w = Ok (JArr (map JObj recs)) ->
  plain (JArr (map JObj recs)) = true ->
  APPOINTMENTS_FILE ∉ locked w ->
  strptime (Str.strip date_str) = Some d ->
  exists w',
    save_appointment name phone date_str w = (Ok tt, w')
    /\ forall w2, files w2 = files w' -> locked w2 = locked w' ->
         (date_ltb d (dt_date (clock w2)) = false ->
            exists pop w3, view_appointments w2 = (Ok (Some pop), w3)
                           /\ In (booked_fields name phone date_str) (shown w3 pop))
         /\ (date_ltb d (dt_date (clock w2)) = true ->
             forall pop w3, view_appointments w2 = (Ok (Some pop), w3) ->
                            ~ In (booked_fields name phone date_str) (shown w3 pop)).
Proof.
  intros Hvalid Hload Hplain Hfree Hd.
  destruct (booking_stored _ _ _ _ _ Hvalid Hload Hplain Hfree) as (w' & Hsave & Hstored).
  exists w'. split; [exact Hsave|]. intros w2 Hf2 Hl2.
  specialize (Hstored w2 Hf2 Hl2).
  set (bf := booked_fields name phone date_str) in *.
  assert (forall pop w3, view_appointments w2 = (Ok (Some pop), w3) ->
            (In bf (shown w3 pop) <-> is_upcoming (dt_date (clock w2)) bf = true)) as Hshown.
  { intros pop w3 Hview.
    destruct (view_window _ _ _ _ Hstored Hview) as (L & Hup & HL).
    unfold shown. rewrite Hup.
    rewrite (Permutation_map (obj w3) (sort_by_perm (date_key (heap w3)) L)), HL.
    rewrite filter_In, in_app_iff. cbn [In]. tauto. }
  split.
  - intros Hday.
    assert (is_upcoming (dt_date (clock w2)) bf = true) as Hu.
    { unfold bf. rewrite (booked_upcoming _ d) by exact Hd. unfold date_geb.
      rewrite Hday. reflexivity. }
    destruct (view_opens w2 _ bf Hstored) as (pop & w3 & Hview); [|exact Hu|].
    { apply in_app_iff. right. left. reflexivity. }
    exists pop, w3. split; [exact Hview|]. apply (Hshown _ _ Hview). exact Hu.
  - intros Hday pop w3 Hview Hin. apply (Hshown _ _ Hview) in Hin.
    unfold bf in Hin. rewrite (booked_upcoming _ d) in Hin by exact Hd.
    unfold date_geb in Hin. rewrite Hday in Hin. discriminate Hin.
Qed.

Lemma bob_booking_valid (date_str : string) (d : date) :
  strptime date_str = Some d -> Str.strip date_str = date_str ->
  date_ltb d (mkdate 2026 3 5) = false ->
  ~ booking_invalid ann_world "Bob" "0311" date_str.
Proof.
  intros Hd Hs Hp [H|[H|[H|[H|(d' & Hd' & Hp')]]]]; try discriminate H.
  - rewrite Hs in H. subst. discriminate Hd.
  - rewrite Hs in H. congruence.
  - rewrite Hs in Hd'. assert (d' = d) as -> by congruence.
    change (dt_date (clock ann_world)) with (mkdate 2026 3 5) in Hp'. congruence.
Qed.

Lemma X23_booked_is_listed_witness :
  ~ booking_invalid ann_world "Bob" "0311" "2999-02-01"
  /\ exists w' pop w3,
       save_appointment "Bob" "0311" "2999-02-01" ann_world = (Ok tt, w')
       /\ view_appointments (on_sample_day w') = (Ok (Some pop), w3)
       /\ In (booked_fields "Bob" "0311" "2999-02-01") (shown w3 pop).
Proof.
  assert (~ booking_invalid ann_world "Bob" "0311" "2999-02-01") as Hv.
  { apply (bob_booking_valid _ (mkdate 2999 2 1)); reflexivity. }
  split; [exact Hv|].
  destruct (X23_booked_is_listed ann_world "Bob" "0311" "2999-02-01" [ann_record]
              (mkdate 2999 2 1) Hv) as (w' & Hsave & Hlater).
  - vm_compute. reflexivity.
  - vm_compute. reflexivity.
  - change (locked ann_world) with (∅ : gset string). apply not_elem_of_empty.
  - reflexivity.
  - destruct (proj1 (Hlater (on_sample_day w') eq_refl eq_refl)) as (pop & w3 & Hview & Hin).
    + reflexivity.
    + exists w', pop, w3. auto.
Defined.

(** The reminder on a list of records. *)
Lemma reminder_on_records (w : world) (recs : list pydict) (tomorrow : date) :
  load_appointments w = Ok (JArr (map JObj recs)) ->
  next_day (dt_date (clock w)) = Ok tomorrow ->
  check_appointments_reminder w
  = (Ok tt, match List.filter (due_tomorrow (strftime_date tomorrow)) recs with
            | [] => w
            | due => add_event w (reminder due)
            end).
Proof.
  intros Hload Hnext. unfold check_appointments_reminder.
  rewrite (bind_ok (reads load_appointments) _ w w _)
    by (unfold reads; rewrite Hload; reflexivity).
  rewrite (bind_ok today _ w w (dt_date (clock w))) by reflexivity.
  rewrite (bind_ok (lift (next_day _)) _ w w tomorrow)
    by (unfold lift; rewrite Hnext; reflexivity).
  rewrite (bind_ok (lift (iter_json _)) _ w w (map JObj recs)) by reflexivity.
  rewrite (bind_ok (lift (due_on _ _)) _ w w _)
    by (unfold lift; rewrite due_on_records; reflexivity).
  destruct (List.filter _ recs) as [|r due] eqn:Ed; cbn [map]; [reflexivity|].
  change (JObj r :: map JObj due) with (map JObj (r :: due)).
  rewrite (bind_ok (lift (reminder_lines _)) _ w w _)
    by (unfold lift; rewrite reminder_lines_records; reflexivity).
  reflexivity.
Qed.

(** X24.  An appointment that was booked is in the reminder of a launch
    exactly when its date was typed in the strict form [YYYY-MM-DD] and
    reads as the day after that launch: a date the booking accepts in
    another form ([2026-3-6]) is never reminded. *)
Theorem X24_reminder_of_booking (w : world) (name phone date_str : string)
    (recs : list pydict) (d : date) :
  ~ booking_invalid w name phone date_str ->
  load_appointments w = Ok (JArr (map JObj recs)) ->
  plain (JArr (map JObj recs)) = true ->
  APPOINTMENTS_FILE ∉ locked w ->
  strptime (Str.strip date_str) = Some d ->
  exists w',
    save_appointment name phone date_str w = (Ok tt, w')
    /\ forall w2 tomorrow,
         files w2 = files w' -> locked w2 = locked w' ->
         valid_date (dt_date (clock w2)) = true ->
         next_day (dt_date (clock w2)) = Ok tomorrow ->
         exists due,
           check_appointments_reminder w2
           = (Ok tt, match due with [] => w2 | _ => add_event w2 (reminder due) end)
           /\ (In (booked_fields name phone date_str) due
               <-> iso_form (Str.strip date_str) = true /\ d = tomorrow).
Proof.
  intros Hvalid Hload Hplain Hfree Hd.
  destruct (booking_stored _ _ _ _ _ Hvalid Hload Hplain Hfree) as (w' & Hsave & Hstored).
  exists w'. split; [exact Hsave|]. intros w2 tomorrow Hf2 Hl2 Htoday Hnext.
  specialize (Hstored w2 Hf2 Hl2).
  set (bf := booked_fields name phone date_str) in *.
  exists (List.filter (due_tomorrow (strftime_date tomorrow)) (recs ++ [bf])).
  split.
  { rewrite (reminder_on_records _ _ _ Hstored Hnext).
    destruct (List.filter _ (recs ++ [bf])); reflexivity. }
  rewrite filter_In, in_app_iff. cbn [In].
  assert (due_tomorrow (strftime_date tomorrow) bf = true
          <-> Str.strip date_str = strftime_date tomorrow) as ->.
  { unfold due_tomorrow, bf, booked_fields, get_or_none.
    cbn [dict_get String.eqb Ascii.eqb Bool.eqb]. rewrite py_eq_str.
    split; [intros [= ->]; reflexivity|intros ->; reflexivity]. }
  pose proof (strptime_strftime tomorrow (next_day_valid _ _ Htoday Hnext)) as [Hiso Hback].
  split.
  - intros [_ Hs]. rewrite Hs in *. split; [exact Hiso|congruence].
  - intros [Hform ->]. split; [auto|]. apply iso_canonical; assumption.
Qed.

Lemma X24_reminder_of_booking_witness :
  ~ booking_invalid ann_world "Bob" "0311" "2026-03-06"
  /\ exists w' due,
       save_appointment "Bob" "0311" "2026-03-06" ann_world = (Ok tt, w')
       /\ check_appointments_reminder (on_sample_day w')
          = (Ok tt, add_event (on_sample_day w') (reminder due))
       /\ In (booked_fields "Bob" "0311" "2026-03-06") due.
Proof.
  assert (~ booking_invalid ann_world "Bob" "0311" "2026-03-06") as Hv.
  { apply (bob_booking_valid _ (mkdate 2026 3 6)); reflexivity. }
  split; [exact Hv|].
  destruct (X24_reminder_of_booking ann_world "Bob" "0311" "2026-03-06" [ann_record]
              (mkdate 2026 3 6) Hv) as (w' & Hsave & Hlater).
  - vm_compute. reflexivity.
  - vm_compute. reflexivity.
  - change (locked ann_world) with (∅ : gset string). apply not_elem_of_empty.
  - reflexivity.
  - destruct (Hlater (on_sample_day w') (mkdate 2026 3 6) eq_refl eq_refl eq_refl eq_refl)
      as (due & Hrem & Hin).
    assert (In (booked_fields "Bob" "0311" "2026-03-06") due) as Hb
      by (apply Hin; split; reflexivity).
    exists w', due. split; [exact Hsave|]. split; [|exact Hb].
    rewrite Hrem. destruct due; [destruct Hb|reflexivity].
Defined.

(** ** The session that is not ready *)

(** A bill refused at a check leaves the session as it was. *)
Lemma generate_refused_session (go_on : bool) (app : ClinicApp) (w : world) :
  passes_checks go_on app = false ->
  snd (fst (generate_bill_prescription go_on app w)) = app.
Proof.
  unfold passes_checks, phone_passes, generate_bill_prescription.
  destruct (String.eqb _ "" || String.eqb _ ""); cbn [negb andb]; [reflexivity|].
  destruct (phone_looks_usual _); cbn [orb negb].
  - destruct (selected_treatments app) as [|t ts]; cbn [negb andb]; [reflexivity|].
    destruct (String.eqb _ "VIP" && _); [reflexivity|discriminate].
  - destruct go_on; cbn [negb andb snd]; [|reflexivity].
    destruct (selected_treatments app) as [|t ts]; cbn [negb andb]; [reflexivity|].
    destruct (String.eqb _ "VIP" && _); [reflexivity|discriminate].
Qed.

(** The operations on the treatment list leave the patient alone. *)
Lemma window_step_patient (m m' : MainWindow) :
  window_step m m' -> patient (session m') = patient (session m).
Proof.
  intros [idxs w w' H|a b w w' H|idxs rows w w' H|n z ->].
  - destruct idxs as [|i idxs]; cbn [add_selected_treatments] in H.
    + revert H. unfold bind, emit, ret. intros [= <- _]. reflexivity.
    + revert H. unfold ret. intros [= <- _]. reflexivity.
  - revert H. unfold add_new_treatment, bind, emit, ret.
    destruct a as [typed|]; [|intros [= <- _]; reflexivity].
    destruct (String.eqb typed ""); [intros [= <- _]; reflexivity|].
    destruct (String.eqb (Str.strip typed) ""); [intros [= <- _]; reflexivity|].
    destruct (has_key _ _); [intros [= <- _]; reflexivity|].
    destruct b as [price|]; [|intros [= <- _]; reflexivity].
    destruct (save_treatments _ _) as [[[]|e] w1]; [|discriminate].
    intros [= <- _]. reflexivity.
  - destruct idxs as [|i idxs]; cbn [on_remove] in H.
    + revert H. unfold bind, emit, ret. intros [= <- _]. reflexivity.
    + revert H. unfold bind. destruct (save_treatments _ _) as [[[]|e] w1]; [|discriminate].
      unfold emit, ret. intros [= <- _]. reflexivity.
  - reflexivity.
Qed.

Lemma no_bill_asked_patient (app : ClinicApp) : no_bill_asked app -> patient app = None.
Proof.
  induction 1 as [w app w' Hinit|app|app n ph ty dis pr _ IH|m m' _ IH Hstep
                  |go_on app w _ IH Href].
  - exact (init_not_generated _ _ _ Hinit).
  - reflexivity.
  - exact IH.
  - rewrite (window_step_patient _ _ Hstep). exact IH.
  - rewrite (generate_refused_session _ _ _ Href). exact IH.
Qed.

(** C8 (amended).  In a session in which no bill has got past the
    checks since the launch or the last reset, printing and saving each
    only show the error box: nothing is written, nothing goes to the
    printer, and the files are as they were. *)
Theorem C8_not_ready (app : ClinicApp) (w : world) (printer_ok : bool) :
  no_bill_asked app ->
  print_bill_and_prescription printer_ok app w = (Ok tt, add_event w (not_ready "printing"))
  /\ save_to_txt app w = (Ok tt, add_event w (not_ready "saving"))
  /\ no_side_effect w (add_event w (not_ready "printing"))
  /\ no_side_effect w (add_event w (not_ready "saving")).
Proof.
  intros Hno. apply no_bill_asked_patient in Hno.
  unfold print_bill_and_prescription, save_to_txt. rewrite Hno.
  split; [reflexivity|]. split; [reflexivity|].
  split; apply add_event_no_side_effect; reflexivity.
Qed.

(** The theorem at work after a reset and a bill refused for its
    empty form. *)
Lemma C8_not_ready_witness :
  no_bill_asked (snd (fst (generate_bill_prescription true blank_session empty_world)))
  /\ events (snd (save_to_txt
                    (snd (fst (generate_bill_prescription true blank_session empty_world)))
                    empty_world))
     = [ShowError "Error" [Lit "Generate bill and prescription first before saving."]].
Proof.
  assert (no_bill_asked
            (snd (fst (generate_bill_prescription true blank_session empty_world)))) as Hno.
  { apply nba_refused; [apply nba_reset|reflexivity]. }
  split; [exact Hno|].
  rewrite (proj1 (proj2 (C8_not_ready _ empty_world true Hno))). reflexivity.
Defined.

(** C8, as stated, fails.  A bill that passes the checks and then
    cannot be rendered is not generated: the callback raises, nothing
    is shown and nothing is written.  Yet the session holds the
    patient from then on, and printing and saving do not show the
    error box: they render the bill anew and raise as the rendering
    does. *)
Lemma C8_aborted_generate_is_ready :
  patient huge_app = None
  /\ exists app',
       generate_bill_prescription true huge_app empty_world
       = (Raise OverflowError, app', empty_world)
       /\ text_output app' = ""
       /\ print_bill_and_prescription true app' empty_world
          = (Raise OverflowError, empty_world)
       /\ save_to_txt app' empty_world = (Raise OverflowError, empty_world)
       /\ print_bill_and_prescription true app' empty_world
          <> (Ok tt, add_event empty_world (not_ready "printing"))
       /\ save_to_txt app' empty_world
          <> (Ok tt, add_event empty_world (not_ready "saving")).
Proof.
  split; [reflexivity|].
  assert (generate_ready true huge_app) as Hr.
  { repeat split; try discriminate; try (vm_compute; lia).
    repeat constructor. }
  assert (bill_refusal (session_patient huge_app) = Some OverflowError) as Hb
    by (vm_compute; reflexivity).
  assert (forall t, combined_text (session_patient huge_app) t = Raise OverflowError) as Hc.
  { intros t. unfold combined_text, get_bill_text. rewrite (bill_refused _ t _ Hb).
    reflexivity. }
  exists (set_patient huge_app (Some (session_patient huge_app))).
  assert (print_bill_and_prescription true
            (set_patient huge_app (Some (session_patient huge_app))) empty_world
          = (Raise OverflowError, empty_world)) as Hp.
  { unfold print_bill_and_prescription, set_patient, bind, gets, lift. cbn [patient].
    change (mkPatient _ _ _ _ _ _) with (session_patient huge_app). rewrite Hc. reflexivity. }
  assert (save_to_txt (set_patient huge_app (Some (session_patient huge_app))) empty_world
          = (Raise OverflowError, empty_world)) as Hs.
  { unfold save_to_txt, set_patient, bind, gets, lift. cbn [patient].
    change (mkPatient _ _ _ _ _ _) with (session_patient huge_app). rewrite Hc. reflexivity. }
  split; [|split; [reflexivity|split; [exact Hp|split; [exact Hs|split]]]].
  - rewrite (generate_renders _ _ _ Hr), Hc. reflexivity.
  - rewrite Hp. discriminate.
  - rewrite Hs. discriminate.
Qed.
